(** * leo-subscribers: retry executor, circuit breaker, connection supervisor,
      transfer classifier and subscription ledger

    A shallow embedding of [retry.js], [circuit-breaker.js] (the class at the
    end of [logger.js]), [db.js] and [monitor-subscriptions.js], with the
    properties the specification states about them; then the periodic
    check, the search of the payment history, the health module and
    [free-trial.js], with further properties of the code.

    Conventions of the embedding.
    - JavaScript numbers that hold counters and millisecond time stamps are
      integers ([Z]); delays, which the code multiplies by fractional backoff
      factors, are exact rationals ([Q]).
    - An [async] function is a state transformer returning an [Outcome]:
      either the value the promise resolves with or the error it rejects
      with.  Calls are taken one at a time (no interleaving of two calls on
      the same object).
    - Calls to [logger] and [console] do not influence control flow or state
      and are left out. *)

From Stdlib Require Import ZArith QArith Qround Qpower Qfield Lia List String Ascii Bool.
From stdpp Require Import gmap strings.
Import ListNotations.

Local Open Scope Z_scope.

(* ===================================================================== *)
(** * JavaScript [Date]: the calendar arithmetic behind [getDate]/[setDate] *)
(* ===================================================================== *)

(** A [Date] is its time value, milliseconds since 1970-01-01T00:00Z.  The
    process time zone is taken to be UTC, so local time and UTC coincide.
    The functions follow ECMA-262 (Day, TimeWithinDay, YearFromTime,
    MonthFromTime, DateFromTime, MakeDay, MakeDate); the proleptic Gregorian
    calendar is computed in closed form on 400-year eras whose years start
    on March 1st. *)
Module JsDate.

Definition msPerDay : Z := 86400000.

Definition Day (t : Z) : Z := t / msPerDay.
Definition TimeWithinDay (t : Z) : Z := t mod msPerDay.

(** Days in an era before its [y]-th year (years starting in March). *)
Definition daysBeforeYear (y : Z) : Z := 365 * y + y / 4 - y / 100.
(** Days in a March-based year before its [mp]-th month. *)
Definition daysBeforeMonth (mp : Z) : Z := (153 * mp + 2) / 5.

Definition yearOfEra (doe : Z) : Z :=
  (doe - doe / 1460 + doe / 36524 - doe / 146096) / 365.
Definition monthOfYear (doy : Z) : Z := (5 * doy + 2) / 153.

(** Day number (days since the epoch) to (year, month 0..11, date 1..31). *)
Definition civil_from_days (d : Z) : Z * Z * Z :=
  let z := d + 719468 in
  let era := z / 146097 in
  let doe := z mod 146097 in
  let yoe := yearOfEra doe in
  let doy := doe - daysBeforeYear yoe in
  let mp := monthOfYear doy in
  let date := doy - daysBeforeMonth mp + 1 in
  let m := if mp <? 10 then mp + 2 else mp - 10 in
  let y := yoe + era * 400 + (if m <=? 1 then 1 else 0) in
  (y, m, date).

(** (year, month 0..11, date) to day number; [date] may lie outside the
    month, the day number then runs on into the neighbouring months. *)
Definition days_from_civil (y m date : Z) : Z :=
  let y' := if m <=? 1 then y - 1 else y in
  let era := y' / 400 in
  let yoe := y' mod 400 in
  let mp := if m <=? 1 then m + 10 else m - 2 in
  let doy := daysBeforeMonth mp + date - 1 in
  let doe := daysBeforeYear yoe + doy in
  era * 146097 + doe - 719468.

Definition YearFromTime (t : Z) : Z := fst (fst (civil_from_days (Day t))).
Definition MonthFromTime (t : Z) : Z := snd (fst (civil_from_days (Day t))).
Definition DateFromTime (t : Z) : Z := snd (civil_from_days (Day t)).

(** [MakeDay(year, month, date)]: the day number of the first of the month
    plus [date - 1]; the month is first brought into 0..11. *)
Definition MakeDay (year month date : Z) : Z :=
  days_from_civil (year + month / 12) (month mod 12) 1 + date - 1.
Definition MakeDate (day time : Z) : Z := day * msPerDay + time.

(** [Date.prototype.getDate()] and [Date.prototype.setDate(date)]
    (the latter returns the new time value of the mutated object). *)
Definition getDate (t : Z) : Z := DateFromTime t.
Definition setDate (t : Z) (date : Z) : Z :=
  MakeDate (MakeDay (YearFromTime t) (MonthFromTime t) date) (TimeWithinDay t).

(** The day number of the first day of the month that contains day [d]. *)
Definition monthStart (d : Z) : Z :=
  let '(y, m, _) := civil_from_days d in days_from_civil y m 1.

(** The parts of [civil_from_days], named. *)
Definition eraOf (d : Z) : Z := (d + 719468) / 146097.
Definition doeOf (d : Z) : Z := (d + 719468) mod 146097.
Definition yoeOf (d : Z) : Z := yearOfEra (doeOf d).
Definition doyOf (d : Z) : Z := doeOf d - daysBeforeYear (yoeOf d).
Definition mpOf (d : Z) : Z := monthOfYear (doyOf d).
End JsDate.

(* ===================================================================== *)
(** * JavaScript values and effects shared by the modules *)
(* ===================================================================== *)

(** [new Error(message)]. *)
Record JsError : Type := Error { message : string }.

(** How an awaited promise settles. *)
Inductive Outcome (A : Type) : Type :=
| Resolved (a : A)
| Rejected (e : JsError).
Arguments Resolved {A} a.
Arguments Rejected {A} e.

(** An [async] function over a state [St]. *)
Definition Async (St A : Type) : Type := St -> Outcome A * St.

(** What the code asks of its host: the wall clock and timers.
    [setTimeout ms] stands for [await new Promise(r => setTimeout(r, ms))]. *)
Class Runtime (St : Type) : Type := {
  Date_now : St -> Z;
  setTimeout : Q -> St -> St
}.

(** [x || d] on numbers and strings: [undefined], [0] and the empty string
    are falsy. *)
Definition or_Z (x : option Z) (d : Z) : Z :=
  match x with
  | Some v => if v =? 0 then d else v
  | None => d
  end.

Definition or_Q (x : option Q) (d : Q) : Q :=
  match x with
  | Some v => if Qeq_bool v 0 then d else v
  | None => d
  end.

Definition or_string (x : option string) (d : string) : string :=
  match x with
  | Some EmptyString => d
  | Some v => v
  | None => d
  end.

(** [a - b] where [b] may be [null] ([null] converts to [0]). *)
Definition toNumber (x : option Z) : Z :=
  match x with
  | Some v => v
  | None => 0
  end.

(** ** Observing an execution

    To count invocations and suspensions, a state is paired with a trace:
    timers append [Suspended ms], and an operation wrapped by [observed]
    appends [Invoked] each time it is called. *)
Inductive Event : Type :=
| Invoked
| Suspended (ms : Q).

Record Traced (St : Type) : Type := MkTraced { inner : St; trace : list Event }.
Arguments MkTraced {St} inner trace.
Arguments inner {St} t.
Arguments trace {St} t.

#[global] Instance Traced_Runtime {St : Type} `{Runtime St} : Runtime (Traced St) := {
  Date_now t := Date_now (inner t);
  setTimeout ms t := MkTraced (setTimeout ms (inner t)) (trace t ++ [Suspended ms])
}.

Definition observed {St A : Type} (operation : Async St A) : Async (Traced St) A :=
  fun t =>
    let '(r, s) := operation (inner t) in
    (r, MkTraced s (trace t ++ [Invoked])).

Definition is_Invoked (ev : Event) : bool :=
  match ev with
  | Invoked => true
  | Suspended _ => false
  end.

Definition invocations (tr : list Event) : nat := List.length (List.filter is_Invoked tr).

(* ===================================================================== *)
(** * retry.js: [RetryOperation] *)
(* ===================================================================== *)
Module Retry.

Record Options : Type := {
  opt_maxAttempts : option Z;
  opt_delay : option Q;
  opt_backoffFactor : option Q;
  opt_name : option string
}.

Record RetryOperation : Type := {
  maxAttempts : Z;
  delay : Q;
  backoffFactor : Q;
  name : string
}.

(** [constructor(options = {})]. *)
Definition new (options : Options) : RetryOperation := {|
  maxAttempts := or_Z (opt_maxAttempts options) 3;
  delay := or_Q (opt_delay options) (1000 # 1);
  backoffFactor := or_Q (opt_backoffFactor options) (2 # 1);
  name := or_string (opt_name options) "unnamed"
|}.

(** [this.delay * Math.pow(this.backoffFactor, attempt - 1)]. *)
Definition waitTime (r : RetryOperation) (attempt : Z) : Q :=
  (delay r * backoffFactor r ^ (attempt - 1))%Q.

Section Execute.
Context {St : Type} `{Runtime St} {A : Type}.

(** The [while (attempt <= this.maxAttempts)] loop, entered with the current
    [attempt].  [fuel] bounds the iterations; [execute] passes
    [maxAttempts], which the loop never exhausts before its own condition
    turns false (lemma [loop_fuel_enough]).  The result is [None] when the
    loop ends without returning: the promise then resolves with
    [undefined]. *)
Fixpoint loop (fuel : nat) (r : RetryOperation) (operation : Async St A)
    (attempt : Z) (st : St) : Outcome (option A) * St :=
  match fuel with
  | O => (Resolved None, st)
  | S fuel' =>
      if attempt <=? maxAttempts r then
        match operation st with
        | (Resolved a, st1) => (Resolved (Some a), st1)
        | (Rejected error, st1) =>
            if attempt =? maxAttempts r then (Rejected error, st1)
            else loop fuel' r operation (attempt + 1) (setTimeout (waitTime r attempt) st1)
        end
      else (Resolved None, st)
  end.

(** [async execute(operation)]. *)
Definition execute (r : RetryOperation) (operation : Async St A) : Async St (option A) :=
  fun st => loop (Z.to_nat (maxAttempts r)) r operation 1 st.

(** The state in which attempt [k] (counted from 1) starts when every
    earlier attempt has failed: the state left by the failed attempt
    [k - 1], after the backoff suspension. *)
Fixpoint state_before (r : RetryOperation) (operation : Async St A) (st : St)
    (k : nat) : St :=
  match k with
  | O => st
  | S O => st
  | S k' =>
      setTimeout (waitTime r (Z.of_nat k'))
        (snd (operation (state_before r operation st k')))
  end.

End Execute.

(** The trace the specification describes for an operation that fails
    [n] times in a row, the first of these attempts being attempt [k]: an
    invocation, then for each attempt [j] but the last the suspension
    [delay * backoffFactor^(j-1)] followed by the next invocation; nothing
    after the last invocation. *)
Definition backoff_schedule_from (r : RetryOperation) (k n : nat) : list Event :=
  List.concat
    (List.map (fun j => [Invoked; Suspended (waitTime r (Z.of_nat j))])
       (List.seq k (n - 1)))
  ++ [Invoked].

Definition backoff_schedule (r : RetryOperation) (n : nat) : list Event :=
  backoff_schedule_from r 1 n.

End Retry.

(* ===================================================================== *)
(** * circuit-breaker.js: [CircuitBreaker] *)
(* ===================================================================== *)
Module Breaker.

Record Options : Type := {
  opt_failureThreshold : option Z;
  opt_resetTimeout : option Z;
  opt_name : option string
}.

Record CircuitBreaker : Type := {
  failureThreshold : Z;
  resetTimeout : Z;
  failureCount : Z;
  isOpen : bool;
  lastFailureTime : option Z;
  name : string
}.

(** [constructor(options = {})]. *)
Definition new (options : Options) : CircuitBreaker := {|
  failureThreshold := or_Z (opt_failureThreshold options) 5;
  resetTimeout := or_Z (opt_resetTimeout options) 60000;
  failureCount := 0;
  isOpen := false;
  lastFailureTime := None;
  name := or_string (opt_name options) "unnamed"
|}.

(** [success()]. *)
Definition success (cb : CircuitBreaker) : CircuitBreaker := {|
  failureThreshold := failureThreshold cb;
  resetTimeout := resetTimeout cb;
  failureCount := 0;
  isOpen := false;
  lastFailureTime := lastFailureTime cb;
  name := name cb
|}.

(** [failure()], where [now] is what [Date.now()] returns inside it. *)
Definition failure (now : Z) (cb : CircuitBreaker) : CircuitBreaker := {|
  failureThreshold := failureThreshold cb;
  resetTimeout := resetTimeout cb;
  failureCount := failureCount cb + 1;
  isOpen := if failureCount cb + 1 >=? failureThreshold cb then true else isOpen cb;
  lastFailureTime := Some now;
  name := name cb
|}.

(** [reset()]. *)
Definition reset (cb : CircuitBreaker) : CircuitBreaker := {|
  failureThreshold := failureThreshold cb;
  resetTimeout := resetTimeout cb;
  failureCount := 0;
  isOpen := false;
  lastFailureTime := None;
  name := name cb
|}.

Record State : Type := {
  state_isOpen : bool;
  state_failureCount : Z;
  state_lastFailureTime : option Z
}.

(** [getState()]. *)
Definition getState (cb : CircuitBreaker) : State := {|
  state_isOpen := isOpen cb;
  state_failureCount := failureCount cb;
  state_lastFailureTime := lastFailureTime cb
|}.

(** [new Error(`Circuit breaker is open for ${this.name}`)]: the
    specification's [CircuitOpen]. *)
Definition CircuitOpen (cb : CircuitBreaker) : JsError :=
  Error (String.append "Circuit breaker is open for " (name cb)).

Section Execute.
Context {St : Type} `{Runtime St} {A : Type}.

(** [async execute(operation)]: the outcome, the breaker afterwards and the
    state afterwards. *)
Definition execute (cb : CircuitBreaker) (operation : Async St A) (st : St)
    : Outcome A * CircuitBreaker * St :=
  let gate :=
    if isOpen cb then
      if Date_now st - toNumber (lastFailureTime cb) >=? resetTimeout cb
      then Some (reset cb)
      else None
    else Some cb in
  match gate with
  | None => (Rejected (CircuitOpen cb), cb, st)
  | Some cb1 =>
      match operation st with
      | (Resolved result, st1) => (Resolved result, success cb1, st1)
      | (Rejected error, st1) => (Rejected error, failure (Date_now st1) cb1, st1)
      end
  end.

End Execute.

(** The breaker as an [execute] call leaves it. *)
Definition after {St A : Type} (x : Outcome A * CircuitBreaker * St) : CircuitBreaker :=
  snd (fst x).

(** A run of [n] consecutive [execute] calls (any operations, any result
    types, the host state free to change between calls) each of which
    fails, leading from one breaker state to another. *)
Inductive FailedCalls {St : Type} `{Runtime St} (cb : CircuitBreaker)
  : nat -> CircuitBreaker -> Prop :=
| FailedCalls_nil : FailedCalls cb O cb
| FailedCalls_snoc n cb1 cb2 (A : Type) (operation : Async St A) st error st1 :
    FailedCalls cb n cb1 ->
    execute cb1 operation st = (Rejected error, cb2, st1) ->
    FailedCalls cb (S n) cb2.

End Breaker.

(* ===================================================================== *)
(** * init.sql and db.js: the [subscriptions] table and [Database] *)
(* ===================================================================== *)
Module Db.

(** A row of [subscriptions], keyed by its [username] (the column is
    [UNIQUE]); time stamps are JavaScript time values.  The surrogate [id]
    column plays no role and is left out. *)
Record Row : Type := {
  subscription_date : Z;
  expiration_date : Z;
  date_updated : Z;
  active_subscription : bool
}.

(** The statements the monitor sends. *)
Inductive Statement : Type :=
| SelectDates (username : string)
    (* SELECT subscription_date, expiration_date FROM subscriptions
       WHERE username = $1 *)
| Upsert (username : string) (subscription_date expiration_date : Z)
    (* INSERT INTO subscriptions (username, subscription_date, expiration_date)
       VALUES ($1, $2, $3) ON CONFLICT (username) DO UPDATE SET
       subscription_date = $2, expiration_date = $3,
       date_updated = CURRENT_TIMESTAMP, active_subscription = TRUE *)
| UpsertIfLater (username : string) (subscription_date expiration_date : Z).
    (* the same with EXCLUDED values and
       WHERE subscriptions.expiration_date < EXCLUDED.expiration_date *)

Record QueryResult : Type := { rows : list Row }.

(** The host of the ledger: the clock, the table, the statements that have
    changed the table (oldest first), and the fate of the coming
    [pool.query] calls ([Some e]: the call throws [e] without touching the
    table; [None], or the list exhausted: the server runs the statement). *)
Record World : Type := {
  clock : Z;
  subscriptions : gmap string Row;
  journal : list Statement;
  pool_faults : list (option JsError)
}.

Definition granted (sd ed now : Z) : Row := {|
  subscription_date := sd;
  expiration_date := ed;
  date_updated := now;
  active_subscription := true
|}.

(** [username VARCHAR(16)]: a longer value is refused by the server. *)
Definition too_long : JsError :=
  Error "value too long for type character varying(16)".

(** What the server does with a statement at time [now] (its
    [CURRENT_TIMESTAMP], read off the same clock as [Date.now()]): an
    error, or the rows returned, the table afterwards and whether a row was
    written. *)
Definition run (stmt : Statement) (now : Z) (tbl : gmap string Row)
    : JsError + (QueryResult * gmap string Row * bool) :=
  match stmt with
  | SelectDates username =>
      inr ({| rows := match tbl !! username with
                      | Some row => [row]
                      | None => []
                      end |}, tbl, false)
  | Upsert username sd ed =>
      if (16 <? String.length username)%nat then inl too_long
      else inr ({| rows := [] |}, <[username := granted sd ed now]> tbl, true)
  | UpsertIfLater username sd ed =>
      if (16 <? String.length username)%nat then inl too_long
      else
        match tbl !! username with
        | None => inr ({| rows := [] |}, <[username := granted sd ed now]> tbl, true)
        | Some row =>
            if expiration_date row <? ed
            then inr ({| rows := [] |}, <[username := granted sd ed now]> tbl, true)
            else inr ({| rows := [] |}, tbl, false)
        end
  end.

(** [this.pool.query(text, params)]. *)
Definition pool_query (stmt : Statement) : Async World QueryResult :=
  fun w =>
    let rest := List.tl (pool_faults w) in
    match List.hd None (pool_faults w) with
    | Some error =>
        (Rejected error,
         {| clock := clock w; subscriptions := subscriptions w;
            journal := journal w; pool_faults := rest |})
    | None =>
        match run stmt (clock w) (subscriptions w) with
        | inl error =>
            (Rejected error,
             {| clock := clock w; subscriptions := subscriptions w;
                journal := journal w; pool_faults := rest |})
        | inr (result, tbl, written) =>
            (Resolved result,
             {| clock := clock w; subscriptions := tbl;
                journal := if written then journal w ++ [stmt] else journal w;
                pool_faults := rest |})
        end
    end.

(** Node's timers: a delay below 1 or above 2^31-1 becomes 1, a fractional
    delay is truncated. *)
Definition timer_ms (ms : Q) : Z :=
  if Qle_bool 1 ms && Qle_bool ms (2147483647 # 1) then Qfloor ms else 1.

#[global] Instance World_Runtime : Runtime World := {
  Date_now w := clock w;
  setTimeout ms w :=
    {| clock := clock w + timer_ms ms; subscriptions := subscriptions w;
       journal := journal w; pool_faults := pool_faults w |}
}.

(** [class Database]: the fields [query] uses. *)
Record Database : Type := {
  circuitBreaker : Breaker.CircuitBreaker;
  retry : Retry.RetryOperation
}.

(** [constructor()]. *)
Definition new : Database := {|
  circuitBreaker :=
    Breaker.new {| Breaker.opt_name := Some "database";
                   Breaker.opt_failureThreshold := Some 5;
                   Breaker.opt_resetTimeout := Some 30000 |};
  retry :=
    Retry.new {| Retry.opt_name := Some "database";
                 Retry.opt_maxAttempts := Some 3;
                 Retry.opt_delay := Some (1000 # 1);
                 Retry.opt_backoffFactor := Some (2 # 1) |}
|}.

(** The module-level [db] object together with its host. *)
Record State : Type := { db : Database; world : World }.

#[global] Instance State_Runtime : Runtime State := {
  Date_now s := Date_now (world s);
  setTimeout ms s := {| db := db s; world := setTimeout ms (world s) |}
}.

(** [async query(text, params)]: the pool call inside the retry executor
    inside the circuit breaker.  The result is [None] when the retry loop
    ends without a result. *)
Definition query (stmt : Statement) : Async State (option QueryResult) :=
  fun s =>
    let '(result, cb, w) :=
      Breaker.execute (circuitBreaker (db s))
        (Retry.execute (retry (db s)) (pool_query stmt)) (world s) in
    (result, {| db := {| circuitBreaker := cb; retry := retry (db s) |}; world := w |}).

(** The database answers: its breaker is closed, its retry executor makes
    at least one attempt, and no fault is pending on the pool. *)
Definition healthy (s : State) : Prop :=
  Breaker.isOpen (circuitBreaker (db s)) = false /\
  1 <= Retry.maxAttempts (retry (db s)) /\
  pool_faults (world s) = [].

End Db.

(* ===================================================================== *)
(** * Strings and numbers as the classifier uses them *)
(* ===================================================================== *)
Module JsString.

Definition code (c : ascii) : Z := Z.of_N (N_of_ascii c).

(** [toLowerCase()] on the ASCII letters (other characters are kept). *)
Definition lower_char (c : ascii) : ascii :=
  if (65 <=? code c) && (code c <=? 90)
  then ascii_of_N (N_of_ascii c + 32)
  else c.

Fixpoint toLowerCase (s : string) : string :=
  match s with
  | EmptyString => EmptyString
  | String c rest => String (lower_char c) (toLowerCase rest)
  end.

(** [s.split(' ')]. *)
Fixpoint split (sep : ascii) (s : string) : list string :=
  match s with
  | EmptyString => [EmptyString]
  | String c rest =>
      if Ascii.eqb c sep then EmptyString :: split sep rest
      else
        match split sep rest with
        | part :: parts => String c part :: parts
        | [] => [String c EmptyString]
        end
  end.

(** [\w]: a letter, a digit or the underscore. *)
Definition is_word (c : ascii) : bool :=
  ((48 <=? code c) && (code c <=? 57)) ||
  ((65 <=? code c) && (code c <=? 90)) ||
  ((97 <=? code c) && (code c <=? 122)) ||
  (code c =? 95).

Fixpoint all_word (s : string) : bool :=
  match s with
  | EmptyString => true
  | String c rest => is_word c && all_word rest
  end.

(** [s] without the prefix [p], when it starts with [p]. *)
Fixpoint strip_prefix (p s : string) : option string :=
  match p, s with
  | EmptyString, _ => Some s
  | String a p', String b s' => if Ascii.eqb a b then strip_prefix p' s' else None
  | String _ _, EmptyString => None
  end.

(** [memo.match(/^subscribe:(\w+)$/)]: the captured group, or [None] for
    [null]. *)
Definition match_subscribe (memo : string) : option string :=
  match strip_prefix "subscribe:" memo with
  | Some account =>
      match account with
      | EmptyString => None
      | String _ _ => if all_word account then Some account else None
      end
  | None => None
  end.

(** ** [parseFloat]

    A JavaScript number is a rational or [NaN] ([None]); decimal literals
    are read exactly (the rounding to a double is not modelled), and the
    literal [Infinity], which compares unequal to every configured amount
    just as [NaN] does, is read as [NaN]. *)
Definition digit (c : ascii) : option Z :=
  if (48 <=? code c) && (code c <=? 57) then Some (code c - 48) else None.

(** Reads the digits at the start of [s] onto [acc]: the value, how many
    digits were read, and the rest. *)
Fixpoint read_digits (s : string) (acc : Z) (count : Z) : Z * Z * string :=
  match s with
  | EmptyString => (acc, count, s)
  | String c rest =>
      match digit c with
      | Some v => read_digits rest (10 * acc + v) (count + 1)
      | None => (acc, count, s)
      end
  end.

Definition is_space (c : ascii) : bool :=
  ((9 <=? code c) && (code c <=? 13)) || (code c =? 32).

Fixpoint skip_spaces (s : string) : string :=
  match s with
  | String c rest => if is_space c then skip_spaces rest else s
  | EmptyString => s
  end.

Definition read_sign (s : string) : bool * string :=
  match s with
  | String "-" rest => (true, rest)
  | String "+" rest => (false, rest)
  | _ => (false, s)
  end.

Definition read_exponent (s : string) : Z :=
  match s with
  | String c rest =>
      if Ascii.eqb c "e" || Ascii.eqb c "E" then
        let '(negative, rest1) := read_sign rest in
        let '(value, count, _) := read_digits rest1 0 0 in
        if count =? 0 then 0 else if negative then - value else value
      else 0
  | EmptyString => 0
  end.

Definition parseFloat (s : string) : option Q :=
  let '(negative, s1) := read_sign (skip_spaces s) in
  let '(whole, whole_digits, s2) := read_digits s1 0 0 in
  let '(mantissa, fraction_digits, s3) :=
    match s2 with
    | String "." rest => read_digits rest whole 0
    | _ => (whole, 0, s2)
    end in
  if whole_digits + fraction_digits =? 0 then None
  else
    let magnitude :=
      (inject_Z mantissa * (10 # 1) ^ (read_exponent s3 - fraction_digits))%Q in
    Some (if negative then (- magnitude)%Q else magnitude).

(** [a === b] on numbers. *)
Definition num_eq (a b : option Q) : bool :=
  match a, b with
  | Some x, Some y => Qeq_bool x y
  | _, _ => false
  end.

End JsString.

(* ===================================================================== *)
(** * monitor-subscriptions.js: granting subscriptions *)
(* ===================================================================== *)

(** [process.env], with the numeric settings already converted (the code
    reads them through [Number(...)]; they are taken to be well-formed,
    the day counts whole numbers). *)
Record Env : Type := {
  SUBSCRIPTION_PAYMENT_ACCOUNT : string;
  SUBSCRIPTION_AMOUNT : Q;
  SUBSCRIPTION_ACCOUNT : string;
  AI_PAYMENT_ACCOUNT : string;
  AI_SUBSCRIPTION_FULL_AMOUNT : Q;
  AI_SUBSCRIPTION_MINI_AMOUNT : Q;
  AI_SUBSCRIPTION_FULL_DAYS : Z;
  AI_SUBSCRIPTION_MINI_DAYS : Z
}.

(** The transfer object the classifier builds ([transformedTransfer]). *)
Record Amount : Type := { amount_value : option Q; symbol : string }.

Record Transfer : Type := {
  from : string;
  to : string;
  amount : Amount;
  memo : string;
  timestamp : string
}.

Module Ledger.
Import Db.

(** [async function addSubscription(username, days)].  [new Date()] reads
    the clock once, at the start.  Every exception is caught and turned
    into [false]: a rejected query, and also the read of [.rows] when
    [db.query] resolved with [undefined]. *)
Definition addSubscription (username : string) (days : Z) : Async State bool :=
  fun s =>
    let subscriptionDate := Date_now s in
    let expirationDate :=
      JsDate.setDate subscriptionDate (JsDate.getDate subscriptionDate + days) in
    match query (SelectDates username) s with
    | (Resolved (Some existingSubscription), s1) =>
        let write :=
          match rows existingSubscription with
          | row :: _ =>
              if subscriptionDate >? expiration_date row
              then Some (JsDate.setDate expirationDate
                           (JsDate.getDate subscriptionDate + days))
              else None
          | [] => Some expirationDate
          end in
        match write with
        | None => (Resolved true, s1)
        | Some expirationDate1 =>
            match query (Upsert username subscriptionDate expirationDate1) s1 with
            | (Resolved _, s2) => (Resolved true, s2)
            | (Rejected _, s2) => (Resolved false, s2)
            end
        end
    | (Resolved None, s1) => (Resolved false, s1)
    | (Rejected _, s1) => (Resolved false, s1)
    end.

(** [async function processSubscriptionTransfer(transfer)]. *)
Definition processSubscriptionTransfer (env : Env) (transfer : Transfer)
    : Async State bool :=
  fun s =>
    let sender := from transfer in
    let recipient := to transfer in
    let value := amount_value (amount transfer) in
    let standard s :=
      if String.eqb recipient (SUBSCRIPTION_PAYMENT_ACCOUNT env)
         && JsString.num_eq value (Some (SUBSCRIPTION_AMOUNT env))
         && String.eqb (symbol (amount transfer)) "HBD"
      then
        match JsString.match_subscribe (memo transfer) with
        | None => (Resolved false, s)
        | Some subscribingAccount =>
            if negb (String.eqb (JsString.toLowerCase subscribingAccount)
                       (JsString.toLowerCase (SUBSCRIPTION_ACCOUNT env)))
            then (Resolved false, s)
            else addSubscription sender 31 s
        end
      else (Resolved false, s) in
    if String.eqb recipient (AI_PAYMENT_ACCOUNT env)
       && String.eqb (symbol (amount transfer)) "HBD"
    then
      if JsString.num_eq value (Some (AI_SUBSCRIPTION_FULL_AMOUNT env))
      then addSubscription sender (AI_SUBSCRIPTION_FULL_DAYS env) s
      else if JsString.num_eq value (Some (AI_SUBSCRIPTION_MINI_AMOUNT env))
      then addSubscription sender (AI_SUBSCRIPTION_MINI_DAYS env) s
      else standard s
    else standard s.

(** The expiration [addSubscription] sends to the database when it writes:
    [existing] is the row the [SELECT] returned, if any. *)
Definition written_expiration (existing : option Row) (now days : Z) : Z :=
  let expirationDate := JsDate.setDate now (JsDate.getDate now + days) in
  match existing with
  | Some _ => JsDate.setDate expirationDate (JsDate.getDate now + days)
  | None => expirationDate
  end.

(** A grant request as the environment presents it: the clock reading at
    the call, the payer and the day count. *)
Record Grant : Type := { at_time : Z; payer : string; day_count : Z }.

Definition set_clock (now : Z) (s : State) : State :=
  {| db := db s;
     world := {| clock := now; subscriptions := subscriptions (world s);
                 journal := journal (world s);
                 pool_faults := pool_faults (world s) |} |}.

(** The grants of a list, one after the other. *)
Fixpoint grants (gs : list Grant) (s : State) : State :=
  match gs with
  | [] => s
  | g :: rest =>
      grants rest (snd (addSubscription (payer g) (day_count g) (set_clock (at_time g) s)))
  end.

Definition expiration_of (username : string) (s : State) : option Z :=
  expiration_date <$> subscriptions (world s) !! username.

(** How far the second [setDate] of the lapsed branch moves the expiration
    past [now + days]: the distance, in milliseconds, between the first of
    the month of [now] and the first of the month of [now + days] (lemma
    [written_expiration_lapsed]). *)
Definition overshoot (now days : Z) : Z :=
  (JsDate.monthStart (JsDate.Day now + days) - JsDate.monthStart (JsDate.Day now))
  * JsDate.msPerDay.

End Ledger.

(** ** The merge rule of the specification

    Written from the words of the specification (section 4.4, steps 1 to
    4), to be compared with [Ledger.addSubscription]: a grant computes
    [candidateExpiration = now + days]; when there is no record, or
    [now > existing.expiration_date], it stores the candidate; when the
    existing window is still active it does not extend the expiration. *)
Module MergeRule.
Import Ledger.

Definition candidateExpiration (g : Grant) : Z :=
  at_time g + day_count g * JsDate.msPerDay.

(** The [expiration_date] on record after [grantSubscription], given the
    one on record before ([None]: no record). *)
Definition grantSubscription (existing : option Z) (g : Grant) : option Z :=
  match existing with
  | None => Some (candidateExpiration g)
  | Some expiration =>
      if at_time g >? expiration then Some (candidateExpiration g)
      else Some expiration
  end.

(** The [expiration_date] on record after a sequence of grants to one
    username, evaluated with the merge rule. *)
Definition after_sequence (existing : option Z) (gs : list Grant) : option Z :=
  List.fold_left grantSubscription gs existing.

(** No grant of the sequence that the merge rule applies to a lapsed
    window is one whose date [addSubscription]'s second [setDate] moves. *)
Fixpoint steady (existing : option Z) (gs : list Grant) : bool :=
  match gs with
  | [] => true
  | g :: rest =>
      match existing with
      | Some expiration =>
          if at_time g >? expiration
          then overshoot (at_time g) (day_count g) =? 0
          else true
      | None => true
      end
      && steady (grantSubscription existing g) rest
  end.

End MergeRule.

(** ** The earlier [processSubscriptionTransfer] (second version of the
    file): one conditional upsert, 31 days from the transfer's time stamp.
    The time stamp is the parsed [DateTime]; [plus({ days: 31 })] adds 31
    whole days. *)
Module Earlier.
Import Db.

Record Transfer : Type := { from : string; timestamp : Z }.

Definition processSubscriptionTransfer (transfer : Transfer) : Async State unit :=
  fun s =>
    let subscriptionDate := timestamp transfer in
    let expirationDate := subscriptionDate + 31 * JsDate.msPerDay in
    match query (UpsertIfLater (from transfer) subscriptionDate expirationDate) s with
    | (Resolved _, s1) => (Resolved tt, s1)
    | (Rejected _, s1) => (Resolved tt, s1)
    end.

(** The later of a stored expiration, if any, and a new one. *)
Definition later (stored : option Z) (new : Z) : option Z :=
  match stored with
  | Some e => Some (Z.max e new)
  | None => Some new
  end.

(** The maximum of a stored expiration and [timestamp + 31 days] over the
    transfers of a list. *)
Definition max_expiration (stored : option Z) (ts : list Transfer) : option Z :=
  List.fold_left (fun acc t => later acc (timestamp t + 31 * JsDate.msPerDay)) ts stored.

(** The transfers of a list, processed one after the other. *)
Fixpoint process_all (ts : list Transfer) (s : State) : State :=
  match ts with
  | [] => s
  | t :: rest => process_all rest (snd (processSubscriptionTransfer t s))
  end.

End Earlier.

(* ===================================================================== *)
(** * monitor-subscriptions.js: [class HiveMonitor] *)
(* ===================================================================== *)
Module Monitor.

(** The upstream client object ([new WorkerBee()]) and an observer handle;
    only their presence matters here. *)
Inductive WorkerBee : Type := WorkerBeeClient.
Inductive Observer : Type := ObserverHandle.

Record HiveMonitor : Type := {
  bot : option WorkerBee;
  observer : option Observer;
  isConnected : bool;
  reconnectAttempts : Z;
  maxReconnectAttempts : Z;
  reconnectDelay : Z;
  lastConnectionState : bool;
  circuitBreaker : Breaker.CircuitBreaker;
  retry : Retry.RetryOperation
}.

(** [constructor()]. *)
Definition new : HiveMonitor := {|
  bot := None;
  observer := None;
  isConnected := false;
  reconnectAttempts := 0;
  maxReconnectAttempts := 5;
  reconnectDelay := 5000;
  lastConnectionState := false;
  circuitBreaker :=
    Breaker.new {| Breaker.opt_name := Some "hive-connection";
                   Breaker.opt_failureThreshold := Some 3;
                   Breaker.opt_resetTimeout := Some 60000 |};
  retry :=
    Retry.new {| Retry.opt_name := Some "hive-connection";
                 Retry.opt_maxAttempts := Some 5;
                 Retry.opt_delay := Some (5000 # 1);
                 Retry.opt_backoffFactor := Some (3 # 2) |}
|}.

(** Field assignments. *)
Definition set_bot (b : option WorkerBee) (m : HiveMonitor) : HiveMonitor := {|
  bot := b; observer := observer m; isConnected := isConnected m;
  reconnectAttempts := reconnectAttempts m;
  maxReconnectAttempts := maxReconnectAttempts m;
  reconnectDelay := reconnectDelay m;
  lastConnectionState := lastConnectionState m;
  circuitBreaker := circuitBreaker m; retry := retry m |}.

Definition set_observer (o : option Observer) (m : HiveMonitor) : HiveMonitor := {|
  bot := bot m; observer := o; isConnected := isConnected m;
  reconnectAttempts := reconnectAttempts m;
  maxReconnectAttempts := maxReconnectAttempts m;
  reconnectDelay := reconnectDelay m;
  lastConnectionState := lastConnectionState m;
  circuitBreaker := circuitBreaker m; retry := retry m |}.

Definition set_isConnected (b : bool) (m : HiveMonitor) : HiveMonitor := {|
  bot := bot m; observer := observer m; isConnected := b;
  reconnectAttempts := reconnectAttempts m;
  maxReconnectAttempts := maxReconnectAttempts m;
  reconnectDelay := reconnectDelay m;
  lastConnectionState := lastConnectionState m;
  circuitBreaker := circuitBreaker m; retry := retry m |}.

Definition set_reconnectAttempts (n : Z) (m : HiveMonitor) : HiveMonitor := {|
  bot := bot m; observer := observer m; isConnected := isConnected m;
  reconnectAttempts := n;
  maxReconnectAttempts := maxReconnectAttempts m;
  reconnectDelay := reconnectDelay m;
  lastConnectionState := lastConnectionState m;
  circuitBreaker := circuitBreaker m; retry := retry m |}.

Definition set_circuitBreaker (cb : Breaker.CircuitBreaker) (m : HiveMonitor)
    : HiveMonitor := {|
  bot := bot m; observer := observer m; isConnected := isConnected m;
  reconnectAttempts := reconnectAttempts m;
  maxReconnectAttempts := maxReconnectAttempts m;
  reconnectDelay := reconnectDelay m;
  lastConnectionState := lastConnectionState m;
  circuitBreaker := cb; retry := retry m |}.

(** [new Error('Failed to maintain Hive connection')]: the specification's
    [ReconnectionExhausted]. *)
Definition ReconnectionExhausted : JsError :=
  Error "Failed to maintain Hive connection".

(** The monitor object together with the host it runs on. *)
Record Hive (W : Type) : Type := MkHive { monitor : HiveMonitor; host : W }.
Arguments MkHive {W} monitor host.
Arguments monitor {W} h.
Arguments host {W} h.

#[global] Instance Hive_Runtime {W : Type} `{Runtime W} : Runtime (Hive W) := {
  Date_now h := Date_now (host h);
  setTimeout ms h := MkHive (monitor h) (setTimeout ms (host h))
}.

Section Connection.
Context {W : Type} `{Runtime W}.
(** [await this.bot.start()], the call into the upstream network. *)
Variable bot_start : Async W unit.

(** The arrow function [connect] hands to [this.retry.execute]: a fresh
    client, then [start()], then the state update. *)
Definition establish : Async (Hive W) unit :=
  fun h =>
    let m1 := set_bot (Some WorkerBeeClient) (monitor h) in
    match bot_start (host h) with
    | (Resolved _, w1) =>
        (Resolved tt, MkHive (set_reconnectAttempts 0 (set_isConnected true m1)) w1)
    | (Rejected error, w1) => (Rejected error, MkHive m1 w1)
    end.

(** [async connect()]. *)
Definition connect : Async (Hive W) unit :=
  fun h =>
    if isConnected (monitor h) then (Resolved tt, h)
    else
      let '(result, cb, h1) :=
        Breaker.execute (circuitBreaker (monitor h))
          (Retry.execute (retry (monitor h)) establish) h in
      (match result with
       | Resolved _ => Resolved tt
       | Rejected error => Rejected error
       end,
       MkHive (set_circuitBreaker cb (monitor h1)) (host h1)).

(** [async handleDisconnect()]. *)
Definition handleDisconnect : Async (Hive W) unit :=
  fun h =>
    let m1 := set_observer None (set_isConnected false (monitor h)) in
    if reconnectAttempts m1 <? maxReconnectAttempts m1 then
      let m2 := set_reconnectAttempts (reconnectAttempts m1 + 1) m1 in
      connect (setTimeout (inject_Z (reconnectDelay m2)) (MkHive m2 (host h)))
    else (Rejected ReconnectionExhausted, MkHive m1 (host h)).

End Connection.

(** ** The classifier *)

(** [operation.op[1]] of a transfer-shaped operation. *)
Record OpData : Type := {
  op_from : string;
  op_to : string;
  op_amount : string;
  op_memo : string
}.

(** An observed operation: [op] is either not an array, or the pair of an
    operation type and its data. *)
Record Operation : Type := {
  op : option (string * OpData);
  op_timestamp : string
}.

(** The arrow function [processOperation] hands to [this.retry.execute]. *)
Definition classify (env : Env) (operation : Operation) : Async Db.State unit :=
  fun s =>
    match op operation with
    | None => (Resolved tt, s)
    | Some (opType, opData) =>
        if (String.eqb opType "transfer" || String.eqb opType "fill_recurrent_transfer")
           && (String.eqb (op_to opData) (SUBSCRIPTION_PAYMENT_ACCOUNT env)
               || String.eqb (op_to opData) (AI_PAYMENT_ACCOUNT env))
        then
          let parts := JsString.split " " (op_amount opData) in
          let amountValue := List.hd EmptyString parts in
          let symbol := List.nth_error parts 1 in
          let transferAmount := JsString.parseFloat amountValue in
          let transformedTransfer := {|
            from := op_from opData;
            to := op_to opData;
            amount := {| amount_value := transferAmount; symbol := "HBD" |};
            memo := op_memo opData;
            timestamp := op_timestamp operation |} in
          let is_HBD :=
            match symbol with
            | Some sym => String.eqb sym "HBD"
            | None => false
            end in
          if String.eqb (op_to opData) (AI_PAYMENT_ACCOUNT env) && is_HBD then
            if JsString.num_eq transferAmount (Some (AI_SUBSCRIPTION_FULL_AMOUNT env))
               || JsString.num_eq transferAmount (Some (AI_SUBSCRIPTION_MINI_AMOUNT env))
            then
              (Resolved tt,
               snd (Ledger.processSubscriptionTransfer env transformedTransfer s))
            else (Resolved tt, s)
          else if String.eqb (op_to opData) (SUBSCRIPTION_PAYMENT_ACCOUNT env)
                  && JsString.num_eq transferAmount (Some (SUBSCRIPTION_AMOUNT env))
                  && is_HBD
                  && String.eqb (JsString.toLowerCase (op_memo opData))
                       (String.append "subscribe:"
                          (JsString.toLowerCase (SUBSCRIPTION_ACCOUNT env)))
          then
            (Resolved tt,
             snd (Ledger.processSubscriptionTransfer env transformedTransfer s))
          else (Resolved tt, s)
        else (Resolved tt, s)
    end.

(** [async processOperation(operation)]. *)
Definition processOperation (m : HiveMonitor) (env : Env) (operation : Operation)
    : Async Db.State (option unit) :=
  Retry.execute (retry m) (classify env operation).

End Monitor.

(* ===================================================================== *)
(** * Concrete inputs used by the examples *)
(* ===================================================================== *)
Module Example.

(** An operation that always throws [error], one that always returns. *)
Definition failing {St : Type} (error : JsError) : Async St unit :=
  fun st => (Rejected error, st).
Definition succeeding {St : Type} : Async St unit :=
  fun st => (Resolved tt, st).

(** A host with an empty table whose clock reads [t]. *)
Definition world_at (t : Z) : Db.World :=
  {| Db.clock := t; Db.subscriptions := ∅; Db.journal := []; Db.pool_faults := [] |}.

Definition boom : JsError := Error "boom".

(** An operation that fails until the clock reads 3000 and then returns the
    clock reading. *)
Definition flaky : Async Db.World Z :=
  fun w => if Db.clock w <? 3000 then (Rejected boom, w) else (Resolved (Db.clock w), w).

(** The monitor's breaker (threshold 3, cooldown 60 s) after three failed
    calls at time 0. *)
Definition breaker1 : Breaker.CircuitBreaker :=
  Breaker.after (Breaker.execute (Monitor.circuitBreaker Monitor.new) (failing boom) (world_at 0)).
Definition breaker2 : Breaker.CircuitBreaker :=
  Breaker.after (Breaker.execute breaker1 (failing boom) (world_at 0)).
Definition tripped : Breaker.CircuitBreaker :=
  Breaker.after (Breaker.execute breaker2 (failing boom) (world_at 0)).

(** A breaker with threshold 1, and the same after one failed call at
    time 0. *)
Definition fragile : Breaker.CircuitBreaker :=
  Breaker.new {| Breaker.opt_failureThreshold := Some 1;
                 Breaker.opt_resetTimeout := Some 60000;
                 Breaker.opt_name := Some "fragile" |}.
Definition fragile_failed : Breaker.CircuitBreaker :=
  Breaker.after (Breaker.execute fragile (failing boom) (world_at 0)).

(** 2025-01-15T12:00:00Z, and a number of whole days in milliseconds. *)
Definition jan15 : Z := 1736942400000.
Definition days (n : Z) : Z := n * JsDate.msPerDay.

(** A healthy database with an empty table, the clock at [t]. *)
Definition fresh (t : Z) : Db.State := {| Db.db := Db.new; Db.world := world_at t |}.

(** A healthy database in which alice's window ended on 2025-01-10, the
    clock at 2025-01-15T12:00Z. *)
Definition lapsed : Db.State :=
  {| Db.db := Db.new;
     Db.world :=
       {| Db.clock := jan15;
          Db.subscriptions :=
            {[ "alice" := Db.granted (jan15 - days 36) (jan15 - days 5) (jan15 - days 36) ]};
          Db.journal := [];
          Db.pool_faults := [] |} |}.

(** Two payments by alice, ten days apart. *)
Definition payment1 : Ledger.Grant :=
  {| Ledger.at_time := jan15; Ledger.payer := "alice"; Ledger.day_count := 31 |}.
Definition payment2 : Ledger.Grant :=
  {| Ledger.at_time := jan15 + days 10; Ledger.payer := "alice"; Ledger.day_count := 31 |}.

(** A seven-day grant at the time of the first payment, ending in the same
    month. *)
Definition week : Ledger.Grant :=
  {| Ledger.at_time := jan15; Ledger.payer := "alice"; Ledger.day_count := 7 |}.

(** The same two payments as the earlier version receives them. *)
Definition transfer1 : Earlier.Transfer :=
  {| Earlier.from := "alice"; Earlier.timestamp := jan15 |}.
Definition transfer2 : Earlier.Transfer :=
  {| Earlier.from := "alice"; Earlier.timestamp := jan15 + days 10 |}.

(** A configuration, and a transfer of the subscription amount to the
    payment account with a given memo. *)
Definition env : Env := {|
  SUBSCRIPTION_PAYMENT_ACCOUNT := "leosubscriptions";
  SUBSCRIPTION_AMOUNT := 5 # 1;
  SUBSCRIPTION_ACCOUNT := "myaccount";
  AI_PAYMENT_ACCOUNT := "leoai";
  AI_SUBSCRIPTION_FULL_AMOUNT := 10 # 1;
  AI_SUBSCRIPTION_MINI_AMOUNT := 3 # 1;
  AI_SUBSCRIPTION_FULL_DAYS := 31;
  AI_SUBSCRIPTION_MINI_DAYS := 7
|}.

(** The same configuration for a subscription account whose name has a
    dot, as Hive account names may. *)
Definition env_dotted : Env := {|
  SUBSCRIPTION_PAYMENT_ACCOUNT := "leosubscriptions";
  SUBSCRIPTION_AMOUNT := 5 # 1;
  SUBSCRIPTION_ACCOUNT := "leo.voter";
  AI_PAYMENT_ACCOUNT := "leoai";
  AI_SUBSCRIPTION_FULL_AMOUNT := 10 # 1;
  AI_SUBSCRIPTION_MINI_AMOUNT := 3 # 1;
  AI_SUBSCRIPTION_FULL_DAYS := 31;
  AI_SUBSCRIPTION_MINI_DAYS := 7
|}.

Definition transfer_with_memo (memo : string) : Monitor.Operation := {|
  Monitor.op :=
    Some ("transfer",
          {| Monitor.op_from := "alice";
             Monitor.op_to := "leosubscriptions";
             Monitor.op_amount := "5.000 HBD";
             Monitor.op_memo := memo |});
  Monitor.op_timestamp := "2025-01-15T12:00:00"
|}.

(** A monitor that has used up its reconnect budget. *)
Definition worn_out : Monitor.HiveMonitor :=
  Monitor.set_reconnectAttempts 5 Monitor.new.

End Example.

(* ===================================================================== *)
(** * Further observations on traces *)
(* ===================================================================== *)

(** The time asked of the timers along a trace. *)
Fixpoint suspended_time (tr : list Event) : Q :=
  match tr with
  | [] => 0
  | Invoked :: rest => suspended_time rest
  | Suspended ms :: rest => (ms + suspended_time rest)%Q
  end.

(* ===================================================================== *)
(** * Histories of a circuit breaker and of the database object *)
(* ===================================================================== *)
Module History.

(** The breakers that [new CircuitBreaker(options)] can become through
    [execute] calls (any operations, any result types, any host states). *)
Inductive Reachable {St : Type} `{Runtime St} (options : Breaker.Options)
  : Breaker.CircuitBreaker -> Prop :=
| Reachable_new : Reachable options (Breaker.new options)
| Reachable_execute cb (A : Type) (operation : Async St A) st :
    Reachable options cb ->
    Reachable options (Breaker.after (Breaker.execute cb operation st)).

End History.

(* ===================================================================== *)
(** * db.js: [query] for any pool call, and runs of rejected queries *)
(* ===================================================================== *)
Module DbOps.
Import Db.

(** [async query(text, params)] with the pool call left open: the call
    inside the retry executor inside the circuit breaker.  [Db.query] is
    the case of a [Db.Statement] (lemma [query_is_query_op]). *)
Definition query_op {A : Type} (pool_call : Async World A) : Async State (option A) :=
  fun s =>
    let '(result, cb, w) :=
      Breaker.execute (circuitBreaker (db s))
        (Retry.execute (retry (db s)) pool_call) (world s) in
    (result, {| db := {| circuitBreaker := cb; retry := retry (db s) |}; world := w |}).

(** The time the timers of the host take for the backoff suspensions after
    the attempts [attempt], [attempt + 1], ... ([n] of them). *)
Fixpoint slept (r : Retry.RetryOperation) (attempt : Z) (n : nat) : Z :=
  match n with
  | O => 0
  | S n' => timer_ms (Retry.waitTime r attempt) + slept r (attempt + 1) n'
  end.

(** The host after [n] faulty attempts starting with [attempt], when the
    faults still pending are [rest]. *)
Definition after_faults (r : Retry.RetryOperation) (attempt : Z) (n : nat)
    (rest : list (option JsError)) (w : World) : World :=
  {| clock := clock w + slept r attempt n;
     subscriptions := subscriptions w;
     journal := journal w;
     pool_faults := rest |}.

(** A run of [n] consecutive queries that are all rejected; between two
    queries the host may change in any way, the [db] object is carried
    over. *)
Inductive Rejections (s : State) : nat -> State -> Prop :=
| Rejections_nil : Rejections s O s
| Rejections_snoc n s1 s1' s2 (A : Type) (pool_call : Async World A) error :
    Rejections s n s1 ->
    db s1' = db s1 ->
    query_op pool_call s1' = (Rejected error, s2) ->
    Rejections s (S n) s2.

End DbOps.

(* ===================================================================== *)
(** * Histories of the connection supervisor *)
(* ===================================================================== *)
Module Supervisor.
Import Monitor.

Section WithUpstream.
Context {W : Type} `{Runtime W}.
Variable bot_start : Async W unit.

(** The monitors that [new HiveMonitor()] can become through [connect] and
    [handleDisconnect] calls, on any host states. *)
Inductive Reachable : HiveMonitor -> Prop :=
| Reachable_new : Reachable Monitor.new
| Reachable_connect m w :
    Reachable m ->
    Reachable (monitor (snd (connect bot_start (MkHive m w))))
| Reachable_handleDisconnect m w :
    Reachable m ->
    Reachable (monitor (snd (handleDisconnect bot_start (MkHive m w)))).

(** A run of [n] consecutive [handleDisconnect] calls that all fail (each
    on its own host state), leading from one monitor to another. *)
Inductive FailedReconnects (m : HiveMonitor) : nat -> HiveMonitor -> Prop :=
| FailedReconnects_nil : FailedReconnects m O m
| FailedReconnects_snoc n m1 w error h2 :
    FailedReconnects m n m1 ->
    handleDisconnect bot_start (MkHive m1 w) = (Rejected error, h2) ->
    FailedReconnects m (S n) (monitor h2).

End WithUpstream.
End Supervisor.

(* ===================================================================== *)
(** * Further concrete inputs *)
(* ===================================================================== *)
Module Sample.

(** A healthy database object on a host whose pool will fail the coming
    [n] calls, the clock at [t]. *)
Definition outage (n : nat) (t : Z) : Db.State :=
  {| Db.db := Db.new;
     Db.world :=
       {| Db.clock := t; Db.subscriptions := ∅; Db.journal := [];
          Db.pool_faults := List.repeat (Some Example.boom) n |} |}.

(** The state after [k] queries in a row. *)
Fixpoint queried (k : nat) (s : Db.State) : Db.State :=
  match k with
  | O => s
  | S k' => snd (Db.query (Db.SelectDates "alice") (queried k' s))
  end.

(** The monitor and its host after [k] disconnections in a row while the
    upstream never answers, starting from a fresh monitor at time 0. *)
Fixpoint reconnects (k : nat) : Monitor.Hive Db.World :=
  match k with
  | O => Monitor.MkHive Monitor.new (Example.world_at 0)
  | S k' => snd (Monitor.handleDisconnect (Example.failing Example.boom) (reconnects k'))
  end.

(** A transfer by alice to the AI payment account of [Example.env]. *)
Definition ai_transfer (amount memo : string) : Monitor.Operation := {|
  Monitor.op :=
    Some ("transfer",
          {| Monitor.op_from := "alice";
             Monitor.op_to := "leoai";
             Monitor.op_amount := amount;
             Monitor.op_memo := memo |});
  Monitor.op_timestamp := "2025-01-15T12:00:00"
|}.

End Sample.

(* ===================================================================== *)
(** * monitor-subscriptions.js: [checkExpiredSubscriptions], and the
      health module: [class HealthCheck] *)
(* ===================================================================== *)
Module Health.

(** [class HealthCheck]: the field the routes and the periodic check use. *)
Record HealthCheck : Type := { lastSuccessfulCheck : Z }.

(** [constructor()], where [now] is what [Date.now()] returns inside it. *)
Definition new (now : Z) : HealthCheck := {| lastSuccessfulCheck := now |}.

(** [updateLastCheck()]. *)
Definition updateLastCheck (now : Z) (this : HealthCheck) : HealthCheck :=
  {| lastSuccessfulCheck := now |}.

End Health.

(** The process: the module-level [db] with its host, [global.healthCheck]
    and [global.monitor] (either may still be [undefined]). *)
Record Service : Type := {
  store : Db.State;
  healthCheck : option Health.HealthCheck;
  monitor : option Monitor.HiveMonitor
}.

Module Periodic.
Import Db.

(** [WHERE expiration_date < CURRENT_TIMESTAMP AND active_subscription = TRUE]. *)
Definition overdue (now : Z) (row : Row) : bool :=
  (expiration_date row <? now) && active_subscription row.

(** [SET active_subscription = FALSE]. *)
Definition deactivated (row : Row) : Row := {|
  subscription_date := subscription_date row;
  expiration_date := expiration_date row;
  date_updated := date_updated row;
  active_subscription := false
|}.

(** The table after the [UPDATE]. *)
Definition swept (now : Z) (tbl : gmap string Row) : gmap string Row :=
  (fun row => if overdue now row then deactivated row else row) <$> tbl.

(** [RETURNING username]: the usernames of the rows updated (the code only
    counts and logs them; they are listed in the order of the table's
    enumeration). *)
Definition returning (now : Z) (tbl : gmap string Row) : list string :=
  (map_to_list (filter (fun entry => overdue now (snd entry) = true) tbl)).*1.

(** [this.pool.query] for the [UPDATE ... RETURNING username] statement. *)
Definition pool_sweep : Async World (list string) :=
  fun w =>
    let rest := List.tl (pool_faults w) in
    match List.hd None (pool_faults w) with
    | Some error =>
        (Rejected error,
         {| clock := clock w; subscriptions := subscriptions w;
            journal := journal w; pool_faults := rest |})
    | None =>
        (Resolved (returning (clock w) (subscriptions w)),
         {| clock := clock w; subscriptions := swept (clock w) (subscriptions w);
            journal := journal w; pool_faults := rest |})
    end.

(** [async function checkExpiredSubscriptions()].  Every exception is
    caught: a rejected query, and the read of [.rows] when [db.query]
    resolved with [undefined]; the time stamp of the health check is
    updated only when neither happened. *)
Definition checkExpiredSubscriptions : Async Service unit :=
  fun a =>
    match DbOps.query_op pool_sweep (store a) with
    | (Resolved (Some result), s1) =>
        (Resolved tt,
         {| store := s1;
            healthCheck := Health.updateLastCheck (Date_now s1) <$> healthCheck a;
            monitor := monitor a |})
    | (Resolved None, s1) =>
        (Resolved tt, {| store := s1; healthCheck := healthCheck a; monitor := monitor a |})
    | (Rejected _, s1) =>
        (Resolved tt, {| store := s1; healthCheck := healthCheck a; monitor := monitor a |})
    end.

End Periodic.

Module Routes.
Import Db.

(** [this.pool.query('SELECT 1')]. *)
Definition pool_select1 : Async World unit :=
  fun w =>
    let rest := List.tl (pool_faults w) in
    match List.hd None (pool_faults w) with
    | Some error =>
        (Rejected error,
         {| clock := clock w; subscriptions := subscriptions w;
            journal := journal w; pool_faults := rest |})
    | None =>
        (Resolved tt,
         {| clock := clock w; subscriptions := subscriptions w;
            journal := journal w; pool_faults := rest |})
    end.

(** db.js, [async checkConnection()]. *)
Definition checkConnection : Async State bool :=
  fun s =>
    match DbOps.query_op pool_select1 s with
    | (Resolved _, s1) => (Resolved true, s1)
    | (Rejected _, s1) => (Resolved false, s1)
    end.

(** What the [/health] route sends: [res.status(...).json(...)]. *)
Inductive Body : Type :=
| Healthy (lastCheck : Z)       (* status: 'healthy', lastCheck, dbStatus, hiveStatus *)
| Unhealthy (error : string).   (* status: 'unhealthy', error, timestamp *)

Record Response : Type := { status : Z; body : Body }.

Definition stalled : JsError := Error "Periodic checks may be stalled".
Definition not_established : JsError := Error "Hive connection is not established".

(** [!global.monitor?.isConnected]. *)
Definition hive_down (m : option Monitor.HiveMonitor) : bool :=
  match m with
  | Some m => negb (Monitor.isConnected m)
  | None => true
  end.

(** The handler of [GET /health] of the instance [this]; the instance is
    the object [global.healthCheck] holds. *)
Definition health (this : Health.HealthCheck) (a : Service) : Response * Service :=
  let '(probe, s1) := DbOps.query_op pool_select1 (store a) in
  let failed :=
    match probe with
    | Rejected error => Some error
    | Resolved _ =>
        let timeSinceLastCheck := Date_now s1 - Health.lastSuccessfulCheck this in
        if timeSinceLastCheck >? 120 * 60 * 1000 then Some stalled
        else if hive_down (monitor a) then Some not_established
        else None
    end in
  (match failed with
   | Some error => {| status := 503; body := Unhealthy (message error) |}
   | None => {| status := 200; body := Healthy (Health.lastSuccessfulCheck this) |}
   end,
   {| store := s1; healthCheck := healthCheck a; monitor := monitor a |}).

(** [GET /health] as the process serves it: there is a handler once
    [global.healthCheck] is set. *)
Definition get_health (a : Service) : option (Response * Service) :=
  match healthCheck a with
  | Some this => Some (health this a)
  | None => None
  end.

(** ** [GET /status] *)











End Routes.

(** Further concrete inputs: a row whose window ended on 2025-01-10, one
    whose window runs until 2025-02-14, a connected monitor, and a process
    with these at time [t] whose last completed sweep was at [last]; the
    same process while the pool fails three calls. *)
Module SampleService.

Definition lapsed_row : Db.Row :=
  Db.granted (Example.jan15 - Example.days 36) (Example.jan15 - Example.days 5)
    (Example.jan15 - Example.days 36).

Definition running_row : Db.Row :=
  Db.granted (Example.jan15 - Example.days 1) (Example.jan15 + Example.days 30)
    (Example.jan15 - Example.days 1).

Definition connected : Monitor.HiveMonitor :=
  Monitor.set_isConnected true
    (Monitor.set_bot (Some Monitor.WorkerBeeClient) Monitor.new).

Definition table : gmap string Db.Row :=
  <["alice" := lapsed_row]> (<["bob" := running_row]> ∅).

Definition service (t last : Z) : Service := {|
  store :=
    {| Db.db := Db.new;
       Db.world := {| Db.clock := t; Db.subscriptions := table; Db.journal := [];
                      Db.pool_faults := [] |} |};
  healthCheck := Some (Health.new last);
  monitor := Some connected
|}.

Definition service_down (t last : Z) : Service := {|
  store :=
    {| Db.db := Db.new;
       Db.world := {| Db.clock := t; Db.subscriptions := table; Db.journal := [];
                      Db.pool_faults := List.repeat (Some Example.boom) 3 |} |};
  healthCheck := Some (Health.new last);
  monitor := Some connected
|}.

End SampleService.

(* ===================================================================== *)
(** * free-trial.js: the free trial and revocation script *)
(* ===================================================================== *)
Module FreeTrial.
Import Db.

(** ** [parseInt(string)] without a radix

    Leading white space, a sign, then a ["0x"] or ["0X"] prefix selects
    radix 16, otherwise radix 10; the digits up to the first other
    character are read; no digit gives [NaN] ([None]).  The value is the
    integer read (the Number is this integer up to 2^53; [-0] is [0]). *)
Definition hex_digit (c : ascii) : option Z :=
  let n := JsString.code c in
  if (48 <=? n) && (n <=? 57) then Some (n - 48)
  else if (97 <=? n) && (n <=? 102) then Some (n - 87)
  else if (65 <=? n) && (n <=? 70) then Some (n - 55)
  else None.

Fixpoint read_hex (s : string) (acc : Z) (count : Z) : Z * Z :=
  match s with
  | EmptyString => (acc, count)
  | String c rest =>
      match hex_digit c with
      | Some v => read_hex rest (16 * acc + v) (count + 1)
      | None => (acc, count)
      end
  end.

Definition read_decimal (s : string) : Z * Z :=
  let '(value, count, _) := JsString.read_digits s 0 0 in (value, count).

Definition parseInt (s : string) : option Z :=
  let '(negative, s1) := JsString.read_sign (JsString.skip_spaces s) in
  let '(value, count) :=
    match s1 with
    | String z (String x rest) =>
        if Ascii.eqb z "0" && (Ascii.eqb x "x" || Ascii.eqb x "X")
        then read_hex rest 0 0
        else read_decimal s1
    | _ => read_decimal s1
    end in
  if count =? 0 then None else Some (if negative then - value else value).

(** Strings of decimal digits, and text that neither continues a number
    nor turns a leading [0] into a hexadecimal prefix. *)
Fixpoint all_digits (s : string) : bool :=
  match s with
  | EmptyString => true
  | String c rest =>
      match JsString.digit c with
      | Some _ => all_digits rest
      | None => false
      end
  end.

Definition breaks_number (s : string) : bool :=
  match s with
  | EmptyString => true
  | String c _ =>
      match JsString.digit c with
      | Some _ => false
      | None => negb (Ascii.eqb c "x" || Ascii.eqb c "X")
      end
  end.

(** ** The statement

    [INSERT ... VALUES ($1, $2, $3) ON CONFLICT (username) DO UPDATE SET
     subscription_date, expiration_date = EXCLUDED..., date_updated =
     CURRENT_TIMESTAMP, active_subscription = ${days > 0}
     WHERE subscriptions.expiration_date < EXCLUDED.expiration_date
     OR $4 = 0].  A row that is inserted gets the column defaults
    ([date_updated] now, [active_subscription] true). *)
Definition run_trial (username : string) (sd ed days now : Z) (tbl : gmap string Row)
    : JsError + gmap string Row :=
  if (16 <? String.length username)%nat then inl too_long
  else
    match tbl !! username with
    | None => inr (<[username := granted sd ed now]> tbl)
    | Some row =>
        if (expiration_date row <? ed) || (days =? 0)
        then inr (<[username := {| subscription_date := sd;
                                   expiration_date := ed;
                                   date_updated := now;
                                   active_subscription := 0 <? days |}]> tbl)
        else inr tbl
    end.

(** [db.query(query, [...])] on the script's own [pg.Pool]: no retry, no
    circuit breaker. *)
Definition pool_trial (username : string) (sd ed days : Z) : Async World unit :=
  fun w =>
    let rest := List.tl (pool_faults w) in
    match List.hd None (pool_faults w) with
    | Some error =>
        (Rejected error,
         {| clock := clock w; subscriptions := subscriptions w;
            journal := journal w; pool_faults := rest |})
    | None =>
        match run_trial username sd ed days (clock w) (subscriptions w) with
        | inl error =>
            (Rejected error,
             {| clock := clock w; subscriptions := subscriptions w;
                journal := journal w; pool_faults := rest |})
        | inr tbl =>
            (Resolved tt,
             {| clock := clock w; subscriptions := tbl;
                journal := journal w; pool_faults := rest |})
        end
    end.

(** [async function addFreeTrial(username, days)]; [plus({ days })] adds
    whole days.  Every exception is caught. *)
Definition addFreeTrial (username : string) (days : Z) : Async World unit :=
  fun w =>
    let subscriptionDate := Date_now w in
    let expirationDate :=
      if days =? 0 then subscriptionDate
      else subscriptionDate + days * JsDate.msPerDay in
    match pool_trial username subscriptionDate expirationDate days w with
    | (Resolved _, w1) => (Resolved tt, w1)
    | (Rejected _, w1) => (Resolved tt, w1)
    end.

(** [async function main()], given the two answers typed at the prompts
    (closing the pool and the prompt at the end is left out). *)
Definition main (username daysInput : string) : Async World unit :=
  fun w =>
    if String.eqb username "" || (16 <? String.length username)%nat
    then (Resolved tt, w)
    else
      match parseInt daysInput with
      | None => (Resolved tt, w)
      | Some days =>
          if days <? 0 then (Resolved tt, w)
          else addFreeTrial username days w
      end.

End FreeTrial.

(* ===================================================================== *)
(** * monitor-subscriptions.js: [findTransactions], the search of the
      last 31 days that [main] runs at every start *)
(* ===================================================================== *)
Module Backfill.
Import Db.

(** An entry of [checkParams]; [amount] is [Number(params.amount)]. *)
Record CheckParams : Type := {
  account : string;
  amount : Q;
  requireMemo : bool;
  memoText : string
}.

Definition checkParams (env : Env) : list CheckParams := [
  {| account := SUBSCRIPTION_PAYMENT_ACCOUNT env;
     amount := SUBSCRIPTION_AMOUNT env;
     requireMemo := true;
     memoText := String.append "subscribe:" (SUBSCRIPTION_ACCOUNT env) |};
  {| account := AI_PAYMENT_ACCOUNT env;
     amount := AI_SUBSCRIPTION_FULL_AMOUNT env;
     requireMemo := false;
     memoText := EmptyString |};
  {| account := AI_PAYMENT_ACCOUNT env;
     amount := AI_SUBSCRIPTION_MINI_AMOUNT env;
     requireMemo := false;
     memoText := EmptyString |}
].

Section Search.
Variable env : Env.
(** [DateTime.fromISO(timestamp)] as a time value, [None] for an invalid
    [DateTime] (every comparison with it is false). *)
Variable fromISO : string -> option Z.
(** The [n]-th request of the run for the history of an account:
    [data.result], or the error thrown (network error, [data.error], or a
    result that is not an array). *)
Variable fetch : nat -> string -> Outcome (list Monitor.Operation).

(** [a >= b] and [a <= b] on [DateTime]s. *)
Definition not_before (time : option Z) (bound : Z) : bool :=
  match time with
  | Some t => bound <=? t
  | None => false
  end.

Definition not_after (time : option Z) (bound : Z) : bool :=
  match time with
  | Some t => t <=? bound
  | None => false
  end.

(** The body of the loop over [data.result]: the transfer pushed onto
    [validTransfers], if any. *)
Definition valid (startDate endDate : Z) (params : CheckParams)
    (operation : Monitor.Operation) : option Transfer :=
  match Monitor.op operation with
  | None => None
  | Some (opType, opData) =>
      if (String.eqb opType "transfer" || String.eqb opType "fill_recurrent_transfer")
         && String.eqb (Monitor.op_to opData) (account params)
      then
        let parts := JsString.split " " (Monitor.op_amount opData) in
        let amountValue := List.hd EmptyString parts in
        let symbol := List.nth_error parts 1 in
        let transferAmount := JsString.parseFloat amountValue in
        let time := fromISO (Monitor.op_timestamp operation) in
        let isValidTransfer :=
          JsString.num_eq transferAmount (Some (amount params))
          && match symbol with
             | Some sym => String.eqb sym "HBD"
             | None => false
             end
          && not_before time startDate
          && not_after time endDate in
        let isValidMemo :=
          if requireMemo params
          then String.eqb (JsString.toLowerCase (Monitor.op_memo opData))
                 (JsString.toLowerCase (memoText params))
          else true in
        if isValidTransfer && isValidMemo
        then Some (Build_Transfer
                     (Monitor.op_from opData)
                     (Monitor.op_to opData)
                     {| amount_value := transferAmount; symbol := "HBD" |}
                     (Monitor.op_memo opData)
                     (Monitor.op_timestamp operation))
        else None
      else None
  end.

Fixpoint validTransfers (startDate endDate : Z) (params : CheckParams)
    (result : list Monitor.Operation) : list Transfer :=
  match result with
  | [] => []
  | operation :: rest =>
      match valid startDate endDate params operation with
      | Some transfer => transfer :: validTransfers startDate endDate params rest
      | None => validTransfers startDate endDate params rest
      end
  end.

(** [for (const transfer of validTransfers) await
    processSubscriptionTransfer(transfer)]; the result is only logged. *)
Fixpoint process_each (transfers : list Transfer) (s : State) : State :=
  match transfers with
  | [] => s
  | transfer :: rest =>
      process_each rest (snd (Ledger.processSubscriptionTransfer env transfer s))
  end.

(** [for (const params of checkParams)], from the [n]-th request on: an
    error of a request ends the run. *)
Fixpoint search (startDate endDate : Z) (n : nat) (todo : list CheckParams)
    : Async State unit :=
  fun s =>
    match todo with
    | [] => (Resolved tt, s)
    | params :: rest =>
        match fetch n (account params) with
        | Rejected error => (Rejected error, s)
        | Resolved result =>
            search startDate endDate (S n) rest
              (process_each (validTransfers startDate endDate params result) s)
        end
    end.

(** [async function findTransactions()]; [minus({ days: 31 })] subtracts
    31 whole days. *)
Definition findTransactions : Async State unit :=
  fun s =>
    let endDate := Date_now s in
    let startDate := endDate - 31 * JsDate.msPerDay in
    search startDate endDate 0 (checkParams env) s.

(** What the search would hand to [processSubscriptionTransfer] for one
    operation: the transfer of the first entry of [checkParams] it is
    valid for. *)
Definition matching (startDate endDate : Z) (operation : Monitor.Operation)
    : option Transfer :=
  List.hd None
    (List.filter (fun found => match found with Some _ => true | None => false end)
       (List.map (fun params => valid startDate endDate params operation)
          (checkParams env))).

End Search.

(** The window of [u] is running at time [now]: the test [addSubscription]
    makes before it decides not to write. *)
Definition running (now : Z) (u : string) (s : State) : Prop :=
  exists e, Ledger.expiration_of u s = Some e /\ now <= e.

(** Every sender in a result has a name the [username] column can hold. *)
Definition senders_fit (result : list Monitor.Operation) : Prop :=
  forall operation opType opData,
    In operation result ->
    Monitor.op operation = Some (opType, opData) ->
    (String.length (Monitor.op_from opData) <= 16)%nat.

End Backfill.

(* ===================================================================== *)
(** * Facts about the calendar *)
(* ===================================================================== *)
Section CalendarFacts.
Import JsDate.


Lemma yearOfEra_spec doe :
  0 <= doe < 146097 ->
  0 <= yearOfEra doe < 400 /\
  daysBeforeYear (yearOfEra doe) <= doe /\
  (doe < daysBeforeYear (yearOfEra doe + 1) \/ yearOfEra doe = 399) /\
  doe - daysBeforeYear (yearOfEra doe) <= 365.
Proof.
  unfold yearOfEra, daysBeforeYear. intros H.
  Z.div_mod_to_equations; lia.
Qed.

Lemma daysBeforeYear_mono a b : a <= b -> daysBeforeYear a <= daysBeforeYear b.
Proof. unfold daysBeforeYear. intros H. Z.div_mod_to_equations; lia. Qed.

Lemma daysBeforeYear_nonneg a : 0 <= a -> 0 <= daysBeforeYear a.
Proof. unfold daysBeforeYear. intros H. Z.div_mod_to_equations; lia. Qed.

Lemma monthOfYear_spec doy :
  0 <= doy <= 365 ->
  0 <= monthOfYear doy < 12 /\
  daysBeforeMonth (monthOfYear doy) <= doy /\
  0 <= daysBeforeMonth (monthOfYear doy).
Proof.
  unfold monthOfYear, daysBeforeMonth. intros H.
  Z.div_mod_to_equations; lia.
Qed.

Lemma daysBeforeMonth_monthOfYear_mono a b :
  0 <= a <= b ->
  daysBeforeMonth (monthOfYear a) <= daysBeforeMonth (monthOfYear b).
Proof.
  unfold monthOfYear, daysBeforeMonth. intros H.
  Z.div_mod_to_equations; lia.
Qed.


Lemma parts_spec d :
  d = eraOf d * 146097 + doeOf d - 719468 /\
  0 <= doeOf d < 146097 /\
  0 <= yoeOf d < 400 /\
  0 <= doyOf d <= 365 /\
  0 <= mpOf d < 12 /\
  daysBeforeMonth (mpOf d) <= doyOf d /\
  0 <= daysBeforeMonth (mpOf d).
Proof.
  assert (Hdoe : 0 <= doeOf d < 146097) by (apply Z.mod_pos_bound; lia).
  pose proof (yearOfEra_spec _ Hdoe) as (Hy & Hle & _ & Hdoy).
  assert (Hdoy' : 0 <= doyOf d <= 365) by (unfold doyOf, yoeOf; lia).
  pose proof (monthOfYear_spec _ Hdoy') as (Hmp & Hm1 & Hm2).
  repeat split; try (unfold mpOf, yoeOf in *; lia).
  pose proof (Z.div_mod (d + 719468) 146097 ltac:(lia)).
  unfold eraOf, doeOf. lia.
Qed.

Lemma civil_from_days_parts d :
  civil_from_days d =
    (yoeOf d + eraOf d * 400 +
       (if (if mpOf d <? 10 then mpOf d + 2 else mpOf d - 10) <=? 1 then 1 else 0),
     (if mpOf d <? 10 then mpOf d + 2 else mpOf d - 10),
     doyOf d - daysBeforeMonth (mpOf d) + 1).
Proof. reflexivity. Qed.

(** The first of the month, as a day number. *)
Lemma monthStart_parts d :
  monthStart d =
    eraOf d * 146097 + daysBeforeYear (yoeOf d) + daysBeforeMonth (mpOf d) - 719468.
Proof.
  unfold monthStart. rewrite civil_from_days_parts.
  pose proof (parts_spec d) as (_ & _ & Hy & _ & Hmp & _).
  unfold days_from_civil.
  set (mp := mpOf d) in *. set (yoe := yoeOf d) in *. set (era := eraOf d).
  assert (Hera : forall k, 0 <= k < 400 -> (k + era * 400) / 400 = era
                                        /\ (k + era * 400) mod 400 = k).
  { intros k Hk. split.
    - rewrite Z.div_add by lia. rewrite Z.div_small by lia. lia.
    - rewrite Z.mod_add by lia. apply Z.mod_small. lia. }
  destruct (Z.ltb_spec mp 10) as [Hlt | Hge].
  - replace (mp + 2 <=? 1) with false by (symmetry; apply Z.leb_gt; lia).
    replace (yoe + era * 400 + 0) with (yoe + era * 400) by lia.
    destruct (Hera yoe Hy) as [-> ->].
    replace (mp + 2 - 2) with mp by lia. lia.
  - replace (mp - 10 <=? 1) with true by (symmetry; apply Z.leb_le; lia).
    replace (yoe + era * 400 + 1 - 1) with (yoe + era * 400) by lia.
    destruct (Hera yoe Hy) as [-> ->].
    replace (mp - 10 + 10) with mp by lia. lia.
Qed.

Lemma monthStart_date d : monthStart d = d - (snd (civil_from_days d) - 1).
Proof.
  rewrite monthStart_parts, civil_from_days_parts. cbn [snd].
  pose proof (parts_spec d) as (Hd & _).
  unfold doyOf. lia.
Qed.

Lemma monthStart_le d : monthStart d <= d.
Proof.
  rewrite monthStart_date, civil_from_days_parts. cbn [snd].
  pose proof (parts_spec d) as (_ & _ & _ & _ & _ & H & _). lia.
Qed.

Lemma monthStart_ge_era d : eraOf d * 146097 - 719468 <= monthStart d.
Proof.
  rewrite monthStart_parts.
  pose proof (parts_spec d) as (_ & _ & Hy & _ & _ & _ & H).
  pose proof (daysBeforeYear_nonneg (yoeOf d) ltac:(lia)). lia.
Qed.

(** Later days lie in later (or the same) months. *)
Lemma monthStart_mono a b : a <= b -> monthStart a <= monthStart b.
Proof.
  intros Hab.
  pose proof (parts_spec a) as (Ha & Hdoea & Hya & Hdoya & _ & Hma & Hma0).
  pose proof (parts_spec b) as (Hb & Hdoeb & Hyb & Hdoyb & _ & Hmb & Hmb0).
  assert (Hera : eraOf a <= eraOf b)
    by (unfold eraOf; apply Z.div_le_mono; lia).
  destruct (Z.eq_dec (eraOf a) (eraOf b)) as [He | Hne].
  - (* same era *)
    assert (Hdoe : doeOf a <= doeOf b) by lia.
    pose proof (yearOfEra_spec _ Hdoea) as (_ & Hya1 & Hya2 & _).
    pose proof (yearOfEra_spec _ Hdoeb) as (_ & Hyb1 & Hyb2 & _).
    fold (yoeOf a) in Hya1, Hya2. fold (yoeOf b) in Hyb1, Hyb2.
    rewrite !monthStart_parts, He.
    destruct (Z.lt_trichotomy (yoeOf a) (yoeOf b)) as [Hlt | [Heq | Hgt]].
    + pose proof (daysBeforeYear_mono (yoeOf a + 1) (yoeOf b) ltac:(lia)).
      unfold doyOf in Hma. lia.
    + assert (Hdoy : 0 <= doyOf a <= doyOf b) by (unfold doyOf in *; rewrite Heq in *; lia).
      pose proof (daysBeforeMonth_monthOfYear_mono _ _ Hdoy).
      unfold mpOf. rewrite Heq. lia.
    + exfalso.
      pose proof (daysBeforeYear_mono (yoeOf b + 1) (yoeOf a) ltac:(lia)).
      lia.
  - (* an earlier era ends before the later one starts *)
    pose proof (monthStart_le a). pose proof (monthStart_ge_era b).
    nia.
Qed.

Lemma Day_add_days t n : Day (t + n * msPerDay) = Day t + n.
Proof. unfold Day, msPerDay. rewrite Z.div_add by lia. reflexivity. Qed.

Lemma TimeWithinDay_add_days t n :
  TimeWithinDay (t + n * msPerDay) = TimeWithinDay t.
Proof. unfold TimeWithinDay, msPerDay. apply Z.mod_add. lia. Qed.

Lemma time_decompose t : t = Day t * msPerDay + TimeWithinDay t.
Proof.
  unfold Day, TimeWithinDay, msPerDay.
  pose proof (Z.div_mod t 86400000 ltac:(lia)). lia.
Qed.

(** [setDate] in terms of the first of the month. *)
Lemma setDate_monthStart t date :
  setDate t date = (monthStart (Day t) + date - 1) * msPerDay + TimeWithinDay t.
Proof.
  unfold setDate, MakeDate, MakeDay, YearFromTime, MonthFromTime, monthStart.
  rewrite civil_from_days_parts. cbn [fst snd].
  pose proof (parts_spec (Day t)) as (_ & _ & _ & _ & Hmp & _).
  set (m := if mpOf (Day t) <? 10 then mpOf (Day t) + 2 else mpOf (Day t) - 10).
  assert (Hm : 0 <= m < 12) by (subst m; destruct (Z.ltb_spec (mpOf (Day t)) 10); lia).
  rewrite (Z.div_small m 12) by lia. rewrite (Z.mod_small m 12) by lia.
  rewrite Z.add_0_r. reflexivity.
Qed.

(** [d.setDate(d.getDate() + n)] moves [d] by exactly [n] days. *)
Lemma setDate_getDate_plus t n :
  setDate t (getDate t + n) = t + n * msPerDay.
Proof.
  rewrite setDate_monthStart. unfold getDate, DateFromTime.
  pose proof (monthStart_date (Day t)) as Hd.
  pose proof (time_decompose t) as Ht.
  unfold msPerDay in *. lia.
Qed.

(** Setting, on a date already moved [n >= 0] days ahead, the day of the
    month computed from the unmoved date never lands before the moved
    date (it lands later when the move crossed a month boundary). *)
Lemma setDate_moved_ge t n :
  0 <= n ->
  t + n * msPerDay <= setDate (t + n * msPerDay) (getDate t + n).
Proof.
  intros Hn. rewrite setDate_monthStart, Day_add_days, TimeWithinDay_add_days.
  unfold getDate, DateFromTime.
  pose proof (monthStart_mono (Day t) (Day t + n) ltac:(lia)) as Hm.
  pose proof (monthStart_date (Day t)) as Hd.
  pose proof (time_decompose t) as Ht.
  unfold msPerDay in *. lia.
Qed.

End CalendarFacts.

(* ===================================================================== *)
(** * Retry executor *)
(* ===================================================================== *)
Section RetryFacts.
Context {St : Type} `{Runtime St} {A : Type}.
Implicit Types (r : Retry.RetryOperation) (operation : Async St A).

(** The loop needs no more fuel than the attempts that remain. *)
Lemma loop_fuel_enough r operation fuel :
  forall attempt st,
    (Z.to_nat (Retry.maxAttempts r + 1 - attempt) <= fuel)%nat ->
    Retry.loop fuel r operation attempt st =
    Retry.loop (Z.to_nat (Retry.maxAttempts r + 1 - attempt)) r operation attempt st.
Proof.
  induction fuel as [| fuel IH]; intros attempt st Hfuel.
  - replace (Z.to_nat (Retry.maxAttempts r + 1 - attempt)) with O by lia.
    reflexivity.
  - destruct (Z.leb_spec attempt (Retry.maxAttempts r)) as [Hle | Hgt].
    + replace (Z.to_nat (Retry.maxAttempts r + 1 - attempt))
        with (S (Z.to_nat (Retry.maxAttempts r + 1 - (attempt + 1)))) by lia.
      cbn [Retry.loop].
      destruct (attempt <=? Retry.maxAttempts r); [| reflexivity].
      destruct (operation st) as [[a | e] st1]; [reflexivity |].
      destruct (attempt =? Retry.maxAttempts r); [reflexivity |].
      rewrite IH by lia. reflexivity.
    + replace (Z.to_nat (Retry.maxAttempts r + 1 - attempt)) with O by lia.
      cbn [Retry.loop].
      replace (attempt <=? Retry.maxAttempts r) with false
        by (symmetry; apply Z.leb_gt; lia).
      reflexivity.
Qed.

(** One turn of the loop. *)
Lemma loop_step r operation fuel attempt st :
  attempt <= Retry.maxAttempts r ->
  Retry.loop (S fuel) r operation attempt st =
  match operation st with
  | (Resolved a, st1) => (Resolved (Some a), st1)
  | (Rejected error, st1) =>
      if attempt =? Retry.maxAttempts r then (Rejected error, st1)
      else Retry.loop fuel r operation (attempt + 1)
             (setTimeout (Retry.waitTime r attempt) st1)
  end.
Proof.
  intros Hle. cbn [Retry.loop].
  replace (attempt <=? Retry.maxAttempts r) with true
    by (symmetry; apply Z.leb_le; lia).
  reflexivity.
Qed.

Lemma state_before_succ r operation st k :
  (1 <= k)%nat ->
  Retry.state_before r operation st (S k) =
  setTimeout (Retry.waitTime r (Z.of_nat k))
    (snd (operation (Retry.state_before r operation st k))).
Proof. destruct k as [| k]; [lia | reflexivity]. Qed.

(** From attempt [k] on: if the attempts [k .. j-1] fail and attempt [j]
    settles, the loop settles the same way. *)
Lemma loop_reaches r operation st (j : nat) :
  forall (k : nat) fuel,
    (1 <= k <= j)%nat ->
    Z.of_nat j <= Retry.maxAttempts r ->
    (j - k < fuel)%nat ->
    (forall i, (k <= i < j)%nat ->
       exists e, fst (operation (Retry.state_before r operation st i)) = Rejected e) ->
    Retry.loop fuel r operation (Z.of_nat k) (Retry.state_before r operation st k) =
    Retry.loop (fuel - (j - k)) r operation (Z.of_nat j)
      (Retry.state_before r operation st j).
Proof.
  intros k. remember (j - k)%nat as d eqn:Hd. revert k Hd.
  induction d as [| d IH]; intros k Hd fuel Hk Hj Hfuel Hfail.
  - assert (k = j) by lia. subst k. rewrite Nat.sub_0_r. reflexivity.
  - destruct fuel as [| fuel]; [lia |].
    rewrite loop_step by lia.
    destruct (Hfail k ltac:(lia)) as [e He].
    destruct (operation (Retry.state_before r operation st k)) as [o st1] eqn:Hop.
    cbn [fst] in He. subst o.
    replace (Z.of_nat k =? Retry.maxAttempts r) with false
      by (symmetry; apply Z.eqb_neq; lia).
    replace (setTimeout (Retry.waitTime r (Z.of_nat k)) st1)
      with (Retry.state_before r operation st (S k))
      by (rewrite state_before_succ by lia; rewrite Hop; reflexivity).
    replace (Z.of_nat k + 1) with (Z.of_nat (S k)) by lia.
    rewrite (IH (S k)) by (try lia; intros i Hi; apply Hfail; lia).
    replace (S fuel - S d)%nat with (fuel - d)%nat by lia.
    reflexivity.
Qed.

(** The first attempt that succeeds decides the result. *)
Lemma execute_first_success r operation st (j : nat) a st1 :
  (1 <= j)%nat ->
  Z.of_nat j <= Retry.maxAttempts r ->
  (forall i, (1 <= i < j)%nat ->
     exists e, fst (operation (Retry.state_before r operation st i)) = Rejected e) ->
  operation (Retry.state_before r operation st j) = (Resolved a, st1) ->
  Retry.execute r operation st = (Resolved (Some a), st1).
Proof.
  intros Hj Hmax Hfail Hok.
  unfold Retry.execute.
  change st with (Retry.state_before r operation st 1) at 1.
  change 1 with (Z.of_nat 1).
  rewrite (loop_reaches r operation st j 1) by (try lia; exact Hfail).
  destruct (Z.to_nat (Retry.maxAttempts r) - (j - 1))%nat as [| fuel] eqn:Hf; [lia |].
  rewrite loop_step by lia. rewrite Hok. reflexivity.
Qed.

(** When every attempt fails, the last error surfaces. *)
Lemma execute_exhausted r operation st last_error st1 :
  1 <= Retry.maxAttempts r ->
  (forall i, (1 <= i < Z.to_nat (Retry.maxAttempts r))%nat ->
     exists e, fst (operation (Retry.state_before r operation st i)) = Rejected e) ->
  operation (Retry.state_before r operation st (Z.to_nat (Retry.maxAttempts r)))
    = (Rejected last_error, st1) ->
  Retry.execute r operation st = (Rejected last_error, st1).
Proof.
  intros Hmax Hfail Hlast.
  unfold Retry.execute.
  change st with (Retry.state_before r operation st 1) at 1.
  change 1 with (Z.of_nat 1).
  rewrite (loop_reaches r operation st (Z.to_nat (Retry.maxAttempts r)) 1)
    by (try lia; exact Hfail).
  destruct (Z.to_nat (Retry.maxAttempts r) - (Z.to_nat (Retry.maxAttempts r) - 1))%nat
    as [| fuel] eqn:Hf; [lia |].
  rewrite loop_step by lia. rewrite Hlast.
  replace (Z.of_nat (Z.to_nat (Retry.maxAttempts r)) =? Retry.maxAttempts r) with true
    by (symmetry; apply Z.eqb_eq; lia).
  reflexivity.
Qed.

(** A run that resolves with a value got it from a successful invocation,
    whose state it returns. *)
Lemma loop_resolved r operation fuel :
  forall attempt st x st1,
    fuel = Z.to_nat (Retry.maxAttempts r + 1 - attempt) ->
    attempt <= Retry.maxAttempts r ->
    Retry.loop fuel r operation attempt st = (Resolved x, st1) ->
    exists s a, operation s = (Resolved a, st1) /\ x = Some a.
Proof.
  induction fuel as [| fuel IH]; intros attempt st x st1 Hfuel Hle Hrun; [lia |].
  rewrite loop_step in Hrun by exact Hle.
  destruct (operation st) as [[a | e] st2] eqn:Hop.
  - injection Hrun as <- <-. exists st, a. split; [exact Hop | reflexivity].
  - destruct (Z.eqb_spec attempt (Retry.maxAttempts r)) as [Heq | Hne];
      [discriminate |].
    eapply (IH (attempt + 1)); [lia | lia | exact Hrun].
Qed.

Lemma execute_resolved r operation st x st1 :
  1 <= Retry.maxAttempts r ->
  Retry.execute r operation st = (Resolved x, st1) ->
  exists s a, operation s = (Resolved a, st1) /\ x = Some a.
Proof.
  intros Hmax Hrun. unfold Retry.execute in Hrun.
  eapply (loop_resolved r operation); [| | exact Hrun]; [f_equal; lia | lia].
Qed.

End RetryFacts.

Section RetryTheorems.
Context {St : Type} `{Runtime St} {A : Type}.
Implicit Types (r : Retry.RetryOperation) (operation : Async St A).

(** C8 (amended). [RetryOperation.execute] returns the result of the first
    attempt that succeeds: when the attempts before attempt
    [j <= maxAttempts] fail and attempt [j] resolves with [a], [execute]
    resolves with [a] (in the state that attempt left).  When all
    [maxAttempts] attempts fail, [execute] fails with the error of the last
    attempt itself, thrown again as it is ([throw error]): no error of its
    own is made to carry it. *)
Theorem C8_retry_result_and_exhaustion r operation st :
  (forall (j : nat) a st1,
      (1 <= j)%nat ->
      Z.of_nat j <= Retry.maxAttempts r ->
      (forall i, (1 <= i < j)%nat ->
         exists e, fst (operation (Retry.state_before r operation st i)) = Rejected e) ->
      operation (Retry.state_before r operation st j) = (Resolved a, st1) ->
      Retry.execute r operation st = (Resolved (Some a), st1))
  /\
  (forall last_error st1,
      1 <= Retry.maxAttempts r ->
      (forall i, (1 <= i < Z.to_nat (Retry.maxAttempts r))%nat ->
         exists e, fst (operation (Retry.state_before r operation st i)) = Rejected e) ->
      operation (Retry.state_before r operation st (Z.to_nat (Retry.maxAttempts r)))
        = (Rejected last_error, st1) ->
      Retry.execute r operation st = (Rejected last_error, st1)).
Proof.
  split.
  - intros j a st1. apply execute_first_success.
  - intros last_error st1. apply execute_exhausted.
Qed.

(** The events of a schedule, by position. *)
Lemma schedule_nth r (m : nat) :
  forall (k i : nat),
    (i <= m)%nat ->
    let events :=
      List.concat
        (List.map (fun j => [Invoked; Suspended (Retry.waitTime r (Z.of_nat j))])
           (List.seq k m)) ++ [Invoked] in
    List.nth_error events (2 * i) = Some Invoked /\
    ((i < m)%nat ->
     List.nth_error events (2 * i + 1)
       = Some (Suspended (Retry.waitTime r (Z.of_nat (k + i))))).
Proof.
  induction m as [| m IH]; intros k i Hi events; subst events.
  - assert (i = O) by lia. subst i. split; [reflexivity | lia].
  - cbn [List.seq List.map List.concat List.app].
    destruct i as [| i].
    + split; [reflexivity |]. intros _. cbn. rewrite Nat.add_0_r. reflexivity.
    + replace (2 * S i)%nat with (S (S (2 * i))) by lia.
      replace (S (S (2 * i)) + 1)%nat with (S (S (2 * i + 1))) by lia.
      cbn [List.nth_error].
      destruct (IH (S k) i ltac:(lia)) as [H1 H2]. split; [exact H1 |].
      intros Hlt. rewrite H2 by lia. do 3 f_equal. lia.
Qed.

Lemma schedule_invocations r (m : nat) :
  forall k : nat,
    invocations
      (List.concat
         (List.map (fun j => [Invoked; Suspended (Retry.waitTime r (Z.of_nat j))])
            (List.seq k m)) ++ [Invoked]) = S m.
Proof.
  unfold invocations.
  induction m as [| m IH]; intros k; [reflexivity |].
  cbn [List.seq List.map List.concat List.app List.filter is_Invoked List.length].
  rewrite IH. reflexivity.
Qed.

(** The trace accumulated before attempt [k] of an observed operation whose
    earlier attempts all failed. *)
Lemma observed_state_before r operation st (k : nat) :
  trace (Retry.state_before r (observed operation) (MkTraced st []) (S k)) =
  List.concat
    (List.map (fun j => [Invoked; Suspended (Retry.waitTime r (Z.of_nat j))])
       (List.seq 1 k)).
Proof.
  induction k as [| k IH]; [reflexivity |].
  rewrite state_before_succ by lia.
  unfold observed at 1.
  destruct (operation (inner (Retry.state_before r (observed operation)
                                (MkTraced st []) (S k)))) as [o s1].
  cbn [snd setTimeout Traced_Runtime trace]. rewrite IH.
  rewrite seq_S, List.map_app, List.concat_app. cbn [List.map List.concat].
  rewrite List.app_nil_r, <- List.app_assoc. reflexivity.
Qed.

(** C7. For every operation that fails on every invocation, and
    [maxAttempts >= 1], [RetryOperation.execute] fails after invoking the
    operation exactly [maxAttempts] times; between attempt [k] and attempt
    [k+1] it suspends for [delay * backoffFactor^(k-1)]; and the last event
    is the final invocation: no suspension follows the final failed
    attempt.  (Events are counted on the trace of the observed run.) *)
Theorem C7_retry_attempts_and_backoff r operation st :
  1 <= Retry.maxAttempts r ->
  (forall s, exists e, fst (operation s) = Rejected e) ->
  let run := Retry.execute r (observed operation) (MkTraced st []) in
  let n := Z.to_nat (Retry.maxAttempts r) in
  (exists e, fst run = Rejected e) /\
  trace (snd run) = Retry.backoff_schedule r n /\
  invocations (trace (snd run)) = n /\
  (forall k : nat, (1 <= k <= n)%nat ->
     List.nth_error (trace (snd run)) (2 * (k - 1)) = Some Invoked) /\
  (forall k : nat, (1 <= k < n)%nat ->
     List.nth_error (trace (snd run)) (2 * (k - 1) + 1)
       = Some (Suspended (Retry.delay r * Retry.backoffFactor r ^ (Z.of_nat k - 1))%Q)) /\
  List.last (trace (snd run)) (Suspended 0) = Invoked.
Proof.
  intros Hmax Hfail run n.
  assert (Hobs : forall t, exists e s1,
             observed operation t = (Rejected e, MkTraced s1 (trace t ++ [Invoked]))).
  { intros t. unfold observed. destruct (Hfail (inner t)) as [e He].
    destruct (operation (inner t)) as [o s1]. cbn [fst] in He. subst o.
    exists e, s1. reflexivity. }
  destruct (Hobs (Retry.state_before r (observed operation) (MkTraced st []) n))
    as (e & s1 & Hlast).
  assert (Hrun : run = (Rejected e,
                        MkTraced s1 (Retry.backoff_schedule r n))).
  { subst run.
    rewrite (execute_exhausted r (observed operation) (MkTraced st []) e
               (MkTraced s1 (Retry.backoff_schedule r n))); [reflexivity | lia | |].
    - intros i Hi. destruct (Hobs (Retry.state_before r (observed operation)
                                      (MkTraced st []) i)) as (e' & s' & He').
      exists e'. rewrite He'. reflexivity.
    - fold n. rewrite Hlast. do 2 f_equal.
      destruct n as [| n'] eqn:Hn; [lia |].
      rewrite observed_state_before.
      unfold Retry.backoff_schedule, Retry.backoff_schedule_from.
      replace (S n' - 1)%nat with n' by lia. reflexivity. }
  rewrite Hrun. cbn [fst snd trace].
  unfold Retry.backoff_schedule, Retry.backoff_schedule_from.
  split; [exists e; reflexivity |].
  split; [reflexivity |].
  split; [rewrite schedule_invocations; lia |].
  split; [| split].
  - intros k Hk. apply (schedule_nth r (n - 1) 1 (k - 1)). lia.
  - intros k Hk.
    destruct (schedule_nth r (n - 1) 1 (k - 1) ltac:(lia)) as [_ Hs].
    rewrite Hs by lia. unfold Retry.waitTime.
    replace (Z.of_nat (1 + (k - 1))) with (Z.of_nat k) by lia. reflexivity.
  - apply List.last_last.
Qed.

End RetryTheorems.

(* ===================================================================== *)
(** * Circuit breaker *)
(* ===================================================================== *)
Section BreakerFacts.
Context {St : Type} `{Runtime St} {A : Type}.
Implicit Types (cb : Breaker.CircuitBreaker) (operation : Async St A).

Lemma execute_closed cb operation st :
  Breaker.isOpen cb = false ->
  Breaker.execute cb operation st =
  match operation st with
  | (Resolved result, st1) => (Resolved result, Breaker.success cb, st1)
  | (Rejected error, st1) => (Rejected error, Breaker.failure (Date_now st1) cb, st1)
  end.
Proof. intros Hc. unfold Breaker.execute. rewrite Hc. reflexivity. Qed.

Lemma execute_open_early cb operation st :
  Breaker.isOpen cb = true ->
  Date_now st - toNumber (Breaker.lastFailureTime cb) < Breaker.resetTimeout cb ->
  Breaker.execute cb operation st = (Rejected (Breaker.CircuitOpen cb), cb, st).
Proof.
  intros Ho Hlt. unfold Breaker.execute. rewrite Ho.
  replace (Date_now st - toNumber (Breaker.lastFailureTime cb) >=? Breaker.resetTimeout cb)
    with false by (symmetry; rewrite Z.geb_leb; apply Z.leb_gt; lia).
  reflexivity.
Qed.

Lemma execute_open_elapsed cb operation st :
  Breaker.isOpen cb = true ->
  Breaker.resetTimeout cb <= Date_now st - toNumber (Breaker.lastFailureTime cb) ->
  Breaker.execute cb operation st =
  match operation st with
  | (Resolved result, st1) =>
      (Resolved result, Breaker.success (Breaker.reset cb), st1)
  | (Rejected error, st1) =>
      (Rejected error, Breaker.failure (Date_now st1) (Breaker.reset cb), st1)
  end.
Proof.
  intros Ho Hge. unfold Breaker.execute. rewrite Ho.
  replace (Date_now st - toNumber (Breaker.lastFailureTime cb) >=? Breaker.resetTimeout cb)
    with true by (symmetry; rewrite Z.geb_leb; apply Z.leb_le; lia).
  reflexivity.
Qed.

End BreakerFacts.

Section BreakerTrip.
Context {St : Type} `{Runtime St}.

(** While fewer than [failureThreshold] failures have accumulated since the
    count was zero, the breaker stays closed and counts; the failure that
    reaches the threshold opens it. *)
Lemma FailedCalls_count (n : Z) cb :
  Breaker.failureThreshold cb = n ->
  Breaker.failureCount cb = 0 ->
  Breaker.isOpen cb = false ->
  forall k cb1,
    Breaker.FailedCalls cb k cb1 ->
    Z.of_nat k <= n ->
    Breaker.failureThreshold cb1 = n /\
    Breaker.failureCount cb1 = Z.of_nat k /\
    Breaker.isOpen cb1 = (Z.of_nat k >=? n) && negb (k =? 0)%nat.
Proof.
  intros Hn Hc Ho k cb1 Hcalls.
  induction Hcalls as [| k cb1 cb2 A operation st error st1 Hcalls IH Hexec]; intros Hk.
  - rewrite Ho, andb_false_r. auto.
  - destruct IH as (IHn & IHc & IHo); [lia |].
    assert (Hclosed : Breaker.isOpen cb1 = false).
    { rewrite IHo. replace (Z.of_nat k >=? n) with false; [reflexivity |].
      symmetry. rewrite Z.geb_leb. apply Z.leb_gt. lia. }
    rewrite execute_closed in Hexec by exact Hclosed.
    destruct (operation st) as [[a | e] st2]; [discriminate |].
    injection Hexec as _ Hcb _. subst cb2.
    cbn [Breaker.failure Breaker.failureThreshold Breaker.failureCount Breaker.isOpen].
    rewrite IHn, IHc, Hclosed.
    replace (Z.of_nat k + 1) with (Z.of_nat (S k)) by lia.
    split; [reflexivity |]. split; [reflexivity |].
    cbn [Nat.eqb negb]. rewrite andb_true_r.
    destruct (Z.of_nat (S k) >=? n); reflexivity.
Qed.

End BreakerTrip.

Section BreakerTheorems.
Context {St : Type} `{Runtime St}.


(** C6 (amended). For every breaker in the Open state, the first [execute]
    call received after [resetTimeout] has elapsed since [lastFailureTime]
    is let through to the wrapped operation; if that operation fails, the
    call fails with the operation's error, [failureCount] is 1 and
    [lastFailureTime] is the time of that failure; the breaker is open
    again after the call exactly when [failureThreshold <= 1]. *)
Theorem C6_failed_probe_restarts_count (A : Type) cb (operation : Async St A)
    st t error st1 :
  Breaker.isOpen cb = true ->
  Breaker.lastFailureTime cb = Some t ->
  Breaker.resetTimeout cb <= Date_now st - t ->
  operation st = (Rejected error, st1) ->
  let out := Breaker.execute cb operation st in
  out = (Rejected error, Breaker.after out, st1) /\
  Breaker.failureCount (Breaker.after out) = 1 /\
  Breaker.lastFailureTime (Breaker.after out) = Some (Date_now st1) /\
  (Breaker.isOpen (Breaker.after out) = true <-> Breaker.failureThreshold cb <= 1).
Proof.
  intros Hopen Hlast Hlate Hop out. subst out.
  rewrite (execute_open_elapsed cb operation st Hopen) by (rewrite Hlast; exact Hlate).
  rewrite Hop. unfold Breaker.after.
  cbn [fst snd Breaker.failure Breaker.reset Breaker.failureCount
       Breaker.lastFailureTime Breaker.isOpen Breaker.failureThreshold].
  repeat split; try reflexivity.
  - intros Hre. destruct (Z.geb_spec (0 + 1) (Breaker.failureThreshold cb)); [lia | discriminate].
  - intros Hle. destruct (Z.geb_spec (0 + 1) (Breaker.failureThreshold cb)); [reflexivity | lia].
Qed.

(** C10 (amended). A successful [execute] call sets [failureCount] to 0 and
    [isOpen] to false.  It leaves [lastFailureTime] as it was when the
    breaker was Closed at the call, and it leaves [null] when the call went
    through the cooldown-expiry reset (breaker Open, [resetTimeout]
    elapsed).  So for a breaker that failed while staying Closed and then
    succeeded, [getState()] reports [isOpen = false], [failureCount = 0]
    and the time of the old failure as [lastFailureTime]. *)
Theorem C10_success_keeps_last_failure_when_closed (A : Type) cb
    (operation : Async St A) st result st1 :
  operation st = (Resolved result, st1) ->
  (Breaker.isOpen cb = false ->
   Breaker.getState (Breaker.after (Breaker.execute cb operation st)) =
     {| Breaker.state_isOpen := false; Breaker.state_failureCount := 0;
        Breaker.state_lastFailureTime := Breaker.lastFailureTime cb |})
  /\
  (Breaker.isOpen cb = true ->
   Breaker.resetTimeout cb <= Date_now st - toNumber (Breaker.lastFailureTime cb) ->
   Breaker.getState (Breaker.after (Breaker.execute cb operation st)) =
     {| Breaker.state_isOpen := false; Breaker.state_failureCount := 0;
        Breaker.state_lastFailureTime := None |})
  /\
  (forall (B : Type) cb0 (failed : Async St B) st0 error st01,
      Breaker.isOpen cb0 = false ->
      Breaker.failureCount cb0 + 1 < Breaker.failureThreshold cb0 ->
      failed st0 = (Rejected error, st01) ->
      cb = Breaker.after (Breaker.execute cb0 failed st0) ->
      Breaker.getState (Breaker.after (Breaker.execute cb operation st)) =
        {| Breaker.state_isOpen := false; Breaker.state_failureCount := 0;
           Breaker.state_lastFailureTime := Some (Date_now st01) |}).
Proof.
  intros Hop.
  assert (Hclosed : Breaker.isOpen cb = false ->
    Breaker.getState (Breaker.after (Breaker.execute cb operation st)) =
     {| Breaker.state_isOpen := false; Breaker.state_failureCount := 0;
        Breaker.state_lastFailureTime := Breaker.lastFailureTime cb |}).
  { intros Hc. rewrite (execute_closed cb operation st Hc), Hop. reflexivity. }
  split; [exact Hclosed | split].
  - intros Ho Hlate.
    rewrite (execute_open_elapsed cb operation st Ho Hlate), Hop. reflexivity.
  - intros B cb0 failed st0 error st01 Hc0 Hbelow Hfailed Hcb.
    rewrite (execute_closed cb0 failed st0 Hc0), Hfailed in Hcb.
    unfold Breaker.after in Hcb. cbn [fst snd] in Hcb.
    assert (Hc : Breaker.isOpen cb = false).
    { subst cb. cbn [Breaker.failure Breaker.isOpen]. rewrite Hc0.
      destruct (Z.geb_spec (Breaker.failureCount cb0 + 1) (Breaker.failureThreshold cb0));
        [lia | reflexivity]. }
    rewrite (Hclosed Hc). subst cb. reflexivity.
Qed.

End BreakerTheorems.


(** C6 as stated fails at the monitor's breaker (threshold 3): it is Open,
    the cooldown has elapsed, the probe fails, and the breaker is Closed
    after the call. *)
Lemma C6_counterexample :
  Breaker.failureThreshold Example.tripped = 3 /\
  Breaker.isOpen Example.tripped = true /\
  Breaker.lastFailureTime Example.tripped = Some 0 /\
  Breaker.resetTimeout Example.tripped <= Date_now (Example.world_at 60000) - 0 /\
  Example.failing Example.boom (Example.world_at 60000)
    = (Rejected Example.boom, Example.world_at 60000) /\
  Breaker.isOpen
    (Breaker.after
       (Breaker.execute Example.tripped (@Example.failing Db.World Example.boom)
          (Example.world_at 60000))) = false.
Proof.
  repeat split; reflexivity.
Qed.

Lemma C6_witness :
  Breaker.failureCount
    (Breaker.after
       (Breaker.execute Example.tripped (@Example.failing Db.World Example.boom)
          (Example.world_at 60000))) = 1 /\
  Breaker.lastFailureTime
    (Breaker.after
       (Breaker.execute Example.tripped (@Example.failing Db.World Example.boom)
          (Example.world_at 60000))) = Some 60000.
Proof.
  destruct (@C6_failed_probe_restarts_count Db.World _ unit Example.tripped
              (Example.failing Example.boom) (Example.world_at 60000) 0
              Example.boom (Example.world_at 60000))
    as (_ & Hcount & Hlast & _);
    [reflexivity | reflexivity | vm_compute; discriminate | reflexivity |].
  split; [exact Hcount | exact Hlast].
Defined.

(** C10 as stated fails at a breaker with threshold 1: it fails once (and
    opens), then succeeds after the cooldown, and [getState()] reports a
    [null] [lastFailureTime]. *)
Lemma C10_counterexample :
  fst (fst (Breaker.execute Example.fragile (@Example.failing Db.World Example.boom)
              (Example.world_at 0))) = Rejected Example.boom /\
  fst (fst (Breaker.execute Example.fragile_failed (@Example.succeeding Db.World)
              (Example.world_at 60000))) = Resolved tt /\
  Breaker.getState
    (Breaker.after
       (Breaker.execute Example.fragile_failed (@Example.succeeding Db.World)
          (Example.world_at 60000))) =
  {| Breaker.state_isOpen := false; Breaker.state_failureCount := 0;
     Breaker.state_lastFailureTime := None |}.
Proof. repeat split; reflexivity. Qed.

Lemma C10_witness :
  Breaker.getState
    (Breaker.after
       (Breaker.execute Example.breaker1 (@Example.succeeding Db.World)
          (Example.world_at 1000))) =
  {| Breaker.state_isOpen := false; Breaker.state_failureCount := 0;
     Breaker.state_lastFailureTime := Some 0 |}.
Proof.
  destruct (@C10_success_keeps_last_failure_when_closed Db.World _ unit
              Example.breaker1 Example.succeeding (Example.world_at 1000) tt
              (Example.world_at 1000) eq_refl) as (_ & _ & Hseq).
  apply (Hseq unit (Monitor.circuitBreaker Monitor.new)
           (Example.failing Example.boom) (Example.world_at 0) Example.boom
           (Example.world_at 0));
    [reflexivity | vm_compute; reflexivity | reflexivity | reflexivity].
Defined.

(** C7, at the database's retry settings (3 attempts, 1000 ms, factor 2). *)
Lemma C7_witness :
  trace (snd (Retry.execute (Db.retry Db.new)
                (observed (@Example.failing Db.World Example.boom))
                (MkTraced (Example.world_at 0) [])))
    = Retry.backoff_schedule (Db.retry Db.new) 3 /\
  invocations
    (trace (snd (Retry.execute (Db.retry Db.new)
                   (observed (@Example.failing Db.World Example.boom))
                   (MkTraced (Example.world_at 0) [])))) = 3%nat.
Proof.
  destruct (@C7_retry_attempts_and_backoff Db.World _ unit (Db.retry Db.new)
              (Example.failing Example.boom) (Example.world_at 0))
    as (_ & Htrace & Hcount & _).
  - vm_compute. discriminate.
  - intros s. exists Example.boom. reflexivity.
  - split; [exact Htrace | exact Hcount].
Defined.

(** The schedule of the witness, written out. *)
Example backoff_schedule_database :
  List.map (fun ev => match ev with
                      | Invoked => None
                      | Suspended ms => Some (Qred ms)
                      end)
    (Retry.backoff_schedule (Db.retry Db.new) 3)
  = [None; Some (1000 # 1); None; Some (2000 # 1); None].
Proof. vm_compute. reflexivity. Qed.

(** C8, at the database's retry settings: an operation that fails twice and
    then returns 3000, and one that fails every time. *)
Lemma C8_witness :
  Retry.execute (Db.retry Db.new) Example.flaky (Example.world_at 0)
    = (Resolved (Some 3000), Example.world_at 3000) /\
  Retry.execute (Db.retry Db.new) (@Example.failing Db.World Example.boom)
    (Example.world_at 0) = (Rejected Example.boom, Example.world_at 3000).
Proof.
  split.
  - apply (proj1 (@C8_retry_result_and_exhaustion Db.World _ Z (Db.retry Db.new)
                    Example.flaky (Example.world_at 0)) 3%nat 3000 (Example.world_at 3000)).
    + lia.
    + vm_compute. discriminate.
    + intros i Hi. exists Example.boom.
      assert (Hcases : i = 1%nat \/ i = 2%nat) by lia.
      destruct Hcases as [-> | ->]; reflexivity.
    + reflexivity.
  - apply (proj2 (@C8_retry_result_and_exhaustion Db.World _ unit (Db.retry Db.new)
                    (Example.failing Example.boom) (Example.world_at 0))
             Example.boom (Example.world_at 3000)).
    + vm_compute. discriminate.
    + intros i Hi. exists Example.boom. reflexivity.
    + reflexivity.
Defined.

(** C8 as stated fails at the database's retry settings with an operation
    that throws [boom] at every attempt: after the third attempt [execute]
    rejects with [boom] itself, the error of the operation with its message
    as it was, and so with no other error made to carry [boom], whatever
    that error would be. *)
Lemma C8_counterexample :
  Retry.maxAttempts (Db.retry Db.new) = 3 /\
  (forall w : Db.World, Example.failing Example.boom w = (Rejected Example.boom, w)) /\
  Retry.execute (Db.retry Db.new) (@Example.failing Db.World Example.boom)
    (Example.world_at 0) = (Rejected Example.boom, Example.world_at 3000) /\
  message Example.boom = "boom" /\
  (forall RetryExhausted : JsError -> JsError,
      RetryExhausted Example.boom <> Example.boom ->
      fst (Retry.execute (Db.retry Db.new) (@Example.failing Db.World Example.boom)
             (Example.world_at 0))
      <> Rejected (RetryExhausted Example.boom)).
Proof.
  assert (Hrun : Retry.execute (Db.retry Db.new) (@Example.failing Db.World Example.boom)
                   (Example.world_at 0) = (Rejected Example.boom, Example.world_at 3000))
    by (vm_compute; reflexivity).
  split; [reflexivity |]. split; [reflexivity |]. split; [exact Hrun |].
  split; [reflexivity |].
  intros RetryExhausted Hother. rewrite Hrun. cbn [fst].
  intros Hsame. injection Hsame as Hsame. apply Hother. symmetry. exact Hsame.
Qed.

(* ===================================================================== *)
(** * Connection supervisor *)
(* ===================================================================== *)
Section MonitorFacts.
Context {W : Type} `{Runtime W}.
Variable bot_start : Async W unit.

(** A successful [start()] leaves the monitor connected with a fresh
    budget. *)
Lemma establish_resolved h a h1 :
  Monitor.establish bot_start h = (Resolved a, h1) ->
  Monitor.isConnected (Monitor.monitor h1) = true /\
  Monitor.reconnectAttempts (Monitor.monitor h1) = 0.
Proof.
  unfold Monitor.establish. intros Hrun.
  destruct (bot_start (Monitor.host h)) as [[u | e] w1]; [| discriminate].
  injection Hrun as _ <-. split; reflexivity.
Qed.

(** [connect()], when it is not a no-op and resolves, has connected. *)
Lemma connect_resolved h h1 :
  Monitor.isConnected (Monitor.monitor h) = false ->
  1 <= Retry.maxAttempts (Monitor.retry (Monitor.monitor h)) ->
  Monitor.connect bot_start h = (Resolved tt, h1) ->
  Monitor.isConnected (Monitor.monitor h1) = true /\
  Monitor.reconnectAttempts (Monitor.monitor h1) = 0.
Proof.
  intros Hdis Hmax. unfold Monitor.connect. rewrite Hdis.
  destruct (Breaker.execute _ _ h) as [[result cb] h2] eqn:Hexec.
  intros Hrun. injection Hrun as Hres <-.
  destruct result as [x | e]; [clear Hres | discriminate].
  unfold Breaker.execute in Hexec.
  destruct (if Breaker.isOpen _ then _ else _) as [cb1 |]; [| discriminate].
  destruct (Retry.execute _ _ h) as [[y | e] h3] eqn:Hretry; [| discriminate].
  injection Hexec as _ _ <-.
  destruct (execute_resolved _ _ _ _ _ Hmax Hretry) as (s & a & Hest & _).
  apply establish_resolved in Hest. exact Hest.
Qed.

(** What a run over a traced host appends to the trace. *)
Lemma establish_trace (h : Monitor.Hive (Traced W)) :
  trace (Monitor.host (snd (Monitor.establish (observed bot_start) h)))
    = trace (Monitor.host h) ++ [Invoked].
Proof.
  unfold Monitor.establish, observed.
  destruct (bot_start (inner (Monitor.host h))) as [[u | e] w1]; reflexivity.
Qed.

Lemma loop_establish_trace r fuel :
  forall attempt (h : Monitor.Hive (Traced W)),
    exists more,
      trace (Monitor.host
               (snd (Retry.loop fuel r (Monitor.establish (observed bot_start)) attempt h)))
        = trace (Monitor.host h) ++ more /\
      ((1 <= fuel)%nat -> attempt <= Retry.maxAttempts r ->
       exists more1, more = Invoked :: more1).
Proof.
  induction fuel as [| fuel IH]; intros attempt h.
  - exists []. split; [symmetry; apply List.app_nil_r | lia].
  - cbn [Retry.loop].
    destruct (Z.leb_spec attempt (Retry.maxAttempts r)) as [Hle | Hgt].
    + pose proof (establish_trace h) as Hest.
      destruct (Monitor.establish (observed bot_start) h) as [[u | e] h1];
        cbn [snd] in Hest |- *.
      * exists [Invoked]. split; [exact Hest | eauto].
      * destruct (attempt =? Retry.maxAttempts r).
        -- exists [Invoked]. split; [exact Hest | eauto].
        -- destruct (IH (attempt + 1) (setTimeout (Retry.waitTime r attempt) h1))
             as (more & Hmore & _).
           exists (Invoked :: Suspended (Retry.waitTime r attempt) :: more).
           split; [| eauto].
           rewrite Hmore. cbn [setTimeout Monitor.Hive_Runtime Monitor.host
                               Traced_Runtime trace].
           rewrite Hest, <- !List.app_assoc. reflexivity.
    + exists []. split; [symmetry; apply List.app_nil_r | lia].
Qed.

Lemma connect_trace (h : Monitor.Hive (Traced W)) :
  Monitor.isConnected (Monitor.monitor h) = false ->
  exists more,
    trace (Monitor.host (snd (Monitor.connect (observed bot_start) h)))
      = trace (Monitor.host h) ++ more /\
    (Breaker.isOpen (Monitor.circuitBreaker (Monitor.monitor h)) = false ->
     1 <= Retry.maxAttempts (Monitor.retry (Monitor.monitor h)) ->
     exists more1, more = Invoked :: more1).
Proof.
  intros Hdis. unfold Monitor.connect. rewrite Hdis.
  unfold Breaker.execute, Retry.execute.
  destruct (loop_establish_trace (Monitor.retry (Monitor.monitor h))
              (Z.to_nat (Retry.maxAttempts (Monitor.retry (Monitor.monitor h)))) 1 h)
    as (more & Hmore & Hfirst).
  destruct (Breaker.isOpen (Monitor.circuitBreaker (Monitor.monitor h))).
  - destruct (_ >=? _).
    + exists more. split; [| discriminate].
      destruct (Retry.loop _ _ _ 1 h) as [[x | e] h1]; exact Hmore.
    + exists []. split; [symmetry; apply List.app_nil_r | discriminate].
  - exists more. split.
    + destruct (Retry.loop _ _ _ 1 h) as [[x | e] h1]; exact Hmore.
    + intros _ Hmax. apply Hfirst; lia.
Qed.

End MonitorFacts.

Section MonitorTheorems.
Context {W : Type} `{Runtime W}.
Variable bot_start : Async W unit.

(** C9. A monitor is built with a budget of 5 reconnect attempts and a
    fixed delay of 5000 ms.  A [handleDisconnect] that occurs while
    [reconnectAttempts < maxReconnectAttempts] marks the monitor
    disconnected, increments the counter, suspends for [reconnectDelay]
    (the same delay whatever the counter) and then runs [connect()]; when
    that [connect()] succeeds the counter is back at 0 and the monitor is
    connected.  Once [reconnectAttempts] has reached
    [maxReconnectAttempts], [handleDisconnect] fails with the fatal
    ReconnectionExhausted error, without suspending and without calling
    into the upstream network (the host state is untouched). *)
Theorem C9_reconnect_budget (h : Monitor.Hive W) :
  let m := Monitor.monitor h in
  let disconnected := Monitor.set_observer None (Monitor.set_isConnected false m) in
  Monitor.maxReconnectAttempts Monitor.new = 5 /\
  Monitor.reconnectDelay Monitor.new = 5000 /\
  (Monitor.reconnectAttempts m < Monitor.maxReconnectAttempts m ->
   Monitor.handleDisconnect bot_start h =
     Monitor.connect bot_start
       (setTimeout (inject_Z (Monitor.reconnectDelay m))
          (Monitor.MkHive
             (Monitor.set_reconnectAttempts (Monitor.reconnectAttempts m + 1) disconnected)
             (Monitor.host h))) /\
   (1 <= Retry.maxAttempts (Monitor.retry m) ->
    fst (Monitor.handleDisconnect bot_start h) = Resolved tt ->
    Monitor.reconnectAttempts (Monitor.monitor (snd (Monitor.handleDisconnect bot_start h))) = 0 /\
    Monitor.isConnected (Monitor.monitor (snd (Monitor.handleDisconnect bot_start h))) = true))
  /\
  (Monitor.maxReconnectAttempts m <= Monitor.reconnectAttempts m ->
   Monitor.handleDisconnect bot_start h =
     (Rejected Monitor.ReconnectionExhausted, Monitor.MkHive disconnected (Monitor.host h)))
  /\
  (forall ht : Monitor.Hive (Traced W),
      let mt := Monitor.monitor ht in
      let events :=
        trace (Monitor.host (snd (Monitor.handleDisconnect (observed bot_start) ht))) in
      (Monitor.reconnectAttempts mt < Monitor.maxReconnectAttempts mt ->
       exists more,
         events = trace (Monitor.host ht)
                    ++ Suspended (inject_Z (Monitor.reconnectDelay mt)) :: more /\
         (Breaker.isOpen (Monitor.circuitBreaker mt) = false ->
          1 <= Retry.maxAttempts (Monitor.retry mt) ->
          exists more1, more = Invoked :: more1)) /\
      (Monitor.maxReconnectAttempts mt <= Monitor.reconnectAttempts mt ->
       events = trace (Monitor.host ht))).
Proof.
  intros m disconnected.
  split; [reflexivity |]. split; [reflexivity |]. split.
  - intros Hbudget.
    assert (Heq : Monitor.handleDisconnect bot_start h =
      Monitor.connect bot_start
        (setTimeout (inject_Z (Monitor.reconnectDelay m))
           (Monitor.MkHive
              (Monitor.set_reconnectAttempts (Monitor.reconnectAttempts m + 1) disconnected)
              (Monitor.host h)))).
    { unfold Monitor.handleDisconnect. fold m. fold disconnected.
      replace (Monitor.reconnectAttempts disconnected <? Monitor.maxReconnectAttempts disconnected)
        with true by (symmetry; apply Z.ltb_lt; exact Hbudget).
      reflexivity. }
    split; [exact Heq |].
    intros Hmax Hok. rewrite Heq in Hok |- *.
    destruct (Monitor.connect bot_start _) as [o h1] eqn:Hconn.
    cbn [fst snd] in Hok |- *. subst o.
    apply connect_resolved in Hconn; [tauto | reflexivity | exact Hmax].
  - split.
    + intros Hspent.
      unfold Monitor.handleDisconnect. fold m. fold disconnected.
      replace (Monitor.reconnectAttempts disconnected <? Monitor.maxReconnectAttempts disconnected)
        with false by (symmetry; apply Z.ltb_ge; exact Hspent).
      reflexivity.
    + intros ht mt events. subst events. unfold Monitor.handleDisconnect.
      cbn [Monitor.set_observer Monitor.set_isConnected Monitor.reconnectAttempts
           Monitor.maxReconnectAttempts]. fold mt.
      split.
      * intros Hbudget.
        replace (Monitor.reconnectAttempts mt <? Monitor.maxReconnectAttempts mt)
          with true by (symmetry; apply Z.ltb_lt; exact Hbudget).
        match goal with
        | |- context [Monitor.connect _ ?h1] =>
            destruct (connect_trace bot_start h1 eq_refl) as (more & Hmore & Hfirst)
        end.
        exists more. split; [| exact Hfirst].
        rewrite Hmore. cbn [setTimeout Monitor.Hive_Runtime Monitor.host
                            Traced_Runtime trace].
        rewrite <- List.app_assoc. reflexivity.
      * intros Hspent.
        replace (Monitor.reconnectAttempts mt <? Monitor.maxReconnectAttempts mt)
          with false by (symmetry; apply Z.ltb_ge; exact Hspent).
        reflexivity.
Qed.

End MonitorTheorems.

(** C9, at a freshly built monitor whose upstream client starts at once,
    and at a monitor whose budget is used up. *)
Lemma C9_witness :
  Monitor.reconnectAttempts
    (Monitor.monitor
       (snd (Monitor.handleDisconnect Example.succeeding
               (Monitor.MkHive Monitor.new (Example.world_at 0))))) = 0 /\
  Db.clock
    (Monitor.host
       (snd (Monitor.handleDisconnect Example.succeeding
               (Monitor.MkHive Monitor.new (Example.world_at 0))))) = 5000 /\
  Monitor.handleDisconnect Example.succeeding
    (Monitor.MkHive Example.worn_out (Example.world_at 0))
  = (Rejected Monitor.ReconnectionExhausted,
     Monitor.MkHive
       (Monitor.set_observer None (Monitor.set_isConnected false Example.worn_out))
       (Example.world_at 0)).
Proof.
  split; [| split].
  - destruct (@C9_reconnect_budget Db.World _ Example.succeeding
                (Monitor.MkHive Monitor.new (Example.world_at 0)))
      as (_ & _ & Hin & _ & _).
    destruct Hin as [_ Hreset]; [vm_compute; reflexivity |].
    apply Hreset; [vm_compute; discriminate | reflexivity].
  - reflexivity.
  - destruct (@C9_reconnect_budget Db.World _ Example.succeeding
                (Monitor.MkHive Example.worn_out (Example.world_at 0)))
      as (_ & _ & _ & Hout & _).
    apply Hout. vm_compute. discriminate.
Defined.

(* ===================================================================== *)
(** * Database *)
(* ===================================================================== *)
Section DbFacts.
Import Db.

(** A statement the server accepts, sent to a healthy database, runs once. *)
Lemma query_healthy stmt s result tbl written :
  healthy s ->
  run stmt (clock (world s)) (subscriptions (world s)) = inr (result, tbl, written) ->
  query stmt s =
    (Resolved (Some result),
     {| db := {| circuitBreaker := Breaker.success (circuitBreaker (db s));
                 retry := retry (db s) |};
        world := {| clock := clock (world s);
                    subscriptions := tbl;
                    journal := if written then journal (world s) ++ [stmt]
                               else journal (world s);
                    pool_faults := [] |} |}).
Proof.
  intros (Hclosed & Hmax & Hfaults) Hrun.
  unfold query.
  assert (Hpool : pool_query stmt (world s) =
    (Resolved result,
     {| clock := clock (world s); subscriptions := tbl;
        journal := if written then journal (world s) ++ [stmt] else journal (world s);
        pool_faults := [] |})).
  { unfold pool_query. rewrite Hfaults. cbn [List.hd List.tl]. rewrite Hrun. reflexivity. }
  rewrite (execute_closed _ _ _ Hclosed).
  rewrite (execute_first_success (retry (db s)) (pool_query stmt) (world s) 1 result _
             ltac:(lia) ltac:(lia) ltac:(intros; lia) Hpool).
  reflexivity.
Qed.

Lemma query_healthy_after stmt s result tbl written :
  healthy s ->
  run stmt (clock (world s)) (subscriptions (world s)) = inr (result, tbl, written) ->
  healthy (snd (query stmt s)).
Proof.
  intros Hs Hrun. rewrite (query_healthy _ _ _ _ _ Hs Hrun).
  destruct Hs as (_ & Hmax & _). repeat split; [exact Hmax].
Qed.

(** Whatever the state of the database, a [pool.query] call that resolves
    ran the statement, and one that rejects left the table alone. *)
Lemma pool_query_cases stmt w :
  match pool_query stmt w with
  | (Resolved result, w1) =>
      exists written,
        run stmt (clock w) (subscriptions w) = inr (result, subscriptions w1, written)
        /\ clock w1 = clock w
  | (Rejected _, w1) => subscriptions w1 = subscriptions w /\ clock w1 = clock w
  end.
Proof.
  unfold pool_query.
  destruct (List.hd None (pool_faults w)) as [e |]; [split; reflexivity |].
  destruct (run stmt (clock w) (subscriptions w)) as [e | [[result tbl] written]];
    [split; reflexivity |].
  exists written. split; reflexivity.
Qed.

Lemma loop_pool_query stmt r fuel :
  forall attempt w,
    match Retry.loop fuel r (pool_query stmt) attempt w with
    | (Resolved (Some result), w1) =>
        exists now written,
          run stmt now (subscriptions w) = inr (result, subscriptions w1, written)
    | (_, w1) => subscriptions w1 = subscriptions w
    end.
Proof.
  induction fuel as [| fuel IH]; intros attempt w; [reflexivity |].
  cbn [Retry.loop].
  destruct (attempt <=? Retry.maxAttempts r); [| reflexivity].
  pose proof (pool_query_cases stmt w) as Hpool.
  destruct (pool_query stmt w) as [[result | e] w1].
  - destruct Hpool as (written & Hrun & _). eauto.
  - destruct Hpool as [Htbl _].
    destruct (attempt =? Retry.maxAttempts r); [exact Htbl |].
    specialize (IH (attempt + 1) (setTimeout (Retry.waitTime r attempt) w1)).
    assert (Hsame : subscriptions (setTimeout (Retry.waitTime r attempt) w1)
                    = subscriptions w) by exact Htbl.
    rewrite Hsame in IH. exact IH.
Qed.

(** [db.query]: a result means the statement ran once on the table as it
    was; anything else means the table is as it was. *)
Lemma query_cases stmt s :
  match query stmt s with
  | (Resolved (Some result), s1) =>
      exists now written,
        run stmt now (subscriptions (world s))
          = inr (result, subscriptions (world s1), written)
  | (_, s1) => subscriptions (world s1) = subscriptions (world s)
  end.
Proof.
  unfold query, Breaker.execute.
  destruct (if Breaker.isOpen _ then _ else _) as [cb1 |]; [| reflexivity].
  unfold Retry.execute.
  pose proof (loop_pool_query stmt (retry (db s))
                (Z.to_nat (Retry.maxAttempts (retry (db s)))) 1 (world s)) as Hloop.
  destruct (Retry.loop _ _ _ 1 (world s)) as [[[result |] | e] w1]; exact Hloop.
Qed.

End DbFacts.

(* ===================================================================== *)
(** * Subscription ledger *)
(* ===================================================================== *)
Section LedgerFacts.
Import Db Ledger.

Lemma select_runs username now (tbl : gmap string Row) :
  run (SelectDates username) now tbl =
    inr ({| rows := match tbl !! username with
                    | Some row => [row]
                    | None => []
                    end |}, tbl, false).
Proof. reflexivity. Qed.

Lemma upsert_runs username sd ed now (tbl : gmap string Row) :
  (String.length username <= 16)%nat ->
  run (Upsert username sd ed) now tbl =
    inr ({| rows := [] |}, <[username := granted sd ed now]> tbl, true).
Proof.
  intros Hlen. cbn [run].
  replace (16 <? String.length username)%nat with false
    by (symmetry; apply Nat.ltb_ge; exact Hlen).
  reflexivity.
Qed.

(** The state a healthy database is in after the [SELECT]. *)
Lemma select_healthy username s :
  healthy s ->
  exists s1,
    query (SelectDates username) s =
      (Resolved (Some {| rows := match subscriptions (world s) !! username with
                                 | Some row => [row]
                                 | None => []
                                 end |}), s1)
    /\ healthy s1
    /\ clock (world s1) = clock (world s)
    /\ subscriptions (world s1) = subscriptions (world s)
    /\ journal (world s1) = journal (world s).
Proof.
  intros Hs. eexists. split.
  - apply (query_healthy _ _ _ _ _ Hs (select_runs _ _ _)).
  - destruct Hs as (_ & Hmax & _). repeat split; exact Hmax.
Qed.

Lemma upsert_healthy username sd ed s :
  healthy s ->
  (String.length username <= 16)%nat ->
  exists s1 result,
    query (Upsert username sd ed) s = (Resolved result, s1)
    /\ healthy s1
    /\ clock (world s1) = clock (world s)
    /\ subscriptions (world s1)
         = <[username := granted sd ed (clock (world s))]> (subscriptions (world s))
    /\ journal (world s1) = journal (world s) ++ [Upsert username sd ed].
Proof.
  intros Hs Hlen. eexists. eexists. split.
  - apply (query_healthy _ _ _ _ _ Hs (upsert_runs _ _ _ _ _ Hlen)).
  - destruct Hs as (_ & Hmax & _). repeat split; exact Hmax.
Qed.

(** A grant inside an active window: nothing is written. *)
Lemma addSubscription_active username days s row :
  healthy s ->
  subscriptions (world s) !! username = Some row ->
  clock (world s) <= expiration_date row ->
  let out := addSubscription username days s in
  fst out = Resolved true /\
  healthy (snd out) /\
  clock (world (snd out)) = clock (world s) /\
  subscriptions (world (snd out)) = subscriptions (world s) /\
  journal (world (snd out)) = journal (world s).
Proof.
  intros Hs Hrow Hactive out. subst out. unfold addSubscription.
  destruct (select_healthy username s Hs) as (s1 & Hq & Hs1 & Hc & Ht & Hj).
  rewrite Hq, Hrow. cbn [rows].
  replace (Date_now s >? expiration_date row) with false
    by (symmetry; rewrite Z.gtb_ltb; apply Z.ltb_ge; exact Hactive).
  cbn [fst snd]. auto.
Qed.

(** A grant that finds no record, or a lapsed window, writes once. *)
Lemma addSubscription_writes username days s :
  healthy s ->
  (String.length username <= 16)%nat ->
  (forall row, subscriptions (world s) !! username = Some row ->
     expiration_date row < clock (world s)) ->
  let now := clock (world s) in
  let ed := written_expiration (subscriptions (world s) !! username) now days in
  let out := addSubscription username days s in
  fst out = Resolved true /\
  healthy (snd out) /\
  clock (world (snd out)) = now /\
  subscriptions (world (snd out))
    = <[username := granted now ed now]> (subscriptions (world s)) /\
  journal (world (snd out)) = journal (world s) ++ [Upsert username now ed].
Proof.
  intros Hs Hlen Hlapsed now ed out. subst out ed. unfold addSubscription.
  destruct (select_healthy username s Hs) as (s1 & Hq & Hs1 & Hc & Ht & Hj).
  rewrite Hq. cbn [rows]. change (Date_now s) with now.
  destruct (subscriptions (world s) !! username) as [row |] eqn:Hrow.
  - replace (now >? expiration_date row) with true
      by (symmetry; rewrite Z.gtb_ltb; apply Z.ltb_lt; apply Hlapsed; reflexivity).
    cbn [written_expiration].
    destruct (upsert_healthy username now
                (JsDate.setDate (JsDate.setDate now (JsDate.getDate now + days))
                   (JsDate.getDate now + days)) s1 Hs1 Hlen)
      as (s2 & result & Hq2 & Hs2 & Hc2 & Ht2 & Hj2).
    rewrite Hq2. cbn [fst snd].
    rewrite Hc2, Ht2, Hj2, Hc, Ht, Hj. auto.
  - cbn [written_expiration].
    destruct (upsert_healthy username now
                (JsDate.setDate now (JsDate.getDate now + days)) s1 Hs1 Hlen)
      as (s2 & result & Hq2 & Hs2 & Hc2 & Ht2 & Hj2).
    rewrite Hq2. cbn [fst snd].
    rewrite Hc2, Ht2, Hj2, Hc, Ht, Hj. auto.
Qed.

(** What is written for a first grant is [now] plus [days] whole days; for
    a lapsed window and [days >= 0] it is that or later. *)
Lemma written_expiration_first now days :
  written_expiration None now days = now + days * JsDate.msPerDay.
Proof. apply setDate_getDate_plus. Qed.

Lemma written_expiration_ge existing now days :
  0 <= days ->
  now + days * JsDate.msPerDay <= written_expiration existing now days.
Proof.
  intros Hdays. destruct existing as [row |]; cbn [written_expiration].
  - rewrite setDate_getDate_plus. apply setDate_moved_ge. exact Hdays.
  - rewrite setDate_getDate_plus. lia.
Qed.

(** What is written over a lapsed window, exactly: [now + days], pushed on
    by the distance between the first of the month of [now] and the first
    of the month of [now + days].  The two agree when [now + days] falls in
    the month of [now]. *)
Lemma written_expiration_lapsed row now days :
  written_expiration (Some row) now days =
    now + days * JsDate.msPerDay
    + (JsDate.monthStart (JsDate.Day now + days) - JsDate.monthStart (JsDate.Day now))
      * JsDate.msPerDay.
Proof.
  cbn [written_expiration].
  rewrite setDate_getDate_plus, setDate_monthStart, Day_add_days, TimeWithinDay_add_days.
  unfold JsDate.getDate, JsDate.DateFromTime.
  pose proof (monthStart_date (JsDate.Day now)) as Hd.
  pose proof (time_decompose now) as Ht.
  unfold JsDate.msPerDay in *. lia.
Qed.

Lemma written_expiration_same_month row now days :
  JsDate.monthStart (JsDate.Day now + days) = JsDate.monthStart (JsDate.Day now) ->
  written_expiration (Some row) now days = now + days * JsDate.msPerDay.
Proof. intros Hsame. rewrite written_expiration_lapsed, Hsame. lia. Qed.

End LedgerFacts.

Section LedgerMonotone.
Import Db Ledger.

(** Whatever the state of the database, [addSubscription] either leaves
    the table as it is or writes the payer's row, and it writes only when
    it found no record or a lapsed window. *)
Lemma addSubscription_table username days s :
  let now := clock (world s) in
  let tbl := subscriptions (world s) in
  let out := addSubscription username days s in
  subscriptions (world (snd out)) = tbl \/
  ((forall row, tbl !! username = Some row -> expiration_date row < now) /\
   exists db_now,
     subscriptions (world (snd out))
       = <[username := granted now (written_expiration (tbl !! username) now days) db_now]> tbl).
Proof.
  intros now tbl out. subst out. unfold addSubscription.
  change (Date_now s) with now.
  pose proof (query_cases (SelectDates username) s) as Hsel.
  destruct (query (SelectDates username) s) as [[[existing |] | e] s1];
    [| left; exact Hsel | left; exact Hsel].
  destruct Hsel as (now1 & written & Hrun).
  rewrite select_runs in Hrun. injection Hrun as <- Htbl1 _.
  fold tbl in Htbl1 |- *. cbn [rows].
  assert (Hupsert : forall ed,
    subscriptions (world (snd
      (match query (Upsert username now ed) s1 with
       | (Resolved _, s2) => (Resolved true, s2)
       | (Rejected _, s2) => (Resolved false, s2)
       end))) = tbl \/
    exists db_now,
      subscriptions (world (snd
        (match query (Upsert username now ed) s1 with
         | (Resolved _, s2) => (Resolved true, s2)
         | (Rejected _, s2) => (Resolved false, s2)
         end))) = <[username := granted now ed db_now]> tbl).
  { intros ed.
    pose proof (query_cases (Upsert username now ed) s1) as Hup.
    destruct (query (Upsert username now ed) s1) as [[[result |] | e] s2];
      cbn [snd]; [| left; congruence | left; congruence].
    destruct Hup as (now2 & written2 & Hrun2). cbn [run] in Hrun2.
    destruct (16 <? String.length username)%nat; [discriminate |].
    injection Hrun2 as _ Htbl2 _. right. exists now2. congruence. }
  destruct (tbl !! username) as [row |] eqn:Hrow.
  - destruct (Z.gtb_spec now (expiration_date row)) as [Hlapsed | Hactive].
    + cbn [written_expiration].
      destruct (Hupsert (JsDate.setDate (JsDate.setDate now (JsDate.getDate now + days))
                           (JsDate.getDate now + days))) as [Hsame | Hnew];
        [left; exact Hsame | right].
      split; [| exact Hnew]. intros row' Heq. injection Heq as <-. lia.
    + left. exact (eq_sym Htbl1).
  - cbn [written_expiration].
    destruct (Hupsert (JsDate.setDate now (JsDate.getDate now + days))) as [Hsame | Hnew];
      [left; exact Hsame | right].
    split; [| exact Hnew]. intros row' Heq. discriminate.
Qed.

(** One grant with a non-negative day count never lowers a stored
    expiration. *)
Lemma addSubscription_mono username days s u e1 :
  0 <= days ->
  expiration_of u s = Some e1 ->
  exists e2, expiration_of u (snd (addSubscription username days s)) = Some e2 /\ e1 <= e2.
Proof.
  intros Hdays He1. unfold expiration_of in *.
  destruct (addSubscription_table username days s) as [Hsame | (Hlapsed & db_now & Hnew)].
  - rewrite Hsame. exists e1. split; [exact He1 | lia].
  - rewrite Hnew. destruct (decide (username = u)) as [-> | Hne].
    + rewrite lookup_insert_eq. cbn [fmap option_fmap option_map granted expiration_date].
      eexists. split; [reflexivity |].
      destruct (subscriptions (world s) !! u) as [row |] eqn:Hrow; [| discriminate].
      cbn in He1. injection He1 as <-.
      pose proof (Hlapsed row eq_refl).
      pose proof (written_expiration_ge (Some row) (clock (world s)) days Hdays).
      unfold JsDate.msPerDay in *. lia.
    + rewrite lookup_insert_ne by exact Hne. exists e1. split; [exact He1 | lia].
Qed.

Lemma grants_app gs1 gs2 s : grants (gs1 ++ gs2) s = grants gs2 (grants gs1 s).
Proof.
  revert s. induction gs1 as [| g gs1 IH]; intros s; [reflexivity |].
  cbn [List.app grants]. apply IH.
Qed.

Lemma grants_mono gs s u e1 :
  Forall (fun g => 0 <= day_count g) gs ->
  expiration_of u s = Some e1 ->
  exists e2, expiration_of u (grants gs s) = Some e2 /\ e1 <= e2.
Proof.
  intros Hdays. revert s e1.
  induction Hdays as [| g gs Hg Hrest IH]; intros s e1 He1.
  - exists e1. split; [exact He1 | lia].
  - cbn [grants].
    destruct (addSubscription_mono (payer g) (day_count g) (set_clock (at_time g) s) u e1 Hg He1)
      as (e2 & He2 & Hle).
    destruct (IH _ _ He2) as (e3 & He3 & Hle3).
    exists e3. split; [exact He3 | lia].
Qed.

End LedgerMonotone.

Section EarlierFacts.
Import Db Earlier.

(** On a healthy database the earlier version stores the later of the old
    and the new expiration, and touches no other payer. *)
Lemma process_healthy t s :
  healthy s ->
  (String.length (from t) <= 16)%nat ->
  let s1 := snd (processSubscriptionTransfer t s) in
  healthy s1 /\
  Ledger.expiration_of (from t) s1
    = later (Ledger.expiration_of (from t) s) (timestamp t + 31 * JsDate.msPerDay) /\
  (forall u, u <> from t -> Ledger.expiration_of u s1 = Ledger.expiration_of u s).
Proof.
  intros Hs Hlen s1. subst s1. unfold processSubscriptionTransfer.
  set (ed := timestamp t + 31 * JsDate.msPerDay).
  assert (Hrun : exists tbl written,
    run (UpsertIfLater (from t) (timestamp t) ed) (clock (world s)) (subscriptions (world s))
      = inr ({| rows := [] |}, tbl, written) /\
    expiration_date <$> tbl !! from t = later (Ledger.expiration_of (from t) s) ed /\
    (forall u, u <> from t -> tbl !! u = subscriptions (world s) !! u)).
  { cbn [run]. unfold Ledger.expiration_of.
    replace (16 <? String.length (from t))%nat with false
      by (symmetry; apply Nat.ltb_ge; exact Hlen).
    destruct (subscriptions (world s) !! from t) as [row |] eqn:Hrow.
    - destruct (Z.ltb_spec (expiration_date row) ed) as [Hlt | Hge].
      + eexists. eexists. split; [reflexivity |]. split.
        * rewrite lookup_insert_eq. cbn. f_equal. lia.
        * intros u Hu. apply lookup_insert_ne. congruence.
      + eexists. eexists. split; [reflexivity |]. split.
        * rewrite Hrow. cbn. f_equal. lia.
        * reflexivity.
    - eexists. eexists. split; [reflexivity |]. split.
      + rewrite lookup_insert_eq. reflexivity.
      + intros u Hu. apply lookup_insert_ne. congruence. }
  destruct Hrun as (tbl & written & Hrun & Hexp & Hother).
  rewrite (query_healthy _ _ _ _ _ Hs Hrun). cbn [snd].
  destruct Hs as (_ & Hmax & _).
  split; [repeat split; exact Hmax |].
  unfold Ledger.expiration_of. cbn [world subscriptions].
  split; [exact Hexp |]. intros u Hu. rewrite (Hother u Hu). reflexivity.
Qed.

Lemma process_all_healthy u ts :
  (String.length u <= 16)%nat ->
  Forall (fun t => from t = u) ts ->
  forall s,
    healthy s ->
    Ledger.expiration_of u (process_all ts s)
      = max_expiration (Ledger.expiration_of u s) ts.
Proof.
  intros Hlen Hfrom. induction Hfrom as [| t ts Ht Hrest IH]; intros s Hs; [reflexivity |].
  cbn [process_all max_expiration List.fold_left].
  assert (Hlen_t : (String.length (from t) <= 16)%nat) by (rewrite Ht; exact Hlen).
  destruct (process_healthy t s Hs Hlen_t) as (Hs1 & Hexp & _).
  rewrite Ht in Hexp.
  rewrite (IH _ Hs1), Hexp. reflexivity.
Qed.

Lemma max_expiration_ge ts :
  forall stored e1,
    stored = Some e1 ->
    exists e2, max_expiration stored ts = Some e2 /\ e1 <= e2.
Proof.
  induction ts as [| t ts IH]; intros stored e1 ->.
  - exists e1. split; [reflexivity | lia].
  - unfold max_expiration. cbn [List.fold_left later].
    destruct (IH (Some (Z.max e1 (timestamp t + 31 * JsDate.msPerDay))) _ eq_refl)
      as (e2 & He2 & Hle).
    exists e2. split; [exact He2 | lia].
Qed.

End EarlierFacts.

Section LedgerTheorems.
Import Db Ledger.

(** The first grant for a payer (no record yet), on a healthy database:
    the record stored has [subscription_date = now],
    [expiration_date = now + days] and [active = true]. *)
Lemma addSubscription_first_grant username days s :
  healthy s ->
  (String.length username <= 16)%nat ->
  subscriptions (world s) !! username = None ->
  let now := clock (world s) in
  let out := addSubscription username days s in
  fst out = Resolved true /\
  subscriptions (world (snd out)) !! username
    = Some {| subscription_date := now;
              expiration_date := now + days * JsDate.msPerDay;
              date_updated := now;
              active_subscription := true |}.
Proof.
  intros Hs Hlen Hnone now out.
  destruct (addSubscription_writes username days s Hs Hlen) as (Hok & _ & _ & Htbl & _).
  { intros row Hrow. congruence. }
  split; [exact Hok |].
  subst out. rewrite Htbl, lookup_insert_eq, Hnone, written_expiration_first.
  reflexivity.
Qed.

(** C1. A grant made while the payer's window is still active (now not
    after the stored [expiration_date]) persists nothing: the table, and
    with it the payer's [subscription_date], [expiration_date] and [active]
    flag, is as before; and, the database being healthy, the call reports
    success and the journal of writes is as before.  Hence of two grants of the same (username, days), the second
    made while the window resulting from the first is still active, only
    the first is written (the journal grows by exactly one statement) and
    the second leaves [expiration_date] as the first stored it.  (The
    database is healthy; for the first grant to be written the username
    fits the column.) *)
Theorem C1_grant_idempotent username days :
  (forall s row,
      subscriptions (world s) !! username = Some row ->
      clock (world s) <= expiration_date row ->
      let out := addSubscription username days s in
      subscriptions (world (snd out)) = subscriptions (world s) /\
      subscriptions (world (snd out)) !! username = Some row /\
      (healthy s ->
       fst out = Resolved true /\ journal (world (snd out)) = journal (world s)))
  /\
  (forall s now2 row1,
      healthy s ->
      (String.length username <= 16)%nat ->
      (forall row, subscriptions (world s) !! username = Some row ->
         expiration_date row < clock (world s)) ->
      let s1 := snd (addSubscription username days s) in
      subscriptions (world s1) !! username = Some row1 ->
      now2 <= expiration_date row1 ->
      let out2 := addSubscription username days (set_clock now2 s1) in
      fst out2 = Resolved true /\
      subscriptions (world (snd out2)) = subscriptions (world s1) /\
      expiration_of username (snd out2) = Some (expiration_date row1) /\
      exists stmt, journal (world (snd out2)) = journal (world s) ++ [stmt]).
Proof.
  split.
  - intros s row Hrow Hactive out.
    assert (Htbl : subscriptions (world (snd out)) = subscriptions (world s)).
    { destruct (addSubscription_table username days s) as [Hsame | [Hlapsed _]];
        [exact Hsame |].
      specialize (Hlapsed row Hrow). lia. }
    split; [exact Htbl |]. split; [rewrite Htbl; exact Hrow |].
    intros Hs.
    destruct (addSubscription_active username days s row Hs Hrow Hactive)
      as (Hok & _ & _ & _ & Hj).
    split; [exact Hok | exact Hj].
  - intros s now2 row1 Hs Hlen Hlapsed s1 Hrow1 Hactive out2.
    destruct (addSubscription_writes username days s Hs Hlen Hlapsed)
      as (_ & Hs1 & _ & _ & Hj1).
    fold s1 in Hs1, Hj1.
    assert (Hs1' : healthy (set_clock now2 s1)) by exact Hs1.
    destruct (addSubscription_active username days (set_clock now2 s1) row1 Hs1' Hrow1 Hactive)
      as (Hok & _ & _ & Htbl & Hj).
    fold out2 in Hok, Htbl, Hj.
    split; [exact Hok |]. split; [exact Htbl |].
    split.
    + unfold expiration_of. rewrite Htbl. cbn [set_clock world subscriptions].
      rewrite Hrow1. reflexivity.
    + eexists. rewrite Hj. cbn [set_clock world journal]. exact Hj1.
Qed.

(** One grant on a healthy database, against the merge rule: what is on
    record afterwards is what the rule says, except on a lapsed window,
    where it is the rule's candidate moved on by [overshoot]. *)
Lemma grant_against_merge_rule s g :
  healthy s ->
  (String.length (payer g) <= 16)%nat ->
  let s1 := snd (addSubscription (payer g) (day_count g) (set_clock (at_time g) s)) in
  healthy s1 /\
  expiration_of (payer g) s1 =
    match expiration_of (payer g) s with
    | Some expiration =>
        if at_time g >? expiration
        then Some (MergeRule.candidateExpiration g + overshoot (at_time g) (day_count g))
        else Some expiration
    | None => Some (MergeRule.candidateExpiration g)
    end.
Proof.
  intros Hs Hlen s1.
  assert (Hs0 : healthy (set_clock (at_time g) s)) by exact Hs.
  assert (Hclock : clock (world (set_clock (at_time g) s)) = at_time g) by reflexivity.
  assert (Htbl0 : subscriptions (world (set_clock (at_time g) s)) = subscriptions (world s))
    by reflexivity.
  unfold expiration_of. rewrite <- Htbl0.
  destruct (subscriptions (world (set_clock (at_time g) s)) !! payer g) as [row |] eqn:Hrow;
    cbn [fmap option_fmap option_map].
  - destruct (Z.gtb_spec (at_time g) (expiration_date row)) as [Hlapsed | Hactive].
    + destruct (addSubscription_writes (payer g) (day_count g) _ Hs0 Hlen)
        as (_ & Hs1 & _ & Htbl & _).
      { intros row' Hrow'. rewrite Hrow in Hrow'. injection Hrow' as <-.
        rewrite Hclock. lia. }
      split; [exact Hs1 |].
      subst s1. rewrite Htbl, lookup_insert_eq, Hrow, Hclock.
      cbn [fmap option_fmap option_map granted expiration_date].
      rewrite written_expiration_lapsed. reflexivity.
    + destruct (addSubscription_active (payer g) (day_count g) _ row Hs0 Hrow)
        as (_ & Hs1 & _ & Htbl & _); [rewrite Hclock; exact Hactive |].
      split; [exact Hs1 |].
      subst s1. rewrite Htbl, Hrow. reflexivity.
  - destruct (addSubscription_writes (payer g) (day_count g) _ Hs0 Hlen)
      as (_ & Hs1 & _ & Htbl & _).
    { intros row' Hrow'. rewrite Hrow in Hrow'. discriminate. }
    split; [exact Hs1 |].
    subst s1. rewrite Htbl, lookup_insert_eq, Hrow, Hclock.
    cbn [fmap option_fmap option_map granted expiration_date].
    rewrite written_expiration_first. reflexivity.
Qed.

(** A sequence of grants to one payer on a healthy database agrees with the
    merge rule as long as no grant on a lapsed window is moved on. *)
Lemma grants_agree_with_merge_rule u gs :
  (String.length u <= 16)%nat ->
  Forall (fun g => payer g = u) gs ->
  forall s,
    healthy s ->
    MergeRule.steady (expiration_of u s) gs = true ->
    expiration_of u (grants gs s) = MergeRule.after_sequence (expiration_of u s) gs.
Proof.
  intros Hlen Hpayer.
  induction Hpayer as [| g gs Hg Hrest IH]; intros s Hs Hsteady; [reflexivity |].
  cbn [grants MergeRule.after_sequence List.fold_left].
  cbn [MergeRule.steady] in Hsteady. apply andb_true_iff in Hsteady.
  destruct Hsteady as [Hstep Hafter].
  assert (Hlen_g : (String.length (payer g) <= 16)%nat) by (rewrite Hg; exact Hlen).
  destruct (grant_against_merge_rule s g Hs Hlen_g) as (Hs1 & Hexp).
  cbv zeta in Hs1, Hexp.
  assert (Hsame : expiration_of u
                    (snd (addSubscription (payer g) (day_count g) (set_clock (at_time g) s)))
                  = MergeRule.grantSubscription (expiration_of u s) g).
  { rewrite <- Hg at 1. rewrite Hexp, Hg. unfold MergeRule.grantSubscription.
    destruct (expiration_of u s) as [expiration |]; [| reflexivity].
    destruct (at_time g >? expiration); [| reflexivity].
    apply Z.eqb_eq in Hstep. rewrite Hstep, Z.add_0_r. reflexivity. }
  rewrite (IH _ Hs1); rewrite Hsame; [reflexivity | exact Hafter].
Qed.

(** C2, where the code departs from it.  The stored [expiration_date] never
    decreases over a sequence of grants with non-negative day counts,
    whatever the database does, as the claim says.  Its value, however, is
    not always the one the merge rule gives.  On a healthy database one
    grant leaves on record what the merge rule says when there is no
    record (the candidate, [grant_time + days]) and when the window is
    still active (the value as it was); on a lapsed window it leaves the
    candidate moved on by [overshoot], the effect of the second
    [setDate].  So a sequence of grants to one payer ends with the value
    the merge rule gives whenever no grant on a lapsed window is moved on
    ([MergeRule.steady]), as for alice's two payments ten days apart on an
    empty table (2025-02-15, both by the code and by the rule) and for a
    seven-day grant on 2025-01-15 over a window that ended on 2025-01-10
    (2025-01-22, both by the code and by the rule); and it
    departs from it at a 31-day grant on 2025-01-15 over a window that
    ended on 2025-01-10 (all times at 12:00 UTC): the merge rule gives 2025-02-15, 31 days after
    the grant, the code stores 2025-03-18, 62 days after it.  The earlier
    [processSubscriptionTransfer] (conditional upsert) stores, on a
    healthy database, the maximum of the value stored before and of
    [timestamp + 31 days] over the transfers of one payer, so that the
    second of alice's payments moves a window that is still active on to
    2025-02-25, 31 days after that payment. *)
Theorem C2_lapsed_grant_departs_from_merge_rule :
  (forall s gs1 gs2 u e1,
      Forall (fun g => 0 <= day_count g) gs2 ->
      expiration_of u (grants gs1 s) = Some e1 ->
      exists e2, expiration_of u (grants (gs1 ++ gs2) s) = Some e2 /\ e1 <= e2)
  /\
  (forall s g,
      healthy s ->
      (String.length (payer g) <= 16)%nat ->
      let s1 := snd (addSubscription (payer g) (day_count g) (set_clock (at_time g) s)) in
      match expiration_of (payer g) s with
      | Some expiration =>
          if at_time g >? expiration
          then MergeRule.grantSubscription (Some expiration) g
                 = Some (MergeRule.candidateExpiration g) /\
               expiration_of (payer g) s1
                 = Some (MergeRule.candidateExpiration g
                         + overshoot (at_time g) (day_count g)) /\
               (0 <= day_count g -> 0 <= overshoot (at_time g) (day_count g))
          else expiration_of (payer g) s1
                 = MergeRule.grantSubscription (Some expiration) g
      | None => expiration_of (payer g) s1 = MergeRule.grantSubscription None g
      end)
  /\
  (forall s u gs,
      healthy s ->
      (String.length u <= 16)%nat ->
      Forall (fun g => payer g = u) gs ->
      MergeRule.steady (expiration_of u s) gs = true ->
      expiration_of u (grants gs s) = MergeRule.after_sequence (expiration_of u s) gs)
  /\
  (forall s u ts,
      healthy s ->
      (String.length u <= 16)%nat ->
      Forall (fun t => Earlier.from t = u) ts ->
      expiration_of u (Earlier.process_all ts s)
        = Earlier.max_expiration (expiration_of u s) ts /\
      (forall e1, expiration_of u s = Some e1 ->
         exists e2, expiration_of u (Earlier.process_all ts s) = Some e2 /\ e1 <= e2))
  /\
  expiration_of "alice"
    (Earlier.process_all [Example.transfer1; Example.transfer2] (Example.fresh Example.jan15))
    = Some (Example.jan15 + Example.days 41)
  /\
  (expiration_of "alice" (grants [Example.payment1; Example.payment2] (Example.fresh 0))
     = Some (Example.jan15 + Example.days 31) /\
   MergeRule.after_sequence (expiration_of "alice" (Example.fresh 0))
     [Example.payment1; Example.payment2]
     = Some (Example.jan15 + Example.days 31) /\
   MergeRule.steady (expiration_of "alice" Example.lapsed) [Example.week] = true /\
   expiration_of "alice" (grants [Example.week] Example.lapsed)
     = Some (Example.jan15 + Example.days 7) /\
   MergeRule.after_sequence (expiration_of "alice" Example.lapsed) [Example.week]
     = Some (Example.jan15 + Example.days 7))
  /\
  (expiration_of "alice" Example.lapsed = Some (Example.jan15 - Example.days 5) /\
   MergeRule.after_sequence (expiration_of "alice" Example.lapsed) [Example.payment1]
     = Some (Example.jan15 + Example.days 31) /\
   expiration_of "alice" (grants [Example.payment1] Example.lapsed)
     = Some (Example.jan15 + Example.days 62) /\
   overshoot (at_time Example.payment1) (day_count Example.payment1) = Example.days 31 /\
   expiration_of "alice" (grants [Example.payment1] Example.lapsed)
     <> MergeRule.after_sequence (expiration_of "alice" Example.lapsed) [Example.payment1]).
Proof.
  split; [| split; [| split; [| split; [| split; [| split]]]]].
  - intros s gs1 gs2 u e1 Hdays He1. rewrite grants_app.
    apply grants_mono; assumption.
  - intros s g Hs Hlen s1.
    destruct (grant_against_merge_rule s g Hs Hlen) as (_ & Hexp). fold s1 in Hexp.
    destruct (expiration_of (payer g) s) as [expiration |]; [| exact Hexp].
    cbn [MergeRule.grantSubscription].
    destruct (at_time g >? expiration); [| exact Hexp].
    split; [reflexivity |]. split; [exact Hexp |].
    intros Hdays. unfold overshoot.
    pose proof (monthStart_mono (JsDate.Day (at_time g))
                  (JsDate.Day (at_time g) + day_count g) ltac:(lia)) as Hm.
    unfold JsDate.msPerDay. lia.
  - intros s u gs Hs Hlen Hpayer Hsteady.
    apply grants_agree_with_merge_rule; assumption.
  - intros s u ts Hs Hlen Hfrom.
    pose proof (process_all_healthy u ts Hlen Hfrom s Hs) as Hmax.
    split; [exact Hmax |].
    intros e1 He1. rewrite Hmax. apply max_expiration_ge. exact He1.
  - vm_compute. reflexivity.
  - split; [vm_compute; reflexivity |].
    split; [vm_compute; reflexivity |].
    split; [vm_compute; reflexivity |].
    split; vm_compute; reflexivity.
  - split; [vm_compute; reflexivity |].
    split; [vm_compute; reflexivity |].
    split; [vm_compute; reflexivity |].
    split; [vm_compute; reflexivity |].
    vm_compute. discriminate.
Qed.

End LedgerTheorems.

(** C1, at alice's first payment on 2025-01-15 and a repeat ten days
    later. *)
Lemma C1_witness :
  Ledger.expiration_of "alice"
    (snd (Ledger.addSubscription "alice" 31
            (Ledger.set_clock (Example.jan15 + Example.days 10)
               (snd (Ledger.addSubscription "alice" 31 (Example.fresh Example.jan15))))))
  = Some (Example.jan15 + Example.days 31) /\
  List.length
    (Db.journal (Db.world
       (snd (Ledger.addSubscription "alice" 31
               (Ledger.set_clock (Example.jan15 + Example.days 10)
                  (snd (Ledger.addSubscription "alice" 31 (Example.fresh Example.jan15))))))))
  = 1%nat.
Proof.
  destruct (C1_grant_idempotent "alice" 31) as [_ Htwice].
  destruct (Htwice (Example.fresh Example.jan15) (Example.jan15 + Example.days 10)
              (Db.granted Example.jan15 (Example.jan15 + Example.days 31) Example.jan15))
    as (_ & _ & Hexp & stmt & Hj).
  - repeat split; vm_compute; congruence.
  - vm_compute. lia.
  - intros row Hrow. vm_compute in Hrow. discriminate.
  - vm_compute. reflexivity.
  - vm_compute. discriminate.
  - split; [exact Hexp |]. rewrite Hj. reflexivity.
Defined.

(** C3, where the code departs from it: alice's window ended on 2025-01-10;
    a 31-day grant on 2025-01-15T12:00Z reports success and stores
    [subscription_date = now] and [active = true], but an
    [expiration_date] 62 days after [now] (2025-03-18) instead of the
    31 days of the claim (2025-02-15): the second [setDate] is applied to
    the date that the first one has already moved into February. *)
Theorem C3_lapsed_grant_overshoots :
  Db.subscriptions (Db.world Example.lapsed) !! "alice"
    = Some (Db.granted (Example.jan15 - Example.days 36) (Example.jan15 - Example.days 5)
              (Example.jan15 - Example.days 36)) /\
  Example.jan15 - Example.days 5 < Db.clock (Db.world Example.lapsed) /\
  fst (Ledger.addSubscription "alice" 31 Example.lapsed) = Resolved true /\
  Db.subscriptions (Db.world (snd (Ledger.addSubscription "alice" 31 Example.lapsed)))
    !! "alice"
    = Some {| Db.subscription_date := Example.jan15;
              Db.expiration_date := Example.jan15 + Example.days 62;
              Db.date_updated := Example.jan15;
              Db.active_subscription := true |} /\
  JsDate.civil_from_days (JsDate.Day (Example.jan15 + Example.days 62)) = (2025, 2, 18) /\
  JsDate.civil_from_days (JsDate.Day (Example.jan15 + Example.days 31)) = (2025, 1, 15).
Proof.
  repeat split; vm_compute; reflexivity.
Qed.

(* ===================================================================== *)
(** * Transfer classifier *)
(* ===================================================================== *)
Section ClassifierFacts.
Import Db.

Lemma strip_prefix_app p : forall s rest,
  JsString.strip_prefix p s = Some rest -> s = String.append p rest.
Proof.
  induction p as [| a p IH]; intros s rest Hs.
  - cbn in Hs. injection Hs as ->. reflexivity.
  - destruct s as [| b s]; [discriminate |]. cbn in Hs.
    destruct (Ascii.eqb_spec a b) as [-> | Hne]; [| discriminate].
    change (String b s = String b (String.append p rest)).
    f_equal. apply IH. exact Hs.
Qed.

Lemma toLowerCase_app a b :
  JsString.toLowerCase (String.append a b)
    = String.append (JsString.toLowerCase a) (JsString.toLowerCase b).
Proof.
  induction a as [| c a IH]; [reflexivity |].
  change (String (JsString.lower_char c) (JsString.toLowerCase (String.append a b))
          = String (JsString.lower_char c)
              (String.append (JsString.toLowerCase a) (JsString.toLowerCase b))).
  rewrite IH. reflexivity.
Qed.

Lemma append_eqb p a b : String.eqb (String.append p a) (String.append p b) = String.eqb a b.
Proof.
  induction p as [| c p IH]; [reflexivity |].
  change (String.eqb (String c (String.append p a)) (String c (String.append p b))
          = String.eqb a b).
  cbn [String.eqb]. rewrite Ascii.eqb_refl. exact IH.
Qed.

(** A memo that passes [processSubscriptionTransfer]'s test also passes the
    classifier's. *)
Lemma match_subscribe_lower env memo account :
  JsString.match_subscribe memo = Some account ->
  String.eqb (JsString.toLowerCase memo)
    (String.append "subscribe:" (JsString.toLowerCase (SUBSCRIPTION_ACCOUNT env)))
  = String.eqb (JsString.toLowerCase account)
      (JsString.toLowerCase (SUBSCRIPTION_ACCOUNT env)).
Proof.
  unfold JsString.match_subscribe. intros Hm.
  destruct (JsString.strip_prefix "subscribe:" memo) as [rest |] eqn:Hp; [| discriminate].
  apply strip_prefix_app in Hp. subst memo.
  destruct rest as [| c rest]; [discriminate |].
  destruct (JsString.all_word (String c rest)); [| discriminate].
  injection Hm as <-.
  rewrite toLowerCase_app.
  change (JsString.toLowerCase "subscribe:") with "subscribe:"%string.
  apply append_eqb.
Qed.

(** The classifier itself never fails. *)
Lemma classify_resolves env operation s :
  fst (Monitor.classify env operation s) = Resolved tt.
Proof.
  unfold Monitor.classify.
  destruct (Monitor.op operation) as [[opType opData] |]; [| reflexivity].
  repeat match goal with
         | |- context [if ?b then _ else _] => destruct b
         end; reflexivity.
Qed.

(** So [processOperation] runs it exactly once. *)
Lemma processOperation_once m env operation s :
  1 <= Retry.maxAttempts (Monitor.retry m) ->
  Monitor.processOperation m env operation s
    = (Resolved (Some tt), snd (Monitor.classify env operation s)).
Proof.
  intros Hmax. unfold Monitor.processOperation.
  apply (execute_first_success (Monitor.retry m) (Monitor.classify env operation) s 1);
    [lia | lia | intros; lia |].
  cbn [Retry.state_before].
  pose proof (classify_resolves env operation s) as Hr.
  destruct (Monitor.classify env operation s) as [o s1]. cbn [fst snd] in *.
  subst o. reflexivity.
Qed.

(** What the classifier does with a transfer-shaped operation sent to the
    subscription payment account (which is not also the AI payment
    account): it grants 31 days to the sender when the amount is the
    configured one, the currency is HBD, and the memo is ["subscribe:"],
    in exactly this spelling, followed by word characters that equal the
    subscription account up to letter case; otherwise it does nothing. *)
Lemma classify_standard env operation opType opData s :
  Monitor.op operation = Some (opType, opData) ->
  opType = "transfer"%string \/ opType = "fill_recurrent_transfer"%string ->
  Monitor.op_to opData = SUBSCRIPTION_PAYMENT_ACCOUNT env ->
  SUBSCRIPTION_PAYMENT_ACCOUNT env <> AI_PAYMENT_ACCOUNT env ->
  let parts := JsString.split " " (Monitor.op_amount opData) in
  snd (Monitor.classify env operation s) =
    if JsString.num_eq (JsString.parseFloat (List.hd EmptyString parts))
         (Some (SUBSCRIPTION_AMOUNT env))
       && match List.nth_error parts 1 with
          | Some sym => String.eqb sym "HBD"
          | None => false
          end
       && match JsString.match_subscribe (Monitor.op_memo opData) with
          | Some account =>
              String.eqb (JsString.toLowerCase account)
                (JsString.toLowerCase (SUBSCRIPTION_ACCOUNT env))
          | None => false
          end
    then snd (Ledger.addSubscription (Monitor.op_from opData) 31 s)
    else s.
Proof.
  intros Hop Htype Hto Hne parts. unfold Monitor.classify. rewrite Hop.
  fold parts.
  replace (String.eqb opType "transfer" || String.eqb opType "fill_recurrent_transfer")
    with true by (destruct Htype as [-> | ->]; reflexivity).
  rewrite Hto, String.eqb_refl.
  replace (String.eqb (SUBSCRIPTION_PAYMENT_ACCOUNT env) (AI_PAYMENT_ACCOUNT env))
    with false by (symmetry; apply String.eqb_neq; exact Hne).
  cbn [orb andb].
  set (parsed := JsString.parseFloat (List.hd EmptyString parts)).
  set (is_HBD := match List.nth_error parts 1 with
                 | Some sym => String.eqb sym "HBD"
                 | None => false
                 end).
  destruct (JsString.num_eq parsed (Some (SUBSCRIPTION_AMOUNT env))) eqn:Hamount;
    [| reflexivity].
  destruct is_HBD; [| reflexivity]. cbn [andb].
  unfold Ledger.processSubscriptionTransfer.
  cbn [from to amount_value amount symbol memo].
  rewrite String.eqb_refl.
  replace (String.eqb (SUBSCRIPTION_PAYMENT_ACCOUNT env) (AI_PAYMENT_ACCOUNT env))
    with false by (symmetry; apply String.eqb_neq; exact Hne).
  rewrite Hamount. cbn [andb String.eqb Ascii.eqb Bool.eqb].
  destruct (JsString.match_subscribe (Monitor.op_memo opData)) as [account |] eqn:Hm.
  - rewrite (match_subscribe_lower env _ _ Hm).
    destruct (String.eqb (JsString.toLowerCase account)
                (JsString.toLowerCase (SUBSCRIPTION_ACCOUNT env)));
      rewrite ?String.eqb_refl; reflexivity.
  - destruct (String.eqb (JsString.toLowerCase (Monitor.op_memo opData)) _);
      rewrite ?String.eqb_refl; reflexivity.
Qed.

End ClassifierFacts.

(** C4, where the code departs from it: a transfer of the configured
    amount in HBD to the payment account whose memo is
    ["SUBSCRIBE:myaccount"].  The memo equals ["subscribe:myaccount"] when
    both are lower-cased, which is the test [processOperation] makes, and
    [processOperation] completes without error; but
    [processSubscriptionTransfer] matches the memo against
    [/^subscribe:(\w+)$/], which is case-sensitive, and no grant is made.
    The same transfer with the memo in lower case is granted 31 days.
    For the same reason a subscription account whose name is not made of
    word characters only (["leo.voter"]) is never granted, not even on the
    exact memo.  (Lemma [classify_standard] gives the condition under which
    the code grants.) *)
Theorem C4_uppercase_prefix_not_granted :
  String.eqb (JsString.toLowerCase "SUBSCRIBE:myaccount")
    (String.append "subscribe:" (JsString.toLowerCase (SUBSCRIPTION_ACCOUNT Example.env)))
    = true /\
  JsString.match_subscribe "SUBSCRIBE:myaccount" = None /\
  fst (Monitor.processOperation Monitor.new Example.env
         (Example.transfer_with_memo "SUBSCRIBE:myaccount") (Example.fresh Example.jan15))
    = Resolved (Some tt) /\
  Ledger.expiration_of "alice"
    (snd (Monitor.processOperation Monitor.new Example.env
            (Example.transfer_with_memo "SUBSCRIBE:myaccount") (Example.fresh Example.jan15)))
    = None /\
  Db.journal (Db.world
    (snd (Monitor.processOperation Monitor.new Example.env
            (Example.transfer_with_memo "SUBSCRIBE:myaccount") (Example.fresh Example.jan15))))
    = [] /\
  Ledger.expiration_of "alice"
    (snd (Monitor.processOperation Monitor.new Example.env
            (Example.transfer_with_memo "subscribe:myaccount") (Example.fresh Example.jan15)))
    = Some (Example.jan15 + Example.days 31) /\
  Ledger.expiration_of "alice"
    (snd (Monitor.processOperation Monitor.new Example.env_dotted
            (Example.transfer_with_memo "subscribe:leo.voter") (Example.fresh Example.jan15)))
    = None.
Proof.
  repeat split; vm_compute; reflexivity.
Qed.

(* ===================================================================== *)
(** * Retry executor: further properties *)
(* ===================================================================== *)
Section RetryExtra.
Context {St : Type} `{Runtime St} {A : Type}.
Implicit Types (r : Retry.RetryOperation) (operation : Async St A).

Lemma observed_snd operation (t : Traced St) :
  snd (observed operation t)
    = MkTraced (snd (operation (inner t))) (trace t ++ [Invoked]).
Proof. unfold observed. destruct (operation (inner t)); reflexivity. Qed.

(** Observing an operation does not change what it does to the state. *)
Lemma observed_inner r operation st events (k : nat) :
  inner (Retry.state_before r (observed operation) (MkTraced st events) k)
    = Retry.state_before r operation st k.
Proof.
  induction k as [| k IH]; [reflexivity |].
  destruct k as [| k]; [reflexivity |].
  rewrite (state_before_succ r (observed operation)) by lia.
  rewrite (state_before_succ r operation) by lia.
  rewrite observed_snd, IH. reflexivity.
Qed.

Lemma observed_fst operation (t : Traced St) :
  fst (observed operation t) = fst (operation (inner t)).
Proof. unfold observed. destruct (operation (inner t)); reflexivity. Qed.


(** The run of an observed operation up to the attempt that settles it. *)
Lemma observed_attempt r operation st (j : nat) :
  (1 <= j)%nat ->
  observed operation (Retry.state_before r (observed operation) (MkTraced st []) j)
    = (fst (operation (Retry.state_before r operation st j)),
       MkTraced (snd (operation (Retry.state_before r operation st j)))
         (Retry.backoff_schedule r j)).
Proof.
  intros Hj.
  rewrite (surjective_pairing (observed operation _)).
  rewrite observed_fst, observed_snd, observed_inner.
  destruct j as [| j]; [lia |].
  rewrite observed_state_before.
  unfold Retry.backoff_schedule, Retry.backoff_schedule_from.
  replace (S j - 1)%nat with j by lia. reflexivity.
Qed.

End RetryExtra.

Section RetryExtraTheorems.
Context {St : Type} `{Runtime St} {A : Type}.
Implicit Types (r : Retry.RetryOperation) (operation : Async St A).

(** X1. A retry executor whose [maxAttempts] is zero or negative never runs
    the operation: [execute] resolves with [undefined] at once, the state
    untouched and the trace of an observed operation unchanged.  The
    constructor turns an option of [0] into the default 3, so this happens
    exactly for the negative options. *)
Theorem X1_retry_without_attempts r operation st events :
  Retry.maxAttempts r <= 0 ->
  Retry.execute r operation st = (Resolved None, st) /\
  Retry.execute r (observed operation) (MkTraced st events)
    = (Resolved None, MkTraced st events) /\
  (forall options n,
      Retry.opt_maxAttempts options = Some n ->
      (Retry.maxAttempts (Retry.new options) <= 0 <-> n < 0)).
Proof.
  intros Hmax. unfold Retry.execute.
  replace (Z.to_nat (Retry.maxAttempts r)) with O by lia.
  split; [reflexivity |]. split; [reflexivity |].
  intros options n Hn. unfold Retry.new. cbn [Retry.maxAttempts]. rewrite Hn.
  cbn [or_Z]. destruct (Z.eqb_spec n 0) as [-> | Hne]; lia.
Qed.

(** X2. When the attempts before attempt [j <= maxAttempts] fail and attempt
    [j] succeeds, the operation has been invoked exactly [j] times, with the
    backoff suspensions [delay * backoffFactor^(k-1)] between them and none
    after the successful attempt; in particular a first-attempt success
    costs no suspension. *)
Theorem X2_retry_stops_at_first_success r operation st (j : nat) a st1 :
  (1 <= j)%nat ->
  Z.of_nat j <= Retry.maxAttempts r ->
  (forall i, (1 <= i < j)%nat ->
     exists e, fst (operation (Retry.state_before r operation st i)) = Rejected e) ->
  operation (Retry.state_before r operation st j) = (Resolved a, st1) ->
  let run := Retry.execute r (observed operation) (MkTraced st []) in
  run = (Resolved (Some a), MkTraced st1 (Retry.backoff_schedule r j)) /\
  invocations (trace (snd run)) = j /\
  (j = 1%nat -> trace (snd run) = [Invoked]).
Proof.
  intros Hj Hmax Hfail Hok run.
  assert (Hrun : run = (Resolved (Some a), MkTraced st1 (Retry.backoff_schedule r j))).
  { subst run.
    apply (execute_first_success r (observed operation) (MkTraced st []) j);
      [exact Hj | exact Hmax | |].
    - intros i Hi. rewrite observed_fst, observed_inner. apply Hfail. exact Hi.
    - rewrite observed_attempt by exact Hj. rewrite Hok. reflexivity. }
  rewrite Hrun. cbn [snd trace].
  split; [reflexivity |]. split.
  - unfold Retry.backoff_schedule, Retry.backoff_schedule_from.
    rewrite schedule_invocations. lia.
  - intros ->. reflexivity.
Qed.

End RetryExtraTheorems.

Lemma X1_witness :
  Retry.execute
    (Retry.new {| Retry.opt_maxAttempts := Some (-1); Retry.opt_delay := None;
                  Retry.opt_backoffFactor := None; Retry.opt_name := None |})
    (observed (@Example.failing Db.World Example.boom))
    (MkTraced (Example.world_at 0) [])
  = (Resolved None, MkTraced (Example.world_at 0) []).
Proof.
  destruct (@X1_retry_without_attempts Db.World _ unit
              (Retry.new {| Retry.opt_maxAttempts := Some (-1); Retry.opt_delay := None;
                            Retry.opt_backoffFactor := None; Retry.opt_name := None |})
              (Example.failing Example.boom) (Example.world_at 0) [])
    as (_ & Hobs & _).
  - vm_compute. discriminate.
  - exact Hobs.
Defined.

Lemma X2_witness :
  invocations
    (trace (snd (Retry.execute (Db.retry Db.new) (observed Example.flaky)
                   (MkTraced (Example.world_at 0) [])))) = 3%nat.
Proof.
  destruct (@X2_retry_stops_at_first_success Db.World _ Z (Db.retry Db.new)
              Example.flaky (Example.world_at 0) 3 3000 (Example.world_at 3000))
    as (_ & Hcount & _).
  - lia.
  - vm_compute. discriminate.
  - intros i Hi. exists Example.boom.
    assert (Hcases : i = 1%nat \/ i = 2%nat) by lia.
    destruct Hcases as [-> | ->]; reflexivity.
  - reflexivity.
  - exact Hcount.
Defined.

Section RetryBackoffTotal.
Context {St : Type} `{Runtime St} {A : Type}.
Implicit Types (r : Retry.RetryOperation) (operation : Async St A).

(** The run of an observed operation that fails every time. *)
Lemma always_failing_run r operation st :
  1 <= Retry.maxAttempts r ->
  (forall s, exists e, fst (operation s) = Rejected e) ->
  exists e s1,
    Retry.execute r (observed operation) (MkTraced st [])
      = (Rejected e,
         MkTraced s1 (Retry.backoff_schedule r (Z.to_nat (Retry.maxAttempts r)))).
Proof.
  intros Hmax Hfail.
  set (n := Z.to_nat (Retry.maxAttempts r)).
  destruct (Hfail (Retry.state_before r operation st n)) as [e He].
  exists e, (snd (operation (Retry.state_before r operation st n))).
  apply execute_exhausted; [exact Hmax | |].
  - intros i Hi. rewrite observed_fst, observed_inner. apply Hfail.
  - fold n. rewrite observed_attempt by lia. rewrite He. reflexivity.
Qed.

Lemma suspended_time_schedule r (m : nat) :
  ~ (Retry.backoffFactor r == 1)%Q ->
  forall k : nat,
    (1 <= k)%nat ->
    (suspended_time
       (List.concat
          (List.map (fun j => [Invoked; Suspended (Retry.waitTime r (Z.of_nat j))])
             (List.seq k m)) ++ [Invoked])
     == Retry.delay r * Retry.backoffFactor r ^ (Z.of_nat k - 1)
        * (Retry.backoffFactor r ^ Z.of_nat m - 1) / (Retry.backoffFactor r - 1))%Q.
Proof.
  intros Hbf.
  assert (Hden : ~ (Retry.backoffFactor r - 1 == 0)%Q).
  { intros Hz. apply Hbf. rewrite <- (Qplus_0_l 1), <- Hz. ring. }
  induction m as [| m IH]; intros k Hk.
  - cbn [List.seq List.map List.concat List.app suspended_time].
    change (Retry.backoffFactor r ^ Z.of_nat 0)%Q with 1%Q.
    generalize (Retry.backoffFactor r ^ (Z.of_nat k - 1))%Q as p. intros p.
    field. exact Hden.
  - cbn [List.seq List.map List.concat List.app suspended_time].
    rewrite (IH (S k)) by lia. unfold Retry.waitTime.
    replace (Z.of_nat (S k) - 1)%Z with ((Z.of_nat k - 1) + 1)%Z by lia.
    replace (Z.of_nat (S m)) with (Z.of_nat m + 1)%Z by lia.
    rewrite (Qpower_plus' (Retry.backoffFactor r) (Z.of_nat k - 1) 1) by lia.
    rewrite (Qpower_plus' (Retry.backoffFactor r) (Z.of_nat m) 1) by lia.
    change (Retry.backoffFactor r ^ 1)%Q with (Retry.backoffFactor r).
    generalize (Retry.backoffFactor r ^ (Z.of_nat k - 1))%Q as p.
    generalize (Retry.backoffFactor r ^ Z.of_nat m)%Q as q. intros q p.
    field. exact Hden.
Qed.

(** X3. For an operation that fails every time, [maxAttempts >= 1] and a
    backoff factor other than 1, the suspensions requested before the
    failure surfaces add up to
    [delay * (backoffFactor^(maxAttempts-1) - 1) / (backoffFactor - 1)]. *)
Theorem X3_retry_total_backoff r operation st :
  1 <= Retry.maxAttempts r ->
  (forall s, exists e, fst (operation s) = Rejected e) ->
  ~ (Retry.backoffFactor r == 1)%Q ->
  (suspended_time
     (trace (snd (Retry.execute r (observed operation) (MkTraced st []))))
   == Retry.delay r * (Retry.backoffFactor r ^ (Retry.maxAttempts r - 1) - 1)
      / (Retry.backoffFactor r - 1))%Q.
Proof.
  intros Hmax Hfail Hbf.
  destruct (always_failing_run r operation st Hmax Hfail) as (e & s1 & Hrun).
  rewrite Hrun. cbn [snd trace].
  unfold Retry.backoff_schedule, Retry.backoff_schedule_from.
  rewrite (suspended_time_schedule r _ Hbf 1) by lia.
  replace (Z.of_nat (Z.to_nat (Retry.maxAttempts r) - 1)) with (Retry.maxAttempts r - 1)%Z
    by lia.
  change (Z.of_nat 1 - 1)%Z with 0%Z.
  change (Retry.backoffFactor r ^ 0)%Q with 1%Q.
  assert (Hden : ~ (Retry.backoffFactor r - 1 == 0)%Q).
  { intros Hz. apply Hbf. rewrite <- (Qplus_0_l 1), <- Hz. ring. }
  generalize (Retry.backoffFactor r ^ (Retry.maxAttempts r - 1))%Q as q. intros q.
  field. exact Hden.
Qed.

End RetryBackoffTotal.

(** X3 at the monitor's settings (5 attempts, 5000 ms, factor 1.5): the four
    suspensions add up to 40625 ms. *)
Lemma X3_witness :
  (suspended_time
     (trace (snd (Retry.execute (Monitor.retry Monitor.new)
                    (observed (@Example.failing Db.World Example.boom))
                    (MkTraced (Example.world_at 0) []))))
   == 40625 # 1)%Q.
Proof.
  rewrite (@X3_retry_total_backoff Db.World _ unit (Monitor.retry Monitor.new)
             (Example.failing Example.boom) (Example.world_at 0)).
  - vm_compute. reflexivity.
  - vm_compute. discriminate.
  - intros s. exists Example.boom. reflexivity.
  - vm_compute. discriminate.
Defined.

(* ===================================================================== *)
(** * Circuit breaker: further properties *)
(* ===================================================================== *)
Section BreakerExtra.
Context {St : Type} `{Runtime St}.

(** What one [execute] call does to the breaker, case by case. *)
Lemma execute_after_cases (A : Type) cb (operation : Async St A) st :
  let cb1 := Breaker.after (Breaker.execute cb operation st) in
  cb1 = cb \/
  (exists cb0, (cb0 = cb \/ cb0 = Breaker.reset cb) /\ Breaker.isOpen cb0 = false /\
               (cb1 = Breaker.success cb0 \/ exists now, cb1 = Breaker.failure now cb0)).
Proof.
  intros cb1. subst cb1. unfold Breaker.execute, Breaker.after.
  destruct (Breaker.isOpen cb) eqn:Ho.
  - destruct (_ >=? _).
    + right. exists (Breaker.reset cb). split; [right; reflexivity |].
      split; [reflexivity |].
      destruct (operation st) as [[a | e] st1]; cbn [fst snd]; eauto.
    + left. reflexivity.
  - right. exists cb. split; [left; reflexivity |]. split; [exact Ho |].
    destruct (operation st) as [[a | e] st1]; cbn [fst snd]; eauto.
Qed.

(** X4. Every breaker reachable from its constructor through [execute]
    calls keeps its configuration (threshold, cooldown, name), has a
    non-negative failure count, records a last failure time whenever the
    count is positive or the breaker is open, and is open only with at
    least [failureThreshold] counted failures; for a threshold of at least
    1 it is open exactly when the count has reached the threshold. *)
Theorem X4_breaker_invariant options cb :
  History.Reachable options cb ->
  Breaker.failureThreshold cb = Breaker.failureThreshold (Breaker.new options) /\
  Breaker.resetTimeout cb = Breaker.resetTimeout (Breaker.new options) /\
  Breaker.name cb = Breaker.name (Breaker.new options) /\
  0 <= Breaker.failureCount cb /\
  (0 < Breaker.failureCount cb \/ Breaker.isOpen cb = true ->
   exists t, Breaker.lastFailureTime cb = Some t) /\
  (Breaker.isOpen cb = true -> Breaker.failureThreshold cb <= Breaker.failureCount cb) /\
  (1 <= Breaker.failureThreshold cb ->
   Breaker.isOpen cb = false -> Breaker.failureCount cb < Breaker.failureThreshold cb).
Proof.
  intros Hreach.
  induction Hreach as [| cb A operation st Hreach IH].
  - cbn [Breaker.new Breaker.failureThreshold Breaker.resetTimeout Breaker.name
         Breaker.failureCount Breaker.isOpen Breaker.lastFailureTime].
    repeat split; try reflexivity; try lia; try discriminate.
  - destruct IH as (Hthr & Hto & Hname & Hcount & Hlast & Hopen & Hclosed).
    destruct (execute_after_cases A cb operation st)
      as [-> | (cb0 & Hcb0 & Hc0 & [-> | [now ->]])].
    + repeat split; assumption.
    + assert (Hcfg : Breaker.failureThreshold cb0 = Breaker.failureThreshold cb
                     /\ Breaker.resetTimeout cb0 = Breaker.resetTimeout cb
                     /\ Breaker.name cb0 = Breaker.name cb)
        by (destruct Hcb0 as [-> | ->]; repeat split).
      destruct Hcfg as (Ht0 & Hr0 & Hm0).
      cbn [Breaker.success Breaker.failureThreshold Breaker.resetTimeout
           Breaker.name Breaker.failureCount Breaker.isOpen Breaker.lastFailureTime].
      rewrite Ht0, Hr0, Hm0.
      split; [exact Hthr |]. split; [exact Hto |]. split; [exact Hname |].
      split; [lia |].
      split; [intros [Hpos | Ho]; [lia | discriminate] |].
      split; [discriminate | lia].
    + assert (Hcfg : 0 <= Breaker.failureCount cb0
                     /\ Breaker.failureThreshold cb0 = Breaker.failureThreshold cb
                     /\ Breaker.resetTimeout cb0 = Breaker.resetTimeout cb
                     /\ Breaker.name cb0 = Breaker.name cb)
        by (destruct Hcb0 as [-> | ->]; cbn; repeat split; lia).
      destruct Hcfg as (Hn0 & Ht0 & Hr0 & Hm0).
      cbn [Breaker.failure Breaker.failureThreshold Breaker.resetTimeout
           Breaker.name Breaker.failureCount Breaker.isOpen Breaker.lastFailureTime].
      rewrite Hc0, Ht0, Hr0, Hm0.
      split; [exact Hthr |]. split; [exact Hto |]. split; [exact Hname |].
      split; [lia |].
      split; [intros _; eauto |].
      destruct (Z.geb_spec (Breaker.failureCount cb0 + 1) (Breaker.failureThreshold cb)).
      * split; [lia | discriminate].
      * split; [discriminate | lia].
Qed.

(** X5. Failures are counted consecutively: after a call whose operation
    succeeded, fewer than [failureThreshold] failed calls in a row leave
    the breaker closed, with exactly their number as [failureCount]. *)
Theorem X5_success_restarts_the_count (A : Type) cb (operation : Async St A)
    st result cb1 st1 (k : nat) cb2 :
  Breaker.execute cb operation st = (Resolved result, cb1, st1) ->
  Breaker.FailedCalls cb1 k cb2 ->
  Z.of_nat k < Breaker.failureThreshold cb ->
  Breaker.isOpen cb2 = false /\ Breaker.failureCount cb2 = Z.of_nat k.
Proof.
  intros Hexec Hcalls Hk.
  assert (Hcb1 : Breaker.failureThreshold cb1 = Breaker.failureThreshold cb
                 /\ Breaker.failureCount cb1 = 0 /\ Breaker.isOpen cb1 = false).
  { unfold Breaker.execute in Hexec.
    destruct (Breaker.isOpen cb).
    - destruct (_ >=? _); [| discriminate].
      destruct (operation st) as [[a | e] st2]; [| discriminate].
      injection Hexec as _ <- _. repeat split.
    - destruct (operation st) as [[a | e] st2]; [| discriminate].
      injection Hexec as _ <- _. repeat split. }
  destruct Hcb1 as (Hthr & Hcount & Hclosed).
  destruct (FailedCalls_count (Breaker.failureThreshold cb) cb1 Hthr Hcount Hclosed
              k cb2 Hcalls ltac:(lia)) as (_ & Hc & Ho).
  split; [| exact Hc].
  rewrite Ho. replace (Z.of_nat k >=? Breaker.failureThreshold cb) with false; [reflexivity |].
  symmetry. rewrite Z.geb_leb. apply Z.leb_gt. lia.
Qed.

End BreakerExtra.

(** X4 at the monitor's breaker after three failed calls. *)
Lemma X4_witness :
  Breaker.failureThreshold Example.tripped = 3 /\
  Breaker.failureThreshold Example.tripped <= Breaker.failureCount Example.tripped.
Proof.
  destruct (@X4_breaker_invariant Db.World _
              {| Breaker.opt_name := Some "hive-connection";
                 Breaker.opt_failureThreshold := Some 3;
                 Breaker.opt_resetTimeout := Some 60000 |} Example.tripped)
    as (Hthr & _ & _ & _ & _ & Hopen & _).
  - apply (History.Reachable_execute _ Example.breaker2 unit
             (Example.failing Example.boom) (Example.world_at 0)).
    apply (History.Reachable_execute _ Example.breaker1 unit
             (Example.failing Example.boom) (Example.world_at 0)).
    apply (History.Reachable_execute _ _ unit
             (Example.failing Example.boom) (Example.world_at 0)).
    apply History.Reachable_new.
  - split; [exact Hthr | apply Hopen; reflexivity].
Defined.

(** X5 at the monitor's breaker: two failures, a success, two failures. *)
Lemma X5_witness :
  Breaker.isOpen
    (Breaker.after
       (Breaker.execute
          (Breaker.after
             (Breaker.execute (Breaker.success Example.breaker2)
                (@Example.failing Db.World Example.boom) (Example.world_at 0)))
          (@Example.failing Db.World Example.boom) (Example.world_at 0))) = false.
Proof.
  apply (@X5_success_restarts_the_count Db.World _ unit Example.breaker2
           Example.succeeding (Example.world_at 0) tt
           (Breaker.success Example.breaker2) (Example.world_at 0) 2).
  - reflexivity.
  - apply Breaker.FailedCalls_snoc with
      (cb1 := Breaker.after
                (Breaker.execute (Breaker.success Example.breaker2)
                   (@Example.failing Db.World Example.boom) (Example.world_at 0)))
      (A := unit) (operation := @Example.failing Db.World Example.boom)
      (st := Example.world_at 0) (error := Example.boom) (st1 := Example.world_at 0);
      [| reflexivity].
    apply Breaker.FailedCalls_snoc with
      (cb1 := Breaker.success Example.breaker2)
      (A := unit) (operation := @Example.failing Db.World Example.boom)
      (st := Example.world_at 0) (error := Example.boom) (st1 := Example.world_at 0);
      [| reflexivity].
    apply Breaker.FailedCalls_nil.
  - vm_compute. reflexivity.
Defined.

(* ===================================================================== *)
(** * Database object: further properties *)
(* ===================================================================== *)
Section DbExtra.
Import Db DbOps.

Lemma query_is_query_op stmt : query stmt = query_op (pool_query stmt).
Proof. reflexivity. Qed.

(** Faulty attempts that are not the last one: each costs one pending
    fault and one backoff suspension. *)
Lemma loop_skips_faults stmt r rest (errs : list JsError) :
  forall attempt w fuel,
    pool_faults w = List.map Some errs ++ rest ->
    (List.length errs <= fuel)%nat ->
    attempt + Z.of_nat (List.length errs) <= Retry.maxAttempts r ->
    Retry.loop fuel r (pool_query stmt) attempt w =
    Retry.loop (fuel - List.length errs) r (pool_query stmt)
      (attempt + Z.of_nat (List.length errs))
      (after_faults r attempt (List.length errs) rest w).
Proof.
  induction errs as [| e errs IH]; intros attempt w fuel Hfaults Hfuel Hmax.
  - cbn [List.length Z.of_nat List.map List.app] in *.
    rewrite Nat.sub_0_r, Z.add_0_r. f_equal.
    destruct w. unfold after_faults. cbn in *. rewrite Z.add_0_r. congruence.
  - cbn [List.length List.map List.app] in *.
    destruct fuel as [| fuel]; [lia |].
    rewrite loop_step by lia.
    unfold pool_query at 1. rewrite Hfaults. cbn [List.hd List.tl].
    replace (attempt =? Retry.maxAttempts r) with false
      by (symmetry; apply Z.eqb_neq; lia).
    rewrite (IH (attempt + 1)); [| reflexivity | lia | lia].
    replace (attempt + 1 + Z.of_nat (List.length errs))
      with (attempt + Z.of_nat (S (List.length errs))) by lia.
    replace (S fuel - S (List.length errs))%nat with (fuel - List.length errs)%nat by lia.
    f_equal. unfold after_faults.
    cbn [setTimeout World_Runtime clock subscriptions journal pool_faults slept].
    f_equal. lia.
Qed.

End DbExtra.

Section DbExtraTheorems.
Import Db DbOps.

(** X6. A query whose pool call fails on every one of the [maxAttempts]
    attempts is rejected with the last error; the pool has been called
    exactly [maxAttempts] times (that many pending faults are used up),
    the backoff suspensions have passed on the clock, the table and the
    journal are untouched, and the circuit breaker has counted one failure
    for the whole query, not one per attempt. *)
Theorem X6_failed_query_counts_once stmt s errs e rest :
  Breaker.isOpen (circuitBreaker (db s)) = false ->
  Z.of_nat (List.length errs) = Retry.maxAttempts (retry (db s)) - 1 ->
  pool_faults (world s) = List.map Some errs ++ Some e :: rest ->
  let out := query stmt s in
  let later := clock (world s) + slept (retry (db s)) 1 (List.length errs) in
  fst out = Rejected e /\
  pool_faults (world (snd out)) = rest /\
  clock (world (snd out)) = later /\
  subscriptions (world (snd out)) = subscriptions (world s) /\
  journal (world (snd out)) = journal (world s) /\
  circuitBreaker (db (snd out)) = Breaker.failure later (circuitBreaker (db s)) /\
  Breaker.failureCount (circuitBreaker (db (snd out)))
    = Breaker.failureCount (circuitBreaker (db s)) + 1.
Proof.
  intros Hclosed Hlen Hfaults out later. subst out. unfold query.
  rewrite (execute_closed _ _ _ Hclosed). unfold Retry.execute.
  rewrite (loop_skips_faults stmt (retry (db s)) (Some e :: rest) errs 1 (world s)
             _ Hfaults) by lia.
  replace (Z.to_nat (Retry.maxAttempts (retry (db s))) - List.length errs)%nat
    with 1%nat by lia.
  rewrite loop_step by lia.
  unfold pool_query at 1. cbn [after_faults pool_faults List.hd List.tl].
  replace (1 + Z.of_nat (List.length errs) =? Retry.maxAttempts (retry (db s)))
    with true by (symmetry; apply Z.eqb_eq; lia).
  cbn [fst snd db world circuitBreaker clock subscriptions journal pool_faults
       Date_now World_Runtime Breaker.failure Breaker.failureCount].
  repeat split.
Qed.

(** X7. A query whose first [k < maxAttempts] pool calls fail and whose next
    one goes through resolves with the statement's result: the statement
    runs once, at the clock time reached after the [k] backoff
    suspensions, and the circuit breaker records a success. *)
Theorem X7_query_survives_transient_faults stmt s errs rest result tbl written :
  Breaker.isOpen (circuitBreaker (db s)) = false ->
  Z.of_nat (List.length errs) < Retry.maxAttempts (retry (db s)) ->
  pool_faults (world s) = List.map Some errs ++ rest ->
  List.hd None rest = None ->
  let later := clock (world s) + slept (retry (db s)) 1 (List.length errs) in
  run stmt later (subscriptions (world s)) = inr (result, tbl, written) ->
  query stmt s =
    (Resolved (Some result),
     {| db := {| circuitBreaker := Breaker.success (circuitBreaker (db s));
                 retry := retry (db s) |};
        world := {| clock := later;
                    subscriptions := tbl;
                    journal := if written then journal (world s) ++ [stmt]
                               else journal (world s);
                    pool_faults := List.tl rest |} |}).
Proof.
  intros Hclosed Hlen Hfaults Hrest later Hrun. unfold query.
  rewrite (execute_closed _ _ _ Hclosed). unfold Retry.execute.
  rewrite (loop_skips_faults stmt (retry (db s)) rest errs 1 (world s) _ Hfaults) by lia.
  destruct (Z.to_nat (Retry.maxAttempts (retry (db s))) - List.length errs)%nat
    as [| fuel] eqn:Hfuel; [lia |].
  rewrite loop_step by lia.
  unfold pool_query at 1. cbn [after_faults pool_faults clock subscriptions journal].
  rewrite Hrest. fold later. rewrite Hrun. reflexivity.
Qed.

(** X8. While the database breaker is open and its cooldown has not
    elapsed, no query reaches the pool: [query] is rejected with the
    CircuitOpen error and leaves the whole state as it is, and
    [addSubscription] therefore answers [false] without reading or writing
    anything. *)
Theorem X8_open_breaker_shields_pool s t :
  Breaker.isOpen (circuitBreaker (db s)) = true ->
  Breaker.lastFailureTime (circuitBreaker (db s)) = Some t ->
  clock (world s) - t < Breaker.resetTimeout (circuitBreaker (db s)) ->
  (forall (A : Type) (pool_call : Async World A),
      query_op pool_call s = (Rejected (Breaker.CircuitOpen (circuitBreaker (db s))), s)) /\
  (forall username days,
      Ledger.addSubscription username days s = (Resolved false, s)).
Proof.
  intros Hopen Hlast Hearly.
  assert (Hq : forall (A : Type) (pool_call : Async World A),
    query_op pool_call s = (Rejected (Breaker.CircuitOpen (circuitBreaker (db s))), s)).
  { intros A pool_call. unfold query_op.
    rewrite execute_open_early; [| exact Hopen | rewrite Hlast; exact Hearly].
    destruct s as [[cb r] w]. reflexivity. }
  split; [exact Hq |].
  intros username days. unfold Ledger.addSubscription.
  rewrite query_is_query_op, Hq. reflexivity.
Qed.

Lemma Rejections_FailedCalls s k s1 :
  Rejections s k s1 ->
  @Breaker.FailedCalls World _ (circuitBreaker (db s)) k (circuitBreaker (db s1)).
Proof.
  intros Hrej.
  induction Hrej as [| k s1 s1' s2 A pool_call error Hrej IH Hdb Hq].
  - apply Breaker.FailedCalls_nil.
  - unfold query_op in Hq. rewrite Hdb in Hq.
    destruct (Breaker.execute (circuitBreaker (db s1))
                (Retry.execute (retry (db s1)) pool_call) (world s1'))
      as [[result cb] w] eqn:Hexec.
    injection Hq as -> <-. cbn [db circuitBreaker].
    eapply Breaker.FailedCalls_snoc; [exact IH | exact Hexec].
Qed.

(** X9. Starting from a failure count of zero, [failureThreshold] queries
    rejected in a row (whatever they ask, whatever happens to the host in
    between) leave the database breaker open. *)
Theorem X9_rejected_queries_open_the_breaker s s1 n :
  1 <= n ->
  Breaker.failureThreshold (circuitBreaker (db s)) = n ->
  Breaker.failureCount (circuitBreaker (db s)) = 0 ->
  Breaker.isOpen (circuitBreaker (db s)) = false ->
  Rejections s (Z.to_nat n) s1 ->
  Breaker.isOpen (circuitBreaker (db s1)) = true /\
  Breaker.failureCount (circuitBreaker (db s1)) = n.
Proof.
  intros Hn Hthr Hcount Hclosed Hrej.
  apply Rejections_FailedCalls in Hrej.
  destruct (FailedCalls_count n _ Hthr Hcount Hclosed _ _ Hrej ltac:(lia))
    as (_ & Hc & Hopen).
  split; [| lia].
  rewrite Hopen.
  replace (Z.of_nat (Z.to_nat n) >=? n) with true
    by (symmetry; rewrite Z.geb_leb; apply Z.leb_le; lia).
  destruct (Z.to_nat n) eqn:E; [lia | reflexivity].
Qed.

End DbExtraTheorems.

(** X6 on a fresh database object whose pool fails three times. *)
Lemma X6_witness :
  Breaker.failureCount
    (Db.circuitBreaker (Db.db (snd (Db.query (Db.SelectDates "alice") (Sample.outage 3 0)))))
  = 1 /\
  Db.clock (Db.world (snd (Db.query (Db.SelectDates "alice") (Sample.outage 3 0)))) = 3000.
Proof.
  destruct (X6_failed_query_counts_once (Db.SelectDates "alice") (Sample.outage 3 0)
              [Example.boom; Example.boom] Example.boom [])
    as (_ & _ & Hclock & _ & _ & _ & Hcount).
  - reflexivity.
  - vm_compute. reflexivity.
  - reflexivity.
  - split; [exact Hcount | exact Hclock].
Defined.

(** X7 on a fresh database object whose pool fails once. *)
Lemma X7_witness :
  fst (Db.query (Db.SelectDates "alice") (Sample.outage 1 0))
    = Resolved (Some {| Db.rows := [] |}).
Proof.
  rewrite (X7_query_survives_transient_faults (Db.SelectDates "alice") (Sample.outage 1 0)
             [Example.boom] [] {| Db.rows := [] |} ∅ false).
  - reflexivity.
  - reflexivity.
  - vm_compute. reflexivity.
  - reflexivity.
  - reflexivity.
  - reflexivity.
Defined.

(** X9 and X8 on a fresh database object whose pool is down: five queries
    open the breaker, and the next grant, 40 s later, is refused unseen. *)
Lemma X9_witness :
  Breaker.isOpen (Db.circuitBreaker (Db.db (Sample.queried 5 (Sample.outage 15 0)))) = true.
Proof.
  apply (X9_rejected_queries_open_the_breaker (Sample.outage 15 0)
           (Sample.queried 5 (Sample.outage 15 0)) 5).
  - lia.
  - reflexivity.
  - reflexivity.
  - reflexivity.
  - change (Z.to_nat 5) with 5%nat.
    apply (DbOps.Rejections_snoc (Sample.outage 15 0) 4
             (Sample.queried 4 (Sample.outage 15 0)) (Sample.queried 4 (Sample.outage 15 0))
             (Sample.queried 5 (Sample.outage 15 0)) Db.QueryResult
             (Db.pool_query (Db.SelectDates "alice")) Example.boom);
      [| reflexivity | vm_compute; reflexivity].
    apply (DbOps.Rejections_snoc (Sample.outage 15 0) 3
             (Sample.queried 3 (Sample.outage 15 0)) (Sample.queried 3 (Sample.outage 15 0))
             (Sample.queried 4 (Sample.outage 15 0)) Db.QueryResult
             (Db.pool_query (Db.SelectDates "alice")) Example.boom);
      [| reflexivity | vm_compute; reflexivity].
    apply (DbOps.Rejections_snoc (Sample.outage 15 0) 2
             (Sample.queried 2 (Sample.outage 15 0)) (Sample.queried 2 (Sample.outage 15 0))
             (Sample.queried 3 (Sample.outage 15 0)) Db.QueryResult
             (Db.pool_query (Db.SelectDates "alice")) Example.boom);
      [| reflexivity | vm_compute; reflexivity].
    apply (DbOps.Rejections_snoc (Sample.outage 15 0) 1
             (Sample.queried 1 (Sample.outage 15 0)) (Sample.queried 1 (Sample.outage 15 0))
             (Sample.queried 2 (Sample.outage 15 0)) Db.QueryResult
             (Db.pool_query (Db.SelectDates "alice")) Example.boom);
      [| reflexivity | vm_compute; reflexivity].
    apply (DbOps.Rejections_snoc (Sample.outage 15 0) 0
             (Sample.queried 0 (Sample.outage 15 0)) (Sample.queried 0 (Sample.outage 15 0))
             (Sample.queried 1 (Sample.outage 15 0)) Db.QueryResult
             (Db.pool_query (Db.SelectDates "alice")) Example.boom);
      [| reflexivity | vm_compute; reflexivity].
    apply DbOps.Rejections_nil.
Defined.

Lemma X8_witness :
  Ledger.addSubscription "alice" 31
    (Ledger.set_clock 40000 (Sample.queried 5 (Sample.outage 15 0)))
  = (Resolved false, Ledger.set_clock 40000 (Sample.queried 5 (Sample.outage 15 0))).
Proof.
  destruct (X8_open_breaker_shields_pool
              (Ledger.set_clock 40000 (Sample.queried 5 (Sample.outage 15 0))) 15000)
    as [_ Hgrant].
  - vm_compute. reflexivity.
  - vm_compute. reflexivity.
  - vm_compute. reflexivity.
  - apply Hgrant.
Defined.

(* ===================================================================== *)
(** * Connection supervisor: further properties *)
(* ===================================================================== *)
Section MonitorExtra.
Context {W : Type} `{Runtime W}.
Variable bot_start : Async W unit.

Lemma set_circuitBreaker_same m :
  Monitor.set_circuitBreaker (Monitor.circuitBreaker m) m = m.
Proof. destruct m. reflexivity. Qed.

(** The monitor a run of the retry loop over [establish] leaves behind. *)
Lemma loop_establish_monitor r fuel :
  forall attempt (h : Monitor.Hive W),
    let out := Retry.loop fuel r (Monitor.establish bot_start) attempt h in
    let started := Monitor.set_bot (Some Monitor.WorkerBeeClient) (Monitor.monitor h) in
    match fst out with
    | Resolved (Some _) =>
        Monitor.monitor (snd out)
        = Monitor.set_reconnectAttempts 0 (Monitor.set_isConnected true started)
    | Resolved None =>
        Monitor.monitor (snd out) = Monitor.monitor h \/ Monitor.monitor (snd out) = started
    | Rejected _ => Monitor.monitor (snd out) = started
    end.
Proof.
  induction fuel as [| fuel IH]; intros attempt h out started; subst out started;
    [left; reflexivity |].
  cbn [Retry.loop].
  destruct (attempt <=? Retry.maxAttempts r); [| left; reflexivity].
  destruct (Monitor.establish bot_start h) as [[u | e] h1] eqn:Hest;
    unfold Monitor.establish in Hest;
    destruct (bot_start (Monitor.host h)) as [[u0 | e0] w1]; try discriminate;
    inversion Hest; subst; [reflexivity |].
  destruct (attempt =? Retry.maxAttempts r); [reflexivity |].
  match goal with
  | |- context [Retry.loop fuel r _ (attempt + 1) ?h2] =>
      pose proof (IH (attempt + 1) h2) as Hnext
  end.
  cbv zeta in Hnext.
  destruct (Retry.loop fuel r (Monitor.establish bot_start) (attempt + 1) _)
    as [[[x |] | e1] h3]; cbn [fst snd] in Hnext |- *.
  - exact Hnext.
  - right. destruct Hnext as [Hn | Hn]; exact Hn.
  - exact Hnext.
Qed.

(** What [connect()] does to a disconnected monitor, by outcome. *)
Lemma connect_outcome (h : Monitor.Hive W) :
  Monitor.isConnected (Monitor.monitor h) = false ->
  let m := Monitor.monitor h in
  let cb := Monitor.circuitBreaker m in
  let out := Monitor.connect bot_start h in
  let cb1 :=
    Breaker.after
      (Breaker.execute cb (Retry.execute (Monitor.retry m) (Monitor.establish bot_start)) h) in
  exists base,
    Monitor.monitor (snd out) = Monitor.set_circuitBreaker cb1 base /\
    match fst out with
    | Resolved _ =>
        base = Monitor.set_reconnectAttempts 0
                 (Monitor.set_isConnected true
                    (Monitor.set_bot (Some Monitor.WorkerBeeClient) m))
        \/ (Retry.maxAttempts (Monitor.retry m) <= 0 /\ base = m)
    | Rejected e =>
        (base = m /\ cb1 = cb /\ Breaker.isOpen cb = true /\ e = Breaker.CircuitOpen cb)
        \/ (base = Monitor.set_bot (Some Monitor.WorkerBeeClient) m /\
            exists cb0,
              (cb0 = cb /\ Breaker.isOpen cb = false
               \/ cb0 = Breaker.reset cb /\ Breaker.isOpen cb = true)
              /\ cb1 = Breaker.failure (Date_now (snd out)) cb0)
    end.
Proof.
  intros Hdis m cb out cb1. subst out cb1. unfold Monitor.connect. rewrite Hdis.
  fold m. fold cb.
  unfold Breaker.execute, Breaker.after, Retry.execute.
  pose proof (loop_establish_monitor (Monitor.retry m)
                (Z.to_nat (Retry.maxAttempts (Monitor.retry m))) 1 h) as Hloop.
  cbv zeta in Hloop. fold m in Hloop.
  assert (Hnone : forall st1,
    Retry.loop (Z.to_nat (Retry.maxAttempts (Monitor.retry m))) (Monitor.retry m)
      (Monitor.establish bot_start) 1 h = (Resolved None, st1) ->
    Retry.maxAttempts (Monitor.retry m) <= 0 /\ st1 = h).
  { intros st1 Hrun.
    destruct (Z_le_gt_dec (Retry.maxAttempts (Monitor.retry m)) 0) as [Hle | Hgt].
    - split; [exact Hle |].
      replace (Z.to_nat (Retry.maxAttempts (Monitor.retry m))) with O in Hrun by lia.
      cbn [Retry.loop] in Hrun. congruence.
    - destruct (execute_resolved (Monitor.retry m) (Monitor.establish bot_start) h None st1
                  ltac:(lia) Hrun) as (s0 & a & _ & Habs).
      discriminate. }
  assert (Hbody :
    forall cb0,
      (cb0 = cb /\ Breaker.isOpen cb = false
       \/ cb0 = Breaker.reset cb /\ Breaker.isOpen cb = true) ->
      let run :=
        match
          Retry.loop (Z.to_nat (Retry.maxAttempts (Monitor.retry m))) (Monitor.retry m)
            (Monitor.establish bot_start) 1 h
        with
        | (Resolved result, st1) => (Resolved result, Breaker.success cb0, st1)
        | (Rejected error, st1) => (Rejected error, Breaker.failure (Date_now st1) cb0, st1)
        end in
      let out :=
        let '(result, cb2, h1) := run in
        (match result with
         | Resolved _ => Resolved tt
         | Rejected error => Rejected error
         end,
         Monitor.MkHive (Monitor.set_circuitBreaker cb2 (Monitor.monitor h1))
           (Monitor.host h1)) in
      exists base,
        Monitor.monitor (snd out) = Monitor.set_circuitBreaker (snd (fst run)) base /\
        match fst out with
        | Resolved _ =>
            base = Monitor.set_reconnectAttempts 0
                     (Monitor.set_isConnected true
                        (Monitor.set_bot (Some Monitor.WorkerBeeClient) m))
            \/ (Retry.maxAttempts (Monitor.retry m) <= 0 /\ base = m)
        | Rejected e =>
            (base = m /\ snd (fst run) = cb /\ Breaker.isOpen cb = true
             /\ e = Breaker.CircuitOpen cb)
            \/ (base = Monitor.set_bot (Some Monitor.WorkerBeeClient) m /\
                exists cb0,
                  (cb0 = cb /\ Breaker.isOpen cb = false
                   \/ cb0 = Breaker.reset cb /\ Breaker.isOpen cb = true)
                  /\ snd (fst run) = Breaker.failure (Date_now (snd out)) cb0)
        end).
  { intros cb0 Hcb0 run out. subst run out.
    destruct (Retry.loop _ _ _ 1 h) as [[[x |] | e] h1] eqn:Hrun;
      cbn [fst snd] in Hloop |- *; cbn [Monitor.monitor].
    - rewrite Hloop. eexists. split; [reflexivity |]. left. reflexivity.
    - destruct (Hnone h1 eq_refl) as (Hle & ->). exists m.
      split; [reflexivity |]. right. split; [exact Hle | reflexivity].
    - rewrite Hloop. eexists. split; [reflexivity |]. right.
      split; [reflexivity |]. exists cb0. split; [exact Hcb0 | reflexivity]. }
  destruct (Breaker.isOpen cb) eqn:Hopen.
  - destruct (_ >=? _).
    + apply (Hbody (Breaker.reset cb)). right. split; reflexivity.
    + exists m. cbn [fst snd Monitor.monitor]. split; [reflexivity |].
      left. repeat split.
  - apply (Hbody cb). left. split; reflexivity.
Qed.

(** A rejected [connect()] leaves the monitor disconnected and the
    reconnect counter as it was. *)
Lemma connect_rejected (h : Monitor.Hive W) e h1 :
  Monitor.isConnected (Monitor.monitor h) = false ->
  Monitor.connect bot_start h = (Rejected e, h1) ->
  Monitor.isConnected (Monitor.monitor h1) = false /\
  Monitor.reconnectAttempts (Monitor.monitor h1) = Monitor.reconnectAttempts (Monitor.monitor h) /\
  Monitor.maxReconnectAttempts (Monitor.monitor h1)
    = Monitor.maxReconnectAttempts (Monitor.monitor h).
Proof.
  intros Hdis Hrun.
  destruct (connect_outcome h Hdis) as (base & Hm & Hcase).
  rewrite Hrun in Hm, Hcase. cbn [fst snd] in Hm, Hcase. rewrite Hm.
  destruct Hcase as [(-> & _) | (-> & _)]; cbn; auto.
Qed.

(** One failed [handleDisconnect] costs one unit of the budget, unless the
    budget was already used up. *)
Lemma handleDisconnect_rejected (h : Monitor.Hive W) e h1 :
  Monitor.handleDisconnect bot_start h = (Rejected e, h1) ->
  let m := Monitor.monitor h in
  Monitor.isConnected (Monitor.monitor h1) = false /\
  Monitor.maxReconnectAttempts (Monitor.monitor h1) = Monitor.maxReconnectAttempts m /\
  Monitor.reconnectAttempts (Monitor.monitor h1)
    = (if Monitor.reconnectAttempts m <? Monitor.maxReconnectAttempts m
       then Monitor.reconnectAttempts m + 1
       else Monitor.reconnectAttempts m).
Proof.
  intros Hrun m. unfold Monitor.handleDisconnect in Hrun.
  cbn [Monitor.set_observer Monitor.set_isConnected Monitor.reconnectAttempts
       Monitor.maxReconnectAttempts] in Hrun.
  fold m in Hrun.
  destruct (Monitor.reconnectAttempts m <? Monitor.maxReconnectAttempts m).
  - apply connect_rejected in Hrun; [| reflexivity].
    destruct Hrun as (Hc & Ha & Hmax). repeat split; assumption.
  - injection Hrun as _ <-. repeat split.
Qed.

Lemma FailedReconnects_counter m (k : nat) m1 :
  Supervisor.FailedReconnects bot_start m k m1 ->
  Monitor.reconnectAttempts m <= Monitor.maxReconnectAttempts m ->
  Monitor.maxReconnectAttempts m1 = Monitor.maxReconnectAttempts m /\
  Monitor.reconnectAttempts m1
    = Z.min (Monitor.reconnectAttempts m + Z.of_nat k) (Monitor.maxReconnectAttempts m) /\
  ((1 <= k)%nat -> Monitor.isConnected m1 = false).
Proof.
  intros Hrun Hle.
  induction Hrun as [| n m1 w error h2 Hrun IH Hstep].
  - split; [reflexivity |]. split; [lia | lia].
  - destruct IH as (Hmax & Hcount & _).
    apply handleDisconnect_rejected in Hstep. cbn [Monitor.monitor] in Hstep.
    destruct Hstep as (Hdis & Hmax2 & Hc2).
    split; [congruence |]. split; [| intros _; exact Hdis].
    rewrite Hc2, Hmax, Hcount.
    destruct (Z.ltb_spec (Z.min (Monitor.reconnectAttempts m + Z.of_nat n)
                                (Monitor.maxReconnectAttempts m))
                         (Monitor.maxReconnectAttempts m)); lia.
Qed.

(** X10. Over a run of [k] consecutive failed [handleDisconnect] calls the
    reconnect counter only goes up: it ends at
    [min (reconnectAttempts + k, maxReconnectAttempts)], the monitor is
    disconnected, and once [k] covers what was left of the budget every
    further [handleDisconnect], on any host, fails with the fatal
    ReconnectionExhausted error without touching the host. *)
Theorem X10_failed_reconnects_use_up_budget m (k : nat) m1 :
  Monitor.reconnectAttempts m <= Monitor.maxReconnectAttempts m ->
  Supervisor.FailedReconnects bot_start m k m1 ->
  Monitor.reconnectAttempts m1
    = Z.min (Monitor.reconnectAttempts m + Z.of_nat k) (Monitor.maxReconnectAttempts m) /\
  ((1 <= k)%nat -> Monitor.isConnected m1 = false) /\
  (Monitor.maxReconnectAttempts m - Monitor.reconnectAttempts m <= Z.of_nat k ->
   forall w,
     Monitor.handleDisconnect bot_start (Monitor.MkHive m1 w)
     = (Rejected Monitor.ReconnectionExhausted,
        Monitor.MkHive (Monitor.set_observer None (Monitor.set_isConnected false m1)) w)).
Proof.
  intros Hle Hrun.
  destruct (FailedReconnects_counter m k m1 Hrun Hle) as (Hmax & Hcount & Hdis).
  split; [exact Hcount |]. split; [exact Hdis |].
  intros Hk w. unfold Monitor.handleDisconnect.
  cbn [Monitor.monitor Monitor.host Monitor.set_observer Monitor.set_isConnected
       Monitor.reconnectAttempts Monitor.maxReconnectAttempts].
  replace (Monitor.reconnectAttempts m1 <? Monitor.maxReconnectAttempts m1) with false
    by (symmetry; apply Z.ltb_ge; lia).
  reflexivity.
Qed.

(** X11. Every monitor reachable from [new HiveMonitor()] through [connect]
    and [handleDisconnect] keeps the constructor's budget, delay, retry
    settings and breaker settings; its reconnect counter stays within
    [0 .. maxReconnectAttempts]; and while it is marked connected it holds
    a client and the counter is 0. *)
Theorem X11_monitor_invariant m :
  Supervisor.Reachable bot_start m ->
  Monitor.maxReconnectAttempts m = 5 /\
  Monitor.reconnectDelay m = 5000 /\
  Monitor.retry m = Monitor.retry Monitor.new /\
  Breaker.failureThreshold (Monitor.circuitBreaker m) = 3 /\
  Breaker.resetTimeout (Monitor.circuitBreaker m) = 60000 /\
  0 <= Monitor.reconnectAttempts m <= Monitor.maxReconnectAttempts m /\
  (Monitor.isConnected m = true ->
   Monitor.bot m = Some Monitor.WorkerBeeClient /\ Monitor.reconnectAttempts m = 0).
Proof.
  assert (Hconn : forall m w,
    (Monitor.maxReconnectAttempts m = 5 /\
     Monitor.reconnectDelay m = 5000 /\
     Monitor.retry m = Monitor.retry Monitor.new /\
     Breaker.failureThreshold (Monitor.circuitBreaker m) = 3 /\
     Breaker.resetTimeout (Monitor.circuitBreaker m) = 60000 /\
     0 <= Monitor.reconnectAttempts m <= Monitor.maxReconnectAttempts m /\
     (Monitor.isConnected m = true ->
      Monitor.bot m = Some Monitor.WorkerBeeClient /\ Monitor.reconnectAttempts m = 0)) ->
    let m1 := Monitor.monitor (snd (Monitor.connect bot_start (Monitor.MkHive m w))) in
    Monitor.maxReconnectAttempts m1 = 5 /\
    Monitor.reconnectDelay m1 = 5000 /\
    Monitor.retry m1 = Monitor.retry Monitor.new /\
    Breaker.failureThreshold (Monitor.circuitBreaker m1) = 3 /\
    Breaker.resetTimeout (Monitor.circuitBreaker m1) = 60000 /\
    0 <= Monitor.reconnectAttempts m1 <= Monitor.maxReconnectAttempts m1 /\
    (Monitor.isConnected m1 = true ->
     Monitor.bot m1 = Some Monitor.WorkerBeeClient /\ Monitor.reconnectAttempts m1 = 0)).
  { intros m0 w (Hmax & Hdelay & Hretry & Hthr & Hto & Hcount & Hup) m1. subst m1.
    destruct (Monitor.isConnected m0) eqn:Hc.
    - unfold Monitor.connect. cbn [Monitor.monitor]. rewrite Hc. cbn [snd Monitor.monitor].
      rewrite Hc. repeat split; try assumption; try lia; apply Hup; reflexivity.
    - destruct (connect_outcome (Monitor.MkHive m0 w) Hc) as (base & Hm & Hcase).
      cbn [Monitor.monitor] in Hm, Hcase. rewrite Hm.
      match type of Hm with
      | _ = Monitor.set_circuitBreaker (Breaker.after (Breaker.execute ?cb ?op ?st)) _ =>
          pose proof (execute_after_cases _ cb op st) as Hcb;
          cbv zeta in Hcb;
          set (cb1 := Breaker.after (Breaker.execute cb op st)) in *
      end.
      assert (Hcfg : Breaker.failureThreshold cb1 = 3 /\ Breaker.resetTimeout cb1 = 60000).
      { destruct Hcb as [-> | (cb0 & [-> | ->] & _ & [-> | [now ->]])];
          cbn [Breaker.success Breaker.failure Breaker.reset
               Breaker.failureThreshold Breaker.resetTimeout]; auto. }
      destruct Hcfg as (Hthr1 & Hto1).
      assert (Hbase :
        base = Monitor.set_reconnectAttempts 0
                 (Monitor.set_isConnected true
                    (Monitor.set_bot (Some Monitor.WorkerBeeClient) m0))
        \/ base = m0
        \/ base = Monitor.set_bot (Some Monitor.WorkerBeeClient) m0).
      { destruct (fst (Monitor.connect bot_start (Monitor.MkHive m0 w))) as [u | e].
        - destruct Hcase as [-> | [_ ->]]; auto.
        - destruct Hcase as [(-> & _) | (-> & _)]; auto. }
      destruct Hbase as [-> | [-> | ->]];
        cbn [Monitor.set_circuitBreaker Monitor.set_reconnectAttempts
             Monitor.set_isConnected Monitor.set_bot
             Monitor.maxReconnectAttempts Monitor.reconnectDelay Monitor.retry
             Monitor.circuitBreaker Monitor.reconnectAttempts Monitor.isConnected
             Monitor.bot];
        repeat split; try assumption; try lia; try congruence. }
  intros Hreach.
  induction Hreach as [| m w Hreach IH | m w Hreach IH].
  - cbn. repeat split; try reflexivity; try lia; discriminate.
  - apply Hconn. exact IH.
  - destruct IH as (Hmax & Hdelay & Hretry & Hthr & Hto & Hcount & Hup).
    unfold Monitor.handleDisconnect.
    cbn [Monitor.monitor Monitor.host Monitor.set_observer Monitor.set_isConnected
         Monitor.reconnectAttempts Monitor.maxReconnectAttempts Monitor.reconnectDelay].
    destruct (Z.ltb_spec (Monitor.reconnectAttempts m) (Monitor.maxReconnectAttempts m))
      as [Hlt | Hge].
    + cbn [setTimeout Monitor.Hive_Runtime Monitor.monitor Monitor.host].
      apply Hconn. cbn. repeat split; try assumption; try lia; discriminate.
    + cbn. repeat split; try assumption; try lia; discriminate.
Qed.

End MonitorExtra.

Section MonitorTraceExtra.
Context {W : Type} `{Runtime W}.
Variable bot_start : Async W unit.

(** No run of the retry loop over [establish] starts the client more often
    than it has attempts left, and a rejected run has used them all. *)
Lemma loop_establish_invocations r fuel :
  forall attempt (h : Monitor.Hive (Traced W)),
    fuel = Z.to_nat (Retry.maxAttempts r + 1 - attempt) ->
    let out := Retry.loop fuel r (Monitor.establish (observed bot_start)) attempt h in
    exists more,
      trace (Monitor.host (snd out)) = trace (Monitor.host h) ++ more /\
      (invocations more <= fuel)%nat /\
      (forall e, fst out = Rejected e -> invocations more = fuel).
Proof.
  induction fuel as [| fuel IH]; intros attempt h Hfuel out; subst out.
  - exists []. split; [symmetry; apply List.app_nil_r |].
    split; [apply Nat.le_refl | discriminate].
  - cbn [Retry.loop].
    destruct (Z.leb_spec attempt (Retry.maxAttempts r)) as [Hle | Hgt]; [| lia].
    pose proof (establish_trace bot_start h) as Hest.
    destruct (Monitor.establish (observed bot_start) h) as [[u | e] h1];
      cbn [snd] in Hest.
    + exists [Invoked]. cbn [fst snd]. split; [exact Hest |].
      split; [cbn; lia | discriminate].
    + destruct (Z.eqb_spec attempt (Retry.maxAttempts r)) as [Heq | Hne].
      * exists [Invoked]. cbn [fst snd]. split; [exact Hest |].
        split; [cbn; lia |]. intros _ _. cbn. lia.
      * destruct (IH (attempt + 1) (setTimeout (Retry.waitTime r attempt) h1) ltac:(lia))
          as (more & Hmore & Hbound & Hall).
        exists (Invoked :: Suspended (Retry.waitTime r attempt) :: more).
        split.
        -- rewrite Hmore. cbn [setTimeout Monitor.Hive_Runtime Monitor.host
                               Traced_Runtime trace].
           rewrite Hest, <- !List.app_assoc. reflexivity.
        -- change (invocations (Invoked :: Suspended (Retry.waitTime r attempt) :: more))
             with (S (invocations more)).
           split; [lia |]. intros e1 He1. f_equal. exact (Hall e1 He1).
Qed.

(** X12. A [connect()] never starts the client more than [maxAttempts]
    times, and not at all when the monitor is already connected.  When the
    breaker is closed and [connect()] is rejected, the client has been
    started exactly [maxAttempts] times, yet the breaker has counted a
    single failure; the monitor stays disconnected with its reconnect
    counter unchanged. *)
Theorem X12_connect_attempts (h : Monitor.Hive (Traced W)) :
  let m := Monitor.monitor h in
  let out := Monitor.connect (observed bot_start) h in
  let m1 := Monitor.monitor (snd out) in
  exists more,
    trace (Monitor.host (snd out)) = trace (Monitor.host h) ++ more /\
    (invocations more <= Z.to_nat (Retry.maxAttempts (Monitor.retry m)))%nat /\
    (Monitor.isConnected m = true -> more = []) /\
    (forall e,
        Monitor.isConnected m = false ->
        Breaker.isOpen (Monitor.circuitBreaker m) = false ->
        fst out = Rejected e ->
        invocations more = Z.to_nat (Retry.maxAttempts (Monitor.retry m)) /\
        Breaker.failureCount (Monitor.circuitBreaker m1)
          = Breaker.failureCount (Monitor.circuitBreaker m) + 1 /\
        Monitor.isConnected m1 = false /\
        Monitor.reconnectAttempts m1 = Monitor.reconnectAttempts m).
Proof.
  intros m out m1. subst out m1.
  destruct (Monitor.isConnected m) eqn:Hc.
  - exists []. unfold Monitor.connect. fold m. rewrite Hc. cbn [snd fst].
    split; [symmetry; apply List.app_nil_r |].
    split; [cbn; lia |]. split; [reflexivity | discriminate].
  - destruct (loop_establish_invocations (Monitor.retry m)
                (Z.to_nat (Retry.maxAttempts (Monitor.retry m))) 1 h ltac:(f_equal; lia))
      as (more & Hmore & Hbound & Hall).
    cbv zeta in Hmore, Hall.
    pose proof (connect_outcome (observed bot_start) h Hc) as Hout.
    cbv zeta in Hout. fold m in Hout.
    unfold Monitor.connect in *. fold m in Hout |- *. rewrite Hc in Hout |- *.
    unfold Breaker.execute, Breaker.after, Retry.execute in *.
    destruct (Breaker.isOpen (Monitor.circuitBreaker m)) eqn:Hopen.
    + destruct (_ >=? _).
      * exists more. split.
        -- destruct (Retry.loop _ _ _ 1 h) as [[x | e] h1]; exact Hmore.
        -- split; [exact Hbound |]. split; discriminate.
      * exists []. cbn [snd Monitor.host]. split; [symmetry; apply List.app_nil_r |].
        split; [cbn; lia |]. split; discriminate.
    + exists more. split.
      * destruct (Retry.loop _ _ _ 1 h) as [[x | e] h1]; exact Hmore.
      * split; [exact Hbound |]. split; [discriminate |].
        intros e _ _ Hrej.
        destruct (Retry.loop _ _ _ 1 h) as [[x | e1] h1] eqn:Hrun;
          cbn [fst snd Monitor.monitor] in *; [discriminate |].
        split; [exact (Hall e1 eq_refl) |].
        destruct Hout as (base & Hm & Hcase).
        destruct Hcase as [(_ & _ & Habs & _) | (-> & _)]; [discriminate |].
        rewrite Hm. cbn. rewrite Hc. repeat split.
Qed.

(** X13. A [handleDisconnect] that arrives while the connection breaker is
    open and still cooling down when the reconnect delay has passed spends
    one unit of the reconnect budget and the delay without starting the
    client: it is rejected with the CircuitOpen error, the only trace
    event is the suspension of [reconnectDelay] ms, and the counter has
    gone up by one. *)
Theorem X13_open_breaker_spends_budget (h : Monitor.Hive (Traced W)) t :
  let m := Monitor.monitor h in
  let resumed := setTimeout (inject_Z (Monitor.reconnectDelay m)) (Monitor.host h) in
  Monitor.reconnectAttempts m < Monitor.maxReconnectAttempts m ->
  Breaker.isOpen (Monitor.circuitBreaker m) = true ->
  Breaker.lastFailureTime (Monitor.circuitBreaker m) = Some t ->
  Date_now resumed - t < Breaker.resetTimeout (Monitor.circuitBreaker m) ->
  Monitor.handleDisconnect (observed bot_start) h
  = (Rejected (Breaker.CircuitOpen (Monitor.circuitBreaker m)),
     Monitor.MkHive
       (Monitor.set_reconnectAttempts (Monitor.reconnectAttempts m + 1)
          (Monitor.set_observer None (Monitor.set_isConnected false m)))
       resumed) /\
  trace resumed = trace (Monitor.host h) ++ [Suspended (inject_Z (Monitor.reconnectDelay m))].
Proof.
  intros m resumed Hbudget Hopen Hlast Hearly.
  split; [| reflexivity].
  unfold Monitor.handleDisconnect.
  cbn [Monitor.set_observer Monitor.set_isConnected Monitor.reconnectAttempts
       Monitor.maxReconnectAttempts Monitor.reconnectDelay].
  fold m.
  replace (Monitor.reconnectAttempts m <? Monitor.maxReconnectAttempts m) with true
    by (symmetry; apply Z.ltb_lt; exact Hbudget).
  unfold Monitor.connect.
  cbn [setTimeout Monitor.Hive_Runtime Monitor.monitor Monitor.host
       Monitor.set_reconnectAttempts Monitor.isConnected Monitor.circuitBreaker
       Monitor.retry].
  fold resumed.
  rewrite execute_open_early; [reflexivity | exact Hopen |].
  change (Date_now resumed - toNumber (Breaker.lastFailureTime (Monitor.circuitBreaker m))
          < Breaker.resetTimeout (Monitor.circuitBreaker m)).
  rewrite Hlast. exact Hearly.
Qed.

End MonitorTraceExtra.

(** X10 at a fresh monitor whose upstream never answers: five failed
    reconnect cycles use up the budget. *)
Lemma X10_witness :
  Monitor.reconnectAttempts (Monitor.monitor (Sample.reconnects 5)) = 5 /\
  forall w : Db.World,
    Monitor.handleDisconnect (Example.failing Example.boom)
      (Monitor.MkHive (Monitor.monitor (Sample.reconnects 5)) w)
    = (Rejected Monitor.ReconnectionExhausted,
       Monitor.MkHive
         (Monitor.set_observer None
            (Monitor.set_isConnected false (Monitor.monitor (Sample.reconnects 5)))) w).
Proof.
  assert (Hrun : @Supervisor.FailedReconnects Db.World _ (Example.failing Example.boom)
                   Monitor.new 5 (Monitor.monitor (Sample.reconnects 5))).
  { apply (@Supervisor.FailedReconnects_snoc Db.World _ (Example.failing Example.boom) Monitor.new 4
             (Monitor.monitor (Sample.reconnects 4)) (Monitor.host (Sample.reconnects 4))
             (Breaker.CircuitOpen Example.tripped) (Sample.reconnects 5));
      [| vm_compute; reflexivity].
    apply (@Supervisor.FailedReconnects_snoc Db.World _ (Example.failing Example.boom) Monitor.new 3
             (Monitor.monitor (Sample.reconnects 3)) (Monitor.host (Sample.reconnects 3))
             (Breaker.CircuitOpen Example.tripped) (Sample.reconnects 4));
      [| vm_compute; reflexivity].
    apply (@Supervisor.FailedReconnects_snoc Db.World _ (Example.failing Example.boom) Monitor.new 2
             (Monitor.monitor (Sample.reconnects 2)) (Monitor.host (Sample.reconnects 2))
             Example.boom (Sample.reconnects 3));
      [| vm_compute; reflexivity].
    apply (@Supervisor.FailedReconnects_snoc Db.World _ (Example.failing Example.boom) Monitor.new 1
             (Monitor.monitor (Sample.reconnects 1)) (Monitor.host (Sample.reconnects 1))
             Example.boom (Sample.reconnects 2));
      [| vm_compute; reflexivity].
    apply (@Supervisor.FailedReconnects_snoc Db.World _ (Example.failing Example.boom) Monitor.new 0
             Monitor.new (Example.world_at 0)
             Example.boom (Sample.reconnects 1));
      [| vm_compute; reflexivity].
    apply Supervisor.FailedReconnects_nil. }
  destruct (@X10_failed_reconnects_use_up_budget Db.World _ (Example.failing Example.boom)
              Monitor.new 5 (Monitor.monitor (Sample.reconnects 5))
              ltac:(vm_compute; discriminate) Hrun) as (Hcount & _ & Hspent).
  split.
  - rewrite Hcount. reflexivity.
  - apply Hspent. vm_compute. discriminate.
Defined.

(** X11 at the monitor left by two failed reconnect cycles. *)
Lemma X11_witness :
  Monitor.maxReconnectAttempts (Monitor.monitor (Sample.reconnects 2)) = 5 /\
  0 <= Monitor.reconnectAttempts (Monitor.monitor (Sample.reconnects 2)) <= 5.
Proof.
  assert (Hreach : @Supervisor.Reachable Db.World _ (Example.failing Example.boom)
                     (Monitor.monitor (Sample.reconnects 2))).
  { apply (@Supervisor.Reachable_handleDisconnect Db.World _ (Example.failing Example.boom)
             (Monitor.monitor (Sample.reconnects 1)) (Monitor.host (Sample.reconnects 1))).
    apply (@Supervisor.Reachable_handleDisconnect Db.World _ (Example.failing Example.boom)
             Monitor.new (Example.world_at 0)).
    apply Supervisor.Reachable_new. }
  destruct (@X11_monitor_invariant Db.World _ (Example.failing Example.boom) _ Hreach)
    as (Hmax & _ & _ & _ & _ & Hcount & _).
  split; [exact Hmax |]. rewrite Hmax in Hcount. exact Hcount.
Defined.

(** X12 at a fresh monitor whose upstream never answers: one [connect()],
    five starts of the client, one counted failure. *)
Lemma X12_witness :
  let out :=
    Monitor.connect (observed (Example.failing Example.boom))
      (Monitor.MkHive Monitor.new (MkTraced (Example.world_at 0) [])) in
  invocations (trace (Monitor.host (snd out))) = 5%nat /\
  Breaker.failureCount (Monitor.circuitBreaker (Monitor.monitor (snd out))) = 1.
Proof.
  intros out.
  destruct (@X12_connect_attempts Db.World _ (Example.failing Example.boom)
              (Monitor.MkHive Monitor.new (MkTraced (Example.world_at 0) [])))
    as (more & Htrace & _ & _ & Hrej).
  destruct (Hrej Example.boom eq_refl eq_refl eq_refl) as (Hinv & Hcount & _).
  split.
  - subst out. rewrite Htrace. exact Hinv.
  - exact Hcount.
Defined.

(** X13 at a monitor whose breaker tripped at time 0, the clock at 1000. *)
Lemma X13_witness :
  let h := Monitor.MkHive (Monitor.set_circuitBreaker Example.tripped Monitor.new)
             (MkTraced (Example.world_at 1000) []) in
  fst (Monitor.handleDisconnect (observed Example.succeeding) h)
    = Rejected (Breaker.CircuitOpen Example.tripped) /\
  Monitor.reconnectAttempts
    (Monitor.monitor (snd (Monitor.handleDisconnect (observed Example.succeeding) h))) = 1 /\
  trace (Monitor.host (snd (Monitor.handleDisconnect (observed Example.succeeding) h)))
    = [Suspended (5000 # 1)].
Proof.
  intros h.
  destruct (@X13_open_breaker_spends_budget Db.World _ Example.succeeding h 0)
    as (Hrun & Htrace);
    [vm_compute; reflexivity | reflexivity | reflexivity | vm_compute; reflexivity |].
  rewrite Hrun. cbn [fst snd Monitor.monitor Monitor.host]. rewrite Htrace.
  repeat split.
Defined.

(* ===================================================================== *)
(** * Ledger: further properties *)
(* ===================================================================== *)
Section LedgerExtra.
Import Db Ledger.

(** A [pool.query] call that resolves ran the statement once; one that
    rejects left the table and the journal alone. *)
Lemma pool_query_effect stmt w :
  match pool_query stmt w with
  | (Resolved result, w1) =>
      exists written,
        run stmt (clock w) (subscriptions w) = inr (result, subscriptions w1, written)
        /\ journal w1 = (if written then journal w ++ [stmt] else journal w)
  | (Rejected _, w1) => subscriptions w1 = subscriptions w /\ journal w1 = journal w
  end.
Proof.
  unfold pool_query.
  destruct (List.hd None (pool_faults w)) as [e |]; [split; reflexivity |].
  destruct (run stmt (clock w) (subscriptions w)) as [e | [[result tbl] written]];
    [split; reflexivity |].
  exists written. split; reflexivity.
Qed.

Lemma loop_pool_query_effect stmt r fuel :
  forall attempt w,
    match Retry.loop fuel r (pool_query stmt) attempt w with
    | (Resolved (Some result), w1) =>
        exists now written,
          run stmt now (subscriptions w) = inr (result, subscriptions w1, written)
          /\ journal w1 = (if written then journal w ++ [stmt] else journal w)
    | (_, w1) => subscriptions w1 = subscriptions w /\ journal w1 = journal w
    end.
Proof.
  induction fuel as [| fuel IH]; intros attempt w; [split; reflexivity |].
  cbn [Retry.loop].
  destruct (attempt <=? Retry.maxAttempts r); [| split; reflexivity].
  pose proof (pool_query_effect stmt w) as Hpool.
  destruct (pool_query stmt w) as [[result | e] w1].
  - destruct Hpool as (written & Hrun & Hj). eauto.
  - destruct Hpool as [Htbl Hj].
    destruct (attempt =? Retry.maxAttempts r); [split; assumption |].
    specialize (IH (attempt + 1) (setTimeout (Retry.waitTime r attempt) w1)).
    assert (Hsame : subscriptions (setTimeout (Retry.waitTime r attempt) w1)
                    = subscriptions w) by exact Htbl.
    assert (Hsamej : journal (setTimeout (Retry.waitTime r attempt) w1)
                     = journal w) by exact Hj.
    rewrite Hsame, Hsamej in IH. exact IH.
Qed.

(** [db.query]: a result means the statement ran once on the table as it
    was; anything else means table and journal are as they were. *)
Lemma query_effect stmt s :
  match query stmt s with
  | (Resolved (Some result), s1) =>
      exists now written,
        run stmt now (subscriptions (world s))
          = inr (result, subscriptions (world s1), written)
        /\ journal (world s1)
           = (if written then journal (world s) ++ [stmt] else journal (world s))
  | (_, s1) =>
      subscriptions (world s1) = subscriptions (world s)
      /\ journal (world s1) = journal (world s)
  end.
Proof.
  unfold query, Breaker.execute.
  destruct (if Breaker.isOpen _ then _ else _) as [cb1 |]; [| split; reflexivity].
  unfold Retry.execute.
  pose proof (loop_pool_query_effect stmt (retry (db s))
                (Z.to_nat (Retry.maxAttempts (retry (db s)))) 1 (world s)) as Hloop.
  destruct (Retry.loop _ _ _ 1 (world s)) as [[[result |] | e] w1]; exact Hloop.
Qed.

(** The write step of [addSubscription]. *)
Lemma upsert_step_effect username sd ed s1 :
  let out :=
    match query (Upsert username sd ed) s1 with
    | (Resolved _, s2) => (Resolved true, s2)
    | (Rejected _, s2) => (@Resolved bool false, s2)
    end in
  (subscriptions (world (snd out)) = subscriptions (world s1)
   /\ journal (world (snd out)) = journal (world s1))
  \/ (fst out = Resolved true
      /\ (String.length username <= 16)%nat
      /\ journal (world (snd out)) = journal (world s1) ++ [Upsert username sd ed]
      /\ exists db_now,
           subscriptions (world (snd out))
           = <[username := granted sd ed db_now]> (subscriptions (world s1))).
Proof.
  intros out. subst out.
  pose proof (query_effect (Upsert username sd ed) s1) as Hup.
  destruct (query (Upsert username sd ed) s1) as [[[result |] | e] s2];
    cbn [fst snd]; [| left; exact Hup | left; exact Hup].
  destruct Hup as (now2 & written2 & Hrun2 & Hj). cbn [run] in Hrun2.
  destruct (Nat.ltb_spec 16 (String.length username)) as [Hlong | Hshort];
    [discriminate |].
  injection Hrun2 as _ Htbl2 <-. right.
  split; [reflexivity |]. split; [exact Hshort |]. split; [exact Hj |].
  exists now2. congruence.
Qed.

(** X14. Whatever the state of the database object and of the pool,
    [addSubscription] never throws, never touches the row of another
    username, and appends at most one statement to the journal of writes,
    an upsert for this username.  When it returns [false], table and
    journal are exactly as before: a failure is reported only when nothing
    was written. *)
Theorem X14_addSubscription_frame username days s :
  let out := addSubscription username days s in
  (exists ok, fst out = Resolved ok) /\
  (forall u, u <> username ->
     subscriptions (world (snd out)) !! u = subscriptions (world s) !! u) /\
  (fst out = Resolved false ->
   subscriptions (world (snd out)) = subscriptions (world s) /\
   journal (world (snd out)) = journal (world s)) /\
  (journal (world (snd out)) = journal (world s) \/
   exists ed, journal (world (snd out))
              = journal (world s) ++ [Upsert username (clock (world s)) ed]).
Proof.
  intros out. subst out. unfold addSubscription.
  change (Date_now s) with (clock (world s)).
  set (now := clock (world s)).
  pose proof (query_effect (SelectDates username) s) as Hsel.
  destruct (query (SelectDates username) s) as [[[existing |] | e] s1];
    cbn [fst snd];
    [| destruct Hsel as [Ht Hj]; rewrite Ht, Hj;
       split; [eauto |]; split; [reflexivity |]; split; [split; reflexivity | left; reflexivity]
     | destruct Hsel as [Ht Hj]; rewrite Ht, Hj;
       split; [eauto |]; split; [reflexivity |]; split; [split; reflexivity | left; reflexivity]].
  destruct Hsel as (now1 & written & Hrun & Hj1).
  rewrite select_runs in Hrun. injection Hrun as _ Htbl1 <-.
  assert (Hwrite : forall ed,
    let out :=
      match query (Upsert username now ed) s1 with
      | (Resolved _, s2) => (Resolved true, s2)
      | (Rejected _, s2) => (@Resolved bool false, s2)
      end in
    (exists ok, fst out = Resolved ok) /\
    (forall u, u <> username ->
       subscriptions (world (snd out)) !! u = subscriptions (world s) !! u) /\
    (fst out = Resolved false ->
     subscriptions (world (snd out)) = subscriptions (world s) /\
     journal (world (snd out)) = journal (world s)) /\
    (journal (world (snd out)) = journal (world s) \/
     exists ed, journal (world (snd out)) = journal (world s) ++ [Upsert username now ed])).
  { intros ed out.
    destruct (upsert_step_effect username now ed s1)
      as [[Ht Hj] | (Hok & _ & Hj & db_now & Ht)]; fold out in Ht, Hj |- *.
    - rewrite Ht, Hj, <- Htbl1, Hj1.
      split; [subst out; destruct (query _ s1) as [[r | e] s2]; eauto |].
      split; [reflexivity |]. split; [split; reflexivity | left; reflexivity].
    - fold out in Hok. rewrite Hok, Ht, Hj, <- Htbl1, Hj1.
      split; [eauto |].
      split; [intros u Hu; apply lookup_insert_ne; congruence |].
      split; [discriminate | right; eauto]. }
  destruct (rows existing) as [| row rest].
  - apply Hwrite.
  - destruct (now >? expiration_date row).
    + apply Hwrite.
    + cbn [fst snd]. rewrite <- Htbl1, Hj1.
      split; [eauto |]. split; [reflexivity |].
      split; [discriminate | left; reflexivity].
Qed.

(** A statement the server refuses is refused at every attempt: the retry
    executor goes through all its attempts and their suspensions. *)
Lemma loop_server_error stmt r e :
  forall fuel attempt w,
    fuel = Z.to_nat (Retry.maxAttempts r + 1 - attempt) ->
    attempt <= Retry.maxAttempts r ->
    pool_faults w = [] ->
    (forall now, run stmt now (subscriptions w) = inl e) ->
    Retry.loop fuel r (pool_query stmt) attempt w
    = (Rejected e, DbOps.after_faults r attempt (fuel - 1) [] w).
Proof.
  induction fuel as [| fuel IH]; intros attempt w Hfuel Hle Hfaults Hrun; [lia |].
  rewrite loop_step by exact Hle.
  unfold pool_query at 1. rewrite Hfaults, Hrun. cbn [List.hd List.tl].
  destruct (Z.eqb_spec attempt (Retry.maxAttempts r)) as [Heq | Hne].
  - replace fuel with O by lia. cbn [Nat.sub]. unfold DbOps.after_faults.
    cbn [DbOps.slept]. rewrite Z.add_0_r. reflexivity.
  - rewrite (IH (attempt + 1)); [| lia | lia | reflexivity | exact Hrun].
    destruct fuel as [| fuel']; [lia |].
    f_equal. unfold DbOps.after_faults.
    cbn [setTimeout World_Runtime clock subscriptions journal pool_faults DbOps.slept
         Nat.sub].
    rewrite Nat.sub_0_r. f_equal. lia.
Qed.

(** X15. A write the server refuses (a username longer than the column's 16
    characters) is not treated as final: on a healthy database the read
    goes through, then the upsert is sent [maxAttempts] times with the
    backoff suspensions in between, [addSubscription] answers [false]
    with table and journal unchanged, and the database breaker has
    counted one failure. *)
Theorem X15_refused_write_is_retried username days s :
  healthy s ->
  (16 < String.length username)%nat ->
  (forall row, subscriptions (world s) !! username = Some row ->
     expiration_date row < clock (world s)) ->
  let out := addSubscription username days s in
  let later :=
    clock (world s)
    + DbOps.slept (retry (db s)) 1 (Z.to_nat (Retry.maxAttempts (retry (db s))) - 1) in
  fst out = Resolved false /\
  subscriptions (world (snd out)) = subscriptions (world s) /\
  journal (world (snd out)) = journal (world s) /\
  clock (world (snd out)) = later /\
  circuitBreaker (db (snd out))
    = Breaker.failure later (Breaker.success (circuitBreaker (db s))) /\
  Breaker.failureCount (circuitBreaker (db (snd out))) = 1.
Proof.
  intros Hs Hlong Hlapsed out later. subst out. unfold addSubscription.
  change (Date_now s) with (clock (world s)).
  rewrite (query_healthy _ _ _ _ _ Hs (select_runs _ _ _)).
  destruct Hs as (Hclosed & Hmax & Hfaults).
  cbn [rows].
  set (s1 := {| db := _; world := _ |}).
  assert (Hup : forall ed,
    query (Upsert username (clock (world s)) ed) s1
    = (Rejected too_long,
       {| db := {| circuitBreaker :=
                     Breaker.failure later (Breaker.success (circuitBreaker (db s)));
                   retry := retry (db s) |};
          world := {| clock := later; subscriptions := subscriptions (world s);
                      journal := journal (world s); pool_faults := [] |} |})).
  { intros ed. unfold query. subst s1. cbn [db world circuitBreaker retry].
    rewrite execute_closed by reflexivity. unfold Retry.execute.
    rewrite (loop_server_error _ (retry (db s)) too_long);
      [| f_equal; lia | lia | reflexivity |].
    - reflexivity.
    - intros now. cbn [run subscriptions].
      replace (16 <? String.length username)%nat with true
        by (symmetry; apply Nat.ltb_lt; exact Hlong).
      reflexivity. }
  destruct (subscriptions (world s) !! username) as [row |] eqn:Hrow.
  - replace (clock (world s) >? expiration_date row) with true
      by (symmetry; apply Z.gtb_lt; apply Hlapsed; reflexivity).
    rewrite Hup. cbn. repeat split.
  - rewrite Hup. cbn. repeat split.
Qed.

End LedgerExtra.

(** X15 at a seventeen-character username on an empty table: three refused
    upserts, 3000 ms of backoff, one counted failure. *)
Lemma X15_witness :
  let out := Ledger.addSubscription "abcdefghijklmnopq" 31 (Example.fresh Example.jan15) in
  fst out = Resolved false /\
  Db.clock (Db.world (snd out)) = Example.jan15 + 3000 /\
  Breaker.failureCount (Db.circuitBreaker (Db.db (snd out))) = 1.
Proof.
  intros out.
  destruct (X15_refused_write_is_retried "abcdefghijklmnopq" 31 (Example.fresh Example.jan15))
    as (Hres & _ & _ & Hclock & _ & Hcount).
  - repeat split. vm_compute. discriminate.
  - vm_compute. reflexivity.
  - intros row Hrow. vm_compute in Hrow. discriminate.
  - split; [exact Hres |]. split; [| exact Hcount].
    subst out. rewrite Hclock. reflexivity.
Defined.

(* ===================================================================== *)
(** * Transfer classifier: further properties *)
(* ===================================================================== *)
Section ClassifierExtra.
Import Db.

(** [processSubscriptionTransfer] either does nothing or is one
    [addSubscription] for the sender. *)
Lemma processSubscriptionTransfer_state env transfer s :
  snd (Ledger.processSubscriptionTransfer env transfer s) = s \/
  exists days,
    snd (Ledger.processSubscriptionTransfer env transfer s)
    = snd (Ledger.addSubscription (from transfer) days s).
Proof.
  unfold Ledger.processSubscriptionTransfer.
  repeat match goal with
         | |- context [if ?b then _ else _] => destruct b
         | |- context [match JsString.match_subscribe ?m with _ => _ end] =>
             destruct (JsString.match_subscribe m)
         end;
    try (left; reflexivity); right; eauto.
Qed.

Lemma addSubscription_others username days s u :
  u <> username ->
  subscriptions (world (snd (Ledger.addSubscription username days s))) !! u
  = subscriptions (world s) !! u.
Proof.
  intros Hu.
  destruct (addSubscription_table username days s) as [-> | (_ & db_now & ->)];
    [reflexivity |].
  apply lookup_insert_ne. congruence.
Qed.

(** X16. The classifier leaves the whole state as it is (it does not even
    query the database) unless the operation is a [transfer] or
    [fill_recurrent_transfer] to one of the two payment accounts, the
    second word of its amount is [HBD], and the parsed amount is one of the
    three configured amounts.  Whatever it does, it touches no row other
    than the sender's. *)
Theorem X16_classify_acts_only_on_payments env operation s :
  let s1 := snd (Monitor.classify env operation s) in
  (s1 <> s ->
   exists opType opData,
     Monitor.op operation = Some (opType, opData) /\
     (opType = "transfer"%string \/ opType = "fill_recurrent_transfer"%string) /\
     (Monitor.op_to opData = SUBSCRIPTION_PAYMENT_ACCOUNT env
      \/ Monitor.op_to opData = AI_PAYMENT_ACCOUNT env) /\
     List.nth_error (JsString.split " " (Monitor.op_amount opData)) 1 = Some "HBD"%string /\
     let parsed :=
       JsString.parseFloat
         (List.hd EmptyString (JsString.split " " (Monitor.op_amount opData))) in
     (JsString.num_eq parsed (Some (AI_SUBSCRIPTION_FULL_AMOUNT env)) = true
      \/ JsString.num_eq parsed (Some (AI_SUBSCRIPTION_MINI_AMOUNT env)) = true
      \/ JsString.num_eq parsed (Some (SUBSCRIPTION_AMOUNT env)) = true)) /\
  (forall u,
      (forall opType opData,
          Monitor.op operation = Some (opType, opData) -> u <> Monitor.op_from opData) ->
      subscriptions (world s1) !! u = subscriptions (world s) !! u).
Proof.
  intros s1. subst s1. unfold Monitor.classify.
  destruct (Monitor.op operation) as [[opType opData] |];
    [| split; [intros Hne; contradiction Hne; reflexivity | reflexivity]].
  set (parts := JsString.split " " (Monitor.op_amount opData)).
  set (parsed := JsString.parseFloat (List.hd EmptyString parts)).
  set (transformed := {| from := Monitor.op_from opData; to := _; amount := _;
                         memo := _; timestamp := _ |}).
  assert (Hframe : forall u,
    (forall opType0 opData0,
        Some (opType, opData) = Some (opType0, opData0) -> u <> Monitor.op_from opData0) ->
    subscriptions
      (world (snd (Ledger.processSubscriptionTransfer env transformed s))) !! u
    = subscriptions (world s) !! u).
  { intros u Hu.
    destruct (processSubscriptionTransfer_state env transformed s) as [-> | [days ->]];
      [reflexivity |].
    apply addSubscription_others. exact (Hu _ _ eq_refl). }
  destruct (String.eqb opType "transfer" || String.eqb opType "fill_recurrent_transfer")
    eqn:Htype;
    [| split; [intros Hne; contradiction Hne; reflexivity | reflexivity]].
  destruct (String.eqb (Monitor.op_to opData) (SUBSCRIPTION_PAYMENT_ACCOUNT env)
            || String.eqb (Monitor.op_to opData) (AI_PAYMENT_ACCOUNT env)) eqn:Hto;
    [| split; [intros Hne; contradiction Hne; reflexivity | reflexivity]].
  cbn [andb].
  assert (Htype' : opType = "transfer"%string \/ opType = "fill_recurrent_transfer"%string).
  { apply orb_true_iff in Htype. destruct Htype as [Ht | Ht];
      apply String.eqb_eq in Ht; auto. }
  assert (Hto' : Monitor.op_to opData = SUBSCRIPTION_PAYMENT_ACCOUNT env
                 \/ Monitor.op_to opData = AI_PAYMENT_ACCOUNT env).
  { apply orb_true_iff in Hto. destruct Hto as [Ht | Ht];
      apply String.eqb_eq in Ht; auto. }
  destruct (List.nth_error parts 1) as [sym |] eqn:Hsym.
  - destruct (String.eqb_spec sym "HBD") as [-> | Hsym'].
    + destruct (String.eqb (Monitor.op_to opData) (AI_PAYMENT_ACCOUNT env)); cbn [andb].
      * destruct (JsString.num_eq parsed (Some (AI_SUBSCRIPTION_FULL_AMOUNT env))) eqn:Hfull;
          cbn [orb].
        -- split; [| exact Hframe].
           intros _. exists opType, opData. repeat split; auto.
        -- destruct (JsString.num_eq parsed (Some (AI_SUBSCRIPTION_MINI_AMOUNT env)))
             eqn:Hmini.
           ++ split; [| exact Hframe].
              intros _. exists opType, opData. repeat split; auto.
           ++ split; [intros Hne; contradiction Hne; reflexivity | reflexivity].
      * destruct (String.eqb (Monitor.op_to opData) (SUBSCRIPTION_PAYMENT_ACCOUNT env));
          cbn [andb];
          [| split; [intros Hne; contradiction Hne; reflexivity | reflexivity]].
        destruct (JsString.num_eq parsed (Some (SUBSCRIPTION_AMOUNT env))) eqn:Hamt;
          cbn [andb];
          [| split; [intros Hne; contradiction Hne; reflexivity | reflexivity]].
        destruct (String.eqb (JsString.toLowerCase (Monitor.op_memo opData)) _);
          [| split; [intros Hne; contradiction Hne; reflexivity | reflexivity]].
        split; [| exact Hframe].
        intros _. exists opType, opData. repeat split; auto.
    + rewrite !andb_false_r. cbn [andb].
      split; [intros Hne; contradiction Hne; reflexivity | reflexivity].
  - rewrite !andb_false_r. cbn [andb].
    split; [intros Hne; contradiction Hne; reflexivity | reflexivity].
Qed.

(** X17. A transfer to the AI payment account with [HBD] as the second word
    of its amount is classified by the amount alone: the full amount
    grants the full day count, otherwise the mini amount grants the mini
    day count, otherwise nothing happens (also when the same account is
    configured as the subscription payment account and the transfer would
    qualify there).  The memo is never consulted. *)
Theorem X17_ai_payment_by_amount_only env operation opType opData s :
  Monitor.op operation = Some (opType, opData) ->
  opType = "transfer"%string \/ opType = "fill_recurrent_transfer"%string ->
  Monitor.op_to opData = AI_PAYMENT_ACCOUNT env ->
  List.nth_error (JsString.split " " (Monitor.op_amount opData)) 1 = Some "HBD"%string ->
  let parsed :=
    JsString.parseFloat
      (List.hd EmptyString (JsString.split " " (Monitor.op_amount opData))) in
  Monitor.classify env operation s =
    (Resolved tt,
     if JsString.num_eq parsed (Some (AI_SUBSCRIPTION_FULL_AMOUNT env))
     then snd (Ledger.addSubscription (Monitor.op_from opData)
                 (AI_SUBSCRIPTION_FULL_DAYS env) s)
     else if JsString.num_eq parsed (Some (AI_SUBSCRIPTION_MINI_AMOUNT env))
     then snd (Ledger.addSubscription (Monitor.op_from opData)
                 (AI_SUBSCRIPTION_MINI_DAYS env) s)
     else s).
Proof.
  intros Hop Htype Hto Hsym parsed. unfold Monitor.classify. rewrite Hop, Hsym.
  fold parsed.
  replace (String.eqb opType "transfer" || String.eqb opType "fill_recurrent_transfer")
    with true by (destruct Htype as [-> | ->]; reflexivity).
  rewrite Hto, String.eqb_refl, orb_true_r.
  cbn [andb String.eqb Ascii.eqb Bool.eqb].
  unfold Ledger.processSubscriptionTransfer.
  cbn [from to amount_value amount symbol memo].
  rewrite String.eqb_refl. cbn [andb String.eqb Ascii.eqb Bool.eqb].
  destruct (JsString.num_eq parsed (Some (AI_SUBSCRIPTION_FULL_AMOUNT env)));
    cbn [orb]; [reflexivity |].
  destruct (JsString.num_eq parsed (Some (AI_SUBSCRIPTION_MINI_AMOUNT env)));
    reflexivity.
Qed.

End ClassifierExtra.

(** X16 at a standard payment: the state changes, so the operation has the
    shape of a payment. *)
Lemma X16_witness :
  exists opType opData,
    Monitor.op (Example.transfer_with_memo "subscribe:myaccount") = Some (opType, opData) /\
    List.nth_error (JsString.split " " (Monitor.op_amount opData)) 1 = Some "HBD"%string.
Proof.
  destruct (X16_classify_acts_only_on_payments Example.env
              (Example.transfer_with_memo "subscribe:myaccount")
              (Example.fresh Example.jan15)) as [Hshape _].
  destruct Hshape as (opType & opData & Hop & _ & _ & Hsym & _).
  - intros Heq.
    apply (f_equal (fun s => Db.journal (Db.world s))) in Heq.
    vm_compute in Heq. discriminate.
  - exists opType, opData. split; assumption.
Defined.

(** X17 at a mini payment whose memo says something else: seven days. *)
Lemma X17_witness :
  Ledger.expiration_of "alice"
    (snd (Monitor.classify Example.env (Sample.ai_transfer "3.000 HBD" "thanks!")
            (Example.fresh Example.jan15)))
  = Some (Example.jan15 + Example.days 7).
Proof.
  rewrite (X17_ai_payment_by_amount_only Example.env
             (Sample.ai_transfer "3.000 HBD" "thanks!") "transfer"
             {| Monitor.op_from := "alice"; Monitor.op_to := "leoai";
                Monitor.op_amount := "3.000 HBD"; Monitor.op_memo := "thanks!" |}
             (Example.fresh Example.jan15) eq_refl (or_introl eq_refl) eq_refl eq_refl).
  vm_compute. reflexivity.
Defined.

(* ===================================================================== *)
(** * The earlier [processSubscriptionTransfer]: replays and reordering *)
(* ===================================================================== *)
Section EarlierExtra.
Import Db Earlier.

Lemma later_swap acc a b : later (later acc a) b = later (later acc b) a.
Proof. destruct acc as [e |]; cbn [later]; f_equal; lia. Qed.

Lemma max_expiration_cons stored t ts :
  max_expiration stored (t :: ts)
  = max_expiration (later stored (timestamp t + 31 * JsDate.msPerDay)) ts.
Proof. reflexivity. Qed.

Lemma max_expiration_app stored ts1 ts2 :
  max_expiration stored (ts1 ++ ts2) = max_expiration (max_expiration stored ts1) ts2.
Proof. unfold max_expiration. apply List.fold_left_app. Qed.

Lemma max_expiration_perm ts1 ts2 :
  Permutation ts1 ts2 ->
  forall stored, max_expiration stored ts1 = max_expiration stored ts2.
Proof.
  induction 1 as [| t ts1 ts2 Hperm IH | a b ts | ts1 ts2 ts3 H12 IH12 H23 IH23];
    intros stored.
  - reflexivity.
  - rewrite !max_expiration_cons. apply IH.
  - rewrite !max_expiration_cons. rewrite later_swap. reflexivity.
  - rewrite IH12. apply IH23.
Qed.


(** Candidates below the stored value change nothing. *)
Lemma max_expiration_absorbs ts :
  forall e,
    (forall t, In t ts -> timestamp t + 31 * JsDate.msPerDay <= e) ->
    max_expiration (Some e) ts = Some e.
Proof.
  induction ts as [| t ts IH]; intros e Hle; [reflexivity |].
  rewrite max_expiration_cons. cbn [later].
  replace (Z.max e (timestamp t + 31 * JsDate.msPerDay)) with e
    by (pose proof (Hle t (or_introl eq_refl)); lia).
  apply IH. intros t' Hin. apply Hle. right. exact Hin.
Qed.











End EarlierExtra.


(* ===================================================================== *)
(** * Periodic check and health route *)
(* ===================================================================== *)
Section ServiceFacts.
Import Db DbOps.

(** A pool call that goes through on a database whose breaker is closed is
    made once. *)
Lemma query_op_answers {A : Type} (pool_call : Async World A) s result w1 :
  Breaker.isOpen (circuitBreaker (db s)) = false ->
  1 <= Retry.maxAttempts (retry (db s)) ->
  pool_call (world s) = (Resolved result, w1) ->
  query_op pool_call s =
    (Resolved (Some result),
     {| db := {| circuitBreaker := Breaker.success (circuitBreaker (db s));
                 retry := retry (db s) |};
        world := w1 |}).
Proof.
  intros Hclosed Hmax Hpool. unfold query_op.
  rewrite (execute_closed _ _ _ Hclosed).
  rewrite (execute_first_success (retry (db s)) pool_call (world s) 1 result _
             ltac:(lia) ltac:(lia) ltac:(intros; lia) Hpool).
  reflexivity.
Qed.

(** For a pool call that leaves the table alone when it fails: a query
    either made one successful call on the table as it was, or left the
    table as it was. *)
Lemma loop_single_effect {A : Type} (pool_call : Async World A) r fuel :
  (forall w e w1, pool_call w = (Rejected e, w1) ->
                  subscriptions w1 = subscriptions w) ->
  forall attempt w,
    match Retry.loop fuel r pool_call attempt w with
    | (Resolved (Some result), w1) =>
        exists w0, subscriptions w0 = subscriptions w
                   /\ pool_call w0 = (Resolved result, w1)
    | (_, w1) => subscriptions w1 = subscriptions w
    end.
Proof.
  intros Hrej.
  induction fuel as [| fuel IH]; intros attempt w; [reflexivity |].
  cbn [Retry.loop].
  destruct (attempt <=? Retry.maxAttempts r); [| reflexivity].
  destruct (pool_call w) as [[result | e] w1] eqn:Hpool.
  - exists w. split; [reflexivity | exact Hpool].
  - pose proof (Hrej _ _ _ Hpool) as Htbl.
    destruct (attempt =? Retry.maxAttempts r); [exact Htbl |].
    specialize (IH (attempt + 1) (setTimeout (Retry.waitTime r attempt) w1)).
    assert (Hsame : subscriptions (setTimeout (Retry.waitTime r attempt) w1)
                    = subscriptions w) by exact Htbl.
    destruct (Retry.loop fuel r pool_call (attempt + 1) _) as [[[result |] | e1] w2].
    + destruct IH as (w0 & Hw0 & Hcall). exists w0. split; [congruence | exact Hcall].
    + congruence.
    + congruence.
Qed.

Lemma query_op_single_effect {A : Type} (pool_call : Async World A) s :
  (forall w e w1, pool_call w = (Rejected e, w1) ->
                  subscriptions w1 = subscriptions w) ->
  match query_op pool_call s with
  | (Resolved (Some result), s1) =>
      exists w0, subscriptions w0 = subscriptions (world s)
                 /\ pool_call w0 = (Resolved result, world s1)
                 /\ Breaker.isOpen (circuitBreaker (db s1)) = false
                 /\ Breaker.failureCount (circuitBreaker (db s1)) = 0
  | (_, s1) => subscriptions (world s1) = subscriptions (world s)
  end.
Proof.
  intros Hrej. unfold query_op, Breaker.execute.
  destruct (if Breaker.isOpen _ then _ else _) as [cb1 |]; [| reflexivity].
  unfold Retry.execute.
  pose proof (loop_single_effect pool_call (retry (db s))
                (Z.to_nat (Retry.maxAttempts (retry (db s)))) Hrej 1 (world s)) as Hloop.
  destruct (Retry.loop _ _ _ 1 (world s)) as [[[result |] | e] w1]; cbn [world];
    [| exact Hloop | exact Hloop].
  destruct Hloop as (w0 & Hw0 & Hcall). exists w0. repeat split; assumption.
Qed.

(** A query that resolves leaves the breaker closed with a count of 0. *)
Lemma query_op_resolved_breaker {A : Type} (pool_call : Async World A) s x s1 :
  query_op pool_call s = (Resolved x, s1) ->
  Breaker.isOpen (circuitBreaker (db s1)) = false /\
  Breaker.failureCount (circuitBreaker (db s1)) = 0.
Proof.
  unfold query_op, Breaker.execute.
  destruct (if Breaker.isOpen _ then _ else _) as [cb1 |]; [| discriminate].
  destruct (Retry.execute _ _ _) as [[y | e] w1]; [| discriminate].
  intros Heq. injection Heq as _ <-. split; reflexivity.
Qed.

Lemma pool_sweep_rejected w e w1 :
  Periodic.pool_sweep w = (Rejected e, w1) -> subscriptions w1 = subscriptions w.
Proof.
  unfold Periodic.pool_sweep.
  destruct (List.hd None (pool_faults w)); intros Heq; [| discriminate].
  injection Heq as _ <-. reflexivity.
Qed.

Lemma pool_sweep_resolved w result w1 :
  Periodic.pool_sweep w = (Resolved result, w1) ->
  subscriptions w1 = Periodic.swept (clock w) (subscriptions w) /\ clock w1 = clock w.
Proof.
  unfold Periodic.pool_sweep.
  destruct (List.hd None (pool_faults w)); intros Heq; [discriminate |].
  injection Heq as _ <-. split; reflexivity.
Qed.

Lemma pool_select1_table w :
  subscriptions (snd (Routes.pool_select1 w)) = subscriptions w.
Proof.
  unfold Routes.pool_select1. destruct (List.hd None (pool_faults w)); reflexivity.
Qed.

Lemma pool_select1_rejected w e w1 :
  Routes.pool_select1 w = (Rejected e, w1) -> subscriptions w1 = subscriptions w.
Proof. intros Hrej. rewrite <- (pool_select1_table w), Hrej. reflexivity. Qed.

Lemma swept_lookup now (tbl : gmap string Row) u :
  Periodic.swept now tbl !! u
  = (fun row => if Periodic.overdue now row then Periodic.deactivated row else row)
      <$> tbl !! u.
Proof. unfold Periodic.swept. apply lookup_fmap. Qed.


(** The periodic check on a database that answers. *)
Lemma checkExpiredSubscriptions_healthy b :
  healthy (store b) ->
  Periodic.checkExpiredSubscriptions b =
    (Resolved tt,
     {| store :=
          {| db := {| circuitBreaker := Breaker.success (circuitBreaker (db (store b)));
                      retry := retry (db (store b)) |};
             world := {| clock := clock (world (store b));
                         subscriptions :=
                           Periodic.swept (clock (world (store b)))
                             (subscriptions (world (store b)));
                         journal := journal (world (store b));
                         pool_faults := [] |} |};
        healthCheck := Health.updateLastCheck (clock (world (store b))) <$> healthCheck b;
        monitor := monitor b |}).
Proof.
  intros (Hclosed & Hmax & Hfaults). unfold Periodic.checkExpiredSubscriptions.
  rewrite (query_op_answers Periodic.pool_sweep (store b)
             (Periodic.returning (clock (world (store b)))
                (subscriptions (world (store b))))
             {| clock := clock (world (store b));
                subscriptions := Periodic.swept (clock (world (store b)))
                                   (subscriptions (world (store b)));
                journal := journal (world (store b));
                pool_faults := [] |} Hclosed Hmax);
    [reflexivity |].
  unfold Periodic.pool_sweep. rewrite Hfaults. reflexivity.
Qed.

(** [GET /health] on a database that answers. *)
Lemma health_healthy this a :
  healthy (store a) ->
  Routes.health this a =
    (if clock (world (store a)) - Health.lastSuccessfulCheck this >? 120 * 60 * 1000
     then {| Routes.status := 503;
             Routes.body := Routes.Unhealthy (message Routes.stalled) |}
     else if Routes.hive_down (monitor a)
     then {| Routes.status := 503;
             Routes.body := Routes.Unhealthy (message Routes.not_established) |}
     else {| Routes.status := 200;
             Routes.body := Routes.Healthy (Health.lastSuccessfulCheck this) |},
     {| store :=
          {| db := {| circuitBreaker := Breaker.success (circuitBreaker (db (store a)));
                      retry := retry (db (store a)) |};
             world := {| clock := clock (world (store a));
                         subscriptions := subscriptions (world (store a));
                         journal := journal (world (store a));
                         pool_faults := [] |} |};
        healthCheck := healthCheck a;
        monitor := monitor a |}).
Proof.
  intros (Hclosed & Hmax & Hfaults). unfold Routes.health.
  rewrite (query_op_answers Routes.pool_select1 (store a) tt
             {| clock := clock (world (store a));
                subscriptions := subscriptions (world (store a));
                journal := journal (world (store a));
                pool_faults := [] |} Hclosed Hmax)
    by (unfold Routes.pool_select1; rewrite Hfaults; reflexivity).
  change (Date_now _) with (clock (world (store a))).
  destruct (_ >? _); [reflexivity |].
  destruct (Routes.hive_down (monitor a)); reflexivity.
Qed.

End ServiceFacts.

Section ServiceTheorems.
Import Db DbOps.


(** X20. Whatever the state of the database, [checkExpiredSubscriptions]
    never throws and leaves [global.monitor] alone, and the health check's
    time stamp moves only together with a completed sweep: either table
    and time stamp are as before, or the table has been swept once, at the
    time the clock shows afterwards, and the time stamp is that time. *)
Theorem X20_sweep_and_timestamp a :
  let out := Periodic.checkExpiredSubscriptions a in
  let a1 := snd out in
  fst out = Resolved tt /\
  monitor a1 = monitor a /\
  ((subscriptions (world (store a1)) = subscriptions (world (store a))
    /\ healthCheck a1 = healthCheck a)
   \/
   (subscriptions (world (store a1))
      = Periodic.swept (clock (world (store a1))) (subscriptions (world (store a)))
    /\ healthCheck a1
       = Health.updateLastCheck (clock (world (store a1))) <$> healthCheck a
    /\ Breaker.isOpen (circuitBreaker (db (store a1))) = false)).
Proof.
  intros out a1. subst out a1. unfold Periodic.checkExpiredSubscriptions.
  pose proof (query_op_single_effect Periodic.pool_sweep (store a) pool_sweep_rejected)
    as Hq.
  destruct (query_op Periodic.pool_sweep (store a)) as [[[result |] | e] s1];
    cbn [fst snd store healthCheck monitor];
    (split; [reflexivity |]); (split; [reflexivity |]);
    [| left; split; [exact Hq | reflexivity] | left; split; [exact Hq | reflexivity]].
  destruct Hq as (w0 & Hw0 & Hcall & Hclosed & _).
  apply pool_sweep_resolved in Hcall. destruct Hcall as [Htbl Hclock].
  right. change (Date_now s1) with (clock (world s1)).
  rewrite Htbl, Hclock, Hw0. repeat split. exact Hclosed.
Qed.

(** X21. [GET /health] answers 200 or 503 and never changes the table.  It
    answers 200 exactly when its database probe resolved, the last
    completed sweep is at most two hours old and the monitor is marked
    connected; in that case the database breaker is closed with a failure
    count of 0 afterwards.  On a database that answers, the probe
    resolves without delay. *)
Theorem X21_health_sound_and_complete this a :
  let out := Routes.health this a in
  let resp := fst out in
  let s1 := store (snd out) in
  (Routes.status resp = 200 \/ Routes.status resp = 503) /\
  subscriptions (world s1) = subscriptions (world (store a)) /\
  (Routes.status resp = 200 ->
   Routes.body resp = Routes.Healthy (Health.lastSuccessfulCheck this) /\
   (exists m, monitor a = Some m /\ Monitor.isConnected m = true) /\
   Date_now s1 - Health.lastSuccessfulCheck this <= 7200000 /\
   Breaker.isOpen (circuitBreaker (db s1)) = false /\
   Breaker.failureCount (circuitBreaker (db s1)) = 0) /\
  (healthy (store a) ->
   (exists m, monitor a = Some m /\ Monitor.isConnected m = true) ->
   clock (world (store a)) - Health.lastSuccessfulCheck this <= 7200000 ->
   resp = {| Routes.status := 200;
             Routes.body := Routes.Healthy (Health.lastSuccessfulCheck this) |}).
Proof.
  intros out resp s1. subst out resp s1. unfold Routes.health.
  split; [| split; [| split]].
  - destruct (query_op Routes.pool_select1 (store a)) as [[probe | e] s1]; cbn [fst];
      [| right; reflexivity].
    destruct (_ >? _); [right; reflexivity |].
    destruct (Routes.hive_down (monitor a)); [right | left]; reflexivity.
  - pose proof (query_op_single_effect Routes.pool_select1 (store a)
                  pool_select1_rejected) as Hq.
    destruct (query_op Routes.pool_select1 (store a)) as [[[probe |] | e] s1];
      cbn [snd store]; [| exact Hq | exact Hq].
    destruct Hq as (w0 & Hw0 & Hcall & _).
    rewrite <- Hw0, <- (pool_select1_table w0), Hcall. reflexivity.
  - destruct (query_op Routes.pool_select1 (store a)) as [[probe | e] s1] eqn:Hq;
      cbn [fst snd store]; [| discriminate].
    destruct (Z.gtb_spec (Date_now s1 - Health.lastSuccessfulCheck this) (120 * 60 * 1000))
      as [Hstale | Hfresh]; [discriminate |].
    destruct (monitor a) as [m |] eqn:Hm; cbn [Routes.hive_down]; [| discriminate].
    destruct (Monitor.isConnected m) eqn:Hc; cbn [negb]; [| discriminate].
    intros _. split; [reflexivity |]. split; [eauto |]. split; [lia |].
    exact (query_op_resolved_breaker _ _ _ _ Hq).
  - intros Hs (m & Hm & Hc) Hfresh. destruct Hs as (Hclosed & Hmax & Hfaults).
    rewrite (query_op_answers Routes.pool_select1 (store a) tt
               {| clock := clock (world (store a));
                  subscriptions := subscriptions (world (store a));
                  journal := journal (world (store a));
                  pool_faults := [] |} Hclosed Hmax)
      by (unfold Routes.pool_select1; rewrite Hfaults; reflexivity).
    cbn [fst]. change (Date_now _) with (clock (world (store a))).
    replace (clock (world (store a)) - Health.lastSuccessfulCheck this >? 120 * 60 * 1000)
      with false by (symmetry; rewrite Z.gtb_ltb; apply Z.ltb_ge; lia).
    rewrite Hm. cbn [Routes.hive_down]. rewrite Hc. reflexivity.
Qed.

(** X22. The health route follows the sweeps.  Right after a sweep that
    completed on a database that answers, [GET /health] reports 200 with
    the time of that sweep, however old the previous time stamp was
    (monitor connected).  After a sweep whose query was rejected the time
    stamp is the old one, and once it is more than two hours old
    [GET /health] reports 503, "Periodic checks may be stalled", although
    the database answers the probe and the monitor is connected. *)
Theorem X22_health_follows_sweeps this m :
  Monitor.isConnected m = true ->
  (forall a,
      healthCheck a = Some this -> monitor a = Some m -> healthy (store a) ->
      exists a2,
        Routes.get_health (snd (Periodic.checkExpiredSubscriptions a))
        = Some ({| Routes.status := 200;
                   Routes.body := Routes.Healthy (clock (world (store a))) |}, a2)) /\
  (forall b e,
      healthCheck b = Some this -> monitor b = Some m ->
      fst (query_op Periodic.pool_sweep (store b)) = Rejected e ->
      let b1 := snd (Periodic.checkExpiredSubscriptions b) in
      healthy (store b1) ->
      7200000 < clock (world (store b1)) - Health.lastSuccessfulCheck this ->
      exists b2,
        Routes.get_health b1
        = Some ({| Routes.status := 503;
                   Routes.body := Routes.Unhealthy "Periodic checks may be stalled" |},
                b2)).
Proof.
  intros Hc. split.
  - intros a Hhc Hm Hs.
    rewrite (checkExpiredSubscriptions_healthy a Hs). cbn [snd].
    unfold Routes.get_health. cbn [healthCheck]. rewrite Hhc.
    cbn [fmap option_fmap option_map].
    rewrite health_healthy
      by (destruct Hs as (_ & Hmax & _); repeat split; exact Hmax).
    cbn [store world clock monitor Health.updateLastCheck Health.lastSuccessfulCheck].
    rewrite Z.sub_diag, Hm. cbn [Routes.hive_down]. rewrite Hc.
    eexists. reflexivity.
  - intros b e Hhc Hm Hrej b1 Hs Hstale.
    assert (Hsame : healthCheck b1 = Some this /\ monitor b1 = Some m).
    { subst b1. unfold Periodic.checkExpiredSubscriptions.
      destruct (query_op Periodic.pool_sweep (store b)) as [[r | e1] s1];
        [discriminate |].
      cbn [snd healthCheck monitor]. split; assumption. }
    destruct Hsame as [Hhc1 Hm1].
    unfold Routes.get_health. rewrite Hhc1, (health_healthy this b1 Hs).
    replace (clock (world (store b1)) - Health.lastSuccessfulCheck this >? 120 * 60 * 1000)
      with true by (symmetry; rewrite Z.gtb_ltb; apply Z.ltb_lt; lia).
    eexists. reflexivity.
Qed.

(** X23. The sweep and the grant agree on what a lapsed window is.  A row
    the sweep deactivates (expiration before now, on a database that
    answers) is one whose window [addSubscription] regards as lapsed: a
    payment processed after the sweep writes the row again, active, with
    the subscription date at now and an expiration of at least now plus
    the days granted. *)
Theorem X23_deactivated_then_paid a username days row :
  healthy (store a) ->
  (String.length username <= 16)%nat ->
  0 <= days ->
  subscriptions (world (store a)) !! username = Some row ->
  Periodic.overdue (clock (world (store a))) row = true ->
  let now := clock (world (store a)) in
  let a1 := snd (Periodic.checkExpiredSubscriptions a) in
  let out := Ledger.addSubscription username days (store a1) in
  subscriptions (world (store a1)) !! username = Some (Periodic.deactivated row) /\
  fst out = Resolved true /\
  exists row2,
    subscriptions (world (snd out)) !! username = Some row2 /\
    active_subscription row2 = true /\
    subscription_date row2 = now /\
    now + days * JsDate.msPerDay <= expiration_date row2.
Proof.
  intros Hs Hlen Hdays Hrow Hover now a1 out.
  assert (Hs1 : healthy (store a1)).
  { subst a1. rewrite (checkExpiredSubscriptions_healthy a Hs).
    destruct Hs as (_ & Hmax & _). repeat split. exact Hmax. }
  assert (Hrow1 : subscriptions (world (store a1)) !! username
                  = Some (Periodic.deactivated row)).
  { subst a1. rewrite (checkExpiredSubscriptions_healthy a Hs).
    cbn [snd store world subscriptions]. rewrite swept_lookup, Hrow.
    cbn [fmap option_fmap option_map]. rewrite Hover. reflexivity. }
  assert (Hclock1 : clock (world (store a1)) = now).
  { subst a1. rewrite (checkExpiredSubscriptions_healthy a Hs). reflexivity. }
  assert (Hpast : expiration_date row < now).
  { unfold Periodic.overdue in Hover. apply andb_true_iff in Hover.
    destruct Hover as [Hlt _]. apply Z.ltb_lt in Hlt. exact Hlt. }
  split; [exact Hrow1 |].
  destruct (addSubscription_writes username days (store a1) Hs1 Hlen)
    as (Hok & _ & _ & Htbl & _).
  { intros row' Hrow'. rewrite Hrow1 in Hrow'. injection Hrow' as <-.
    rewrite Hclock1. exact Hpast. }
  fold out in Hok, Htbl. split; [exact Hok |].
  rewrite Htbl. eexists. split; [apply lookup_insert_eq |].
  rewrite Hclock1. cbn [granted active_subscription subscription_date expiration_date].
  split; [reflexivity |]. split; [reflexivity |].
  apply written_expiration_ge. exact Hdays.
Qed.

End ServiceTheorems.


(** X22: a sweep that goes through makes a stale service healthy; one that
    fails during an outage leaves it stale. *)
Lemma X22_witness :
  (exists a2,
      Routes.get_health
        (snd (Periodic.checkExpiredSubscriptions (SampleService.service Example.jan15 0)))
      = Some ({| Routes.status := 200;
                 Routes.body := Routes.Healthy Example.jan15 |}, a2)) /\
  (exists b2,
      Routes.get_health
        (snd (Periodic.checkExpiredSubscriptions (SampleService.service_down Example.jan15 0)))
      = Some ({| Routes.status := 503;
                 Routes.body := Routes.Unhealthy "Periodic checks may be stalled" |}, b2)).
Proof.
  destruct (X22_health_follows_sweeps (Health.new 0) SampleService.connected eq_refl)
    as [Hok Hstale].
  split.
  - apply Hok; [reflexivity | reflexivity |].
    repeat split. vm_compute. discriminate.
  - apply (Hstale (SampleService.service_down Example.jan15 0) Example.boom);
      [reflexivity | reflexivity | vm_compute; reflexivity | | vm_compute; reflexivity].
    repeat split. vm_compute. discriminate.
Defined.

(** X23 at alice's lapsed row. *)
Lemma X23_witness :
  let a1 := snd (Periodic.checkExpiredSubscriptions (SampleService.service Example.jan15 0)) in
  exists row2,
    Db.subscriptions
      (Db.world (snd (Ledger.addSubscription "alice" 31 (store a1)))) !! "alice"
    = Some row2 /\
    Db.active_subscription row2 = true.
Proof.
  intros a1.
  destruct (X23_deactivated_then_paid (SampleService.service Example.jan15 0) "alice" 31
              SampleService.lapsed_row)
    as (_ & _ & row2 & Hrow2 & Hactive & _).
  - repeat split. vm_compute. discriminate.
  - vm_compute. lia.
  - lia.
  - reflexivity.
  - reflexivity.
  - exists row2. split; assumption.
Defined.


(* ===================================================================== *)
(** * Free trial script *)
(* ===================================================================== *)
Section FreeTrialExtra.
Import Db.

(** [addFreeTrial] on a pool that takes the call. *)
Lemma addFreeTrial_answers username days w :
  List.hd None (pool_faults w) = None ->
  (String.length username <= 16)%nat ->
  let now := clock w in
  let ed := if days =? 0 then now else now + days * JsDate.msPerDay in
  exists tbl,
    FreeTrial.run_trial username now ed days now (subscriptions w) = inr tbl /\
    FreeTrial.addFreeTrial username days w =
      (Resolved tt,
       {| clock := now; subscriptions := tbl; journal := journal w;
          pool_faults := List.tl (pool_faults w) |}).
Proof.
  intros Hfault Hlen now ed. subst now ed.
  assert (Hrun : exists tbl,
    FreeTrial.run_trial username (clock w)
      (if days =? 0 then clock w else clock w + days * JsDate.msPerDay)
      days (clock w) (subscriptions w) = inr tbl).
  { unfold FreeTrial.run_trial.
    replace (16 <? String.length username)%nat with false
      by (symmetry; apply Nat.ltb_ge; exact Hlen).
    destruct (subscriptions w !! username) as [row |]; [| eauto].
    destruct (_ || _); eauto. }
  destruct Hrun as (tbl & Hrun). exists tbl. split; [exact Hrun |].
  unfold FreeTrial.addFreeTrial, FreeTrial.pool_trial. cbv zeta.
  change (Date_now w) with (clock w). rewrite Hfault, Hrun. reflexivity.
Qed.

(** Whatever the pool does, [addFreeTrial] touches no other row. *)
Lemma addFreeTrial_others username days w u :
  u <> username ->
  subscriptions (snd (FreeTrial.addFreeTrial username days w)) !! u
  = subscriptions w !! u.
Proof.
  intros Hu. unfold FreeTrial.addFreeTrial, FreeTrial.pool_trial.
  destruct (List.hd None (pool_faults w)); [reflexivity |].
  unfold FreeTrial.run_trial.
  destruct (16 <? String.length username)%nat; [reflexivity |].
  destruct (subscriptions w !! username) as [row |].
  - destruct (_ || _); cbn [snd subscriptions]; [| reflexivity].
    apply lookup_insert_ne. congruence.
  - cbn [snd subscriptions]. apply lookup_insert_ne. congruence.
Qed.

(** X24. A free trial of [days > 0] never shortens a window.  When the pool
    takes the call, the stored expiration afterwards is the later of the
    stored one and now plus [days] days; a row whose expiration is not
    earlier than that is left exactly as it is (an inactive row stays
    inactive), any other row of the username is replaced by an active one
    dated now.  No other username is touched. *)
Theorem X24_free_trial_extends_only username days w :
  0 < days ->
  List.hd None (pool_faults w) = None ->
  (String.length username <= 16)%nat ->
  let now := clock w in
  let candidate := now + days * JsDate.msPerDay in
  let w1 := snd (FreeTrial.addFreeTrial username days w) in
  (expiration_date <$> subscriptions w1 !! username)
    = Earlier.later (expiration_date <$> subscriptions w !! username) candidate /\
  (forall row, subscriptions w !! username = Some row ->
     candidate <= expiration_date row ->
     subscriptions w1 !! username = Some row) /\
  (subscriptions w1 !! username <> subscriptions w !! username ->
   subscriptions w1 !! username = Some (granted now candidate now)) /\
  (forall u, u <> username -> subscriptions w1 !! u = subscriptions w !! u).
Proof.
  intros Hdays Hfault Hlen now candidate w1.
  destruct (addFreeTrial_answers username days w Hfault Hlen) as (tbl & Hrun & Hout).
  fold now in Hrun, Hout.
  assert (Hz : (days =? 0) = false) by (apply Z.eqb_neq; lia).
  rewrite Hz in Hrun. fold candidate in Hrun.
  unfold FreeTrial.run_trial in Hrun. rewrite Hz in Hrun.
  replace (16 <? String.length username)%nat with false in Hrun
    by (symmetry; apply Nat.ltb_ge; exact Hlen).
  assert (Htbl : subscriptions w1 = tbl) by (subst w1; rewrite Hout; reflexivity).
  split; [| split; [| split]].
  - rewrite Htbl.
    destruct (subscriptions w !! username) as [row |] eqn:Hrow.
    + rewrite orb_false_r in Hrun.
      destruct (Z.ltb_spec (expiration_date row) candidate) as [Hlt | Hge];
        injection Hrun as <-.
      * rewrite lookup_insert_eq. cbn. f_equal. lia.
      * rewrite Hrow. cbn. f_equal. lia.
    + injection Hrun as <-. rewrite lookup_insert_eq. reflexivity.
  - intros row Hrow Hge. rewrite Htbl.
    rewrite Hrow, orb_false_r in Hrun.
    replace (expiration_date row <? candidate) with false in Hrun
      by (symmetry; apply Z.ltb_ge; exact Hge).
    injection Hrun as <-. exact Hrow.
  - intros Hchanged. rewrite Htbl in Hchanged |- *.
    destruct (subscriptions w !! username) as [row |] eqn:Hrow.
    + rewrite orb_false_r in Hrun.
      destruct (expiration_date row <? candidate); injection Hrun as <-.
      * rewrite lookup_insert_eq. unfold granted.
        replace (0 <? days) with true by (symmetry; apply Z.ltb_lt; exact Hdays).
        reflexivity.
      * contradiction Hchanged.
    + injection Hrun as <-. apply lookup_insert_eq.
  - intros u Hu. apply addFreeTrial_others. exact Hu.
Qed.

(** X25. [days = 0] revokes: when the pool takes the call, an existing row
    of the username is overwritten, whatever its expiration, by an
    inactive row whose subscription and expiration dates are now.  For a
    username without a row the statement inserts, and the inserted row
    carries the column default: it is active, with an expiration of now,
    until a sweep at a later time deactivates it. *)
Theorem X25_zero_days_revokes username w :
  List.hd None (pool_faults w) = None ->
  (String.length username <= 16)%nat ->
  let now := clock w in
  let w1 := snd (FreeTrial.addFreeTrial username 0 w) in
  subscriptions w1 !! username
  = Some {| subscription_date := now; expiration_date := now; date_updated := now;
            active_subscription :=
              match subscriptions w !! username with
              | Some _ => false
              | None => true
              end |} /\
  (forall later row,
      Periodic.swept later (subscriptions w1) !! username = Some row ->
      now < later -> active_subscription row = false).
Proof.
  intros Hfault Hlen now w1.
  destruct (addFreeTrial_answers username 0 w Hfault Hlen) as (tbl & Hrun & Hout).
  fold now in Hrun, Hout. cbn [Z.eqb] in Hrun.
  assert (Htbl : subscriptions w1 = tbl) by (subst w1; rewrite Hout; reflexivity).
  assert (Hrow1 : subscriptions w1 !! username
    = Some {| subscription_date := now; expiration_date := now; date_updated := now;
              active_subscription :=
                match subscriptions w !! username with
                | Some _ => false
                | None => true
                end |}).
  { rewrite Htbl. unfold FreeTrial.run_trial in Hrun.
    replace (16 <? String.length username)%nat with false in Hrun
      by (symmetry; apply Nat.ltb_ge; exact Hlen).
    destruct (subscriptions w !! username) as [row |].
    - rewrite orb_true_r in Hrun. injection Hrun as <-. apply lookup_insert_eq.
    - injection Hrun as <-. apply lookup_insert_eq. }
  split; [exact Hrow1 |].
  intros later row Hrow Hlater. rewrite swept_lookup, Hrow1 in Hrow.
  cbn [fmap option_fmap option_map] in Hrow. injection Hrow as <-.
  unfold Periodic.overdue. cbn [expiration_date active_subscription].
  replace (now <? later) with true by (symmetry; apply Z.ltb_lt; exact Hlater).
  destruct (subscriptions w !! username); reflexivity.
Qed.

(** X26. The script validates before it writes.  Whatever is typed and
    whatever the pool does, [main] does not throw and touches no row
    other than the username's; when it changes the table at all, the
    username has between 1 and 16 characters and the second answer starts
    (after white space) with an integer that is not negative.  An answer
    that reads as a negative number or as no number, an empty username and
    one longer than 16 characters leave everything as it is, the pool not
    even called. *)
Theorem X26_main_validates username daysInput w :
  let out := FreeTrial.main username daysInput w in
  fst out = Resolved tt /\
  (forall u, u <> username ->
     subscriptions (snd out) !! u = subscriptions w !! u) /\
  (subscriptions (snd out) <> subscriptions w ->
   (1 <= String.length username <= 16)%nat /\
   exists days, FreeTrial.parseInt daysInput = Some days /\ 0 <= days) /\
  (username = ""%string \/ (16 < String.length username)%nat
   \/ FreeTrial.parseInt daysInput = None
   \/ (exists days, FreeTrial.parseInt daysInput = Some days /\ days < 0) ->
   snd out = w).
Proof.
  intros out. subst out. unfold FreeTrial.main.
  assert (Hsame :
    fst (@Resolved unit tt, w) = Resolved tt /\
    (forall u, u <> username ->
       subscriptions (snd (@Resolved unit tt, w)) !! u = subscriptions w !! u) /\
    (subscriptions (snd (@Resolved unit tt, w)) <> subscriptions w ->
     (1 <= String.length username <= 16)%nat /\
     exists days, FreeTrial.parseInt daysInput = Some days /\ 0 <= days) /\
    (username = ""%string \/ (16 < String.length username)%nat
     \/ FreeTrial.parseInt daysInput = None
     \/ (exists days, FreeTrial.parseInt daysInput = Some days /\ days < 0) ->
     snd (@Resolved unit tt, w) = w)).
  { cbn [fst snd]. split; [reflexivity |]. split; [reflexivity |].
    split; [intros Hne; contradiction Hne; reflexivity | intros _; reflexivity]. }
  destruct (String.eqb_spec username "") as [Hempty | Hname]; cbn [orb];
    [exact Hsame |].
  destruct (Nat.ltb_spec 16 (String.length username)) as [Hlong | Hshort];
    [exact Hsame |].
  destruct (FreeTrial.parseInt daysInput) as [days |]; [| exact Hsame].
  destruct (Z.ltb_spec days 0) as [Hneg | Hpos]; [exact Hsame |].
  clear Hsame. split.
  { unfold FreeTrial.addFreeTrial.
    destruct (FreeTrial.pool_trial _ _ _ _ w) as [[u | e] w1]; reflexivity. }
  split; [intros u Hu; apply addFreeTrial_others; exact Hu |].
  split.
  - intros _. split.
    + split; [| exact Hshort].
      destruct username; [contradiction Hname; reflexivity | cbn; lia].
    + exists days. split; [reflexivity | exact Hpos].
  - intros [Habs | [Habs | [Habs | (d & Habs & Hd)]]];
      try contradiction; try discriminate; try lia.
    injection Habs as ->. lia.
Qed.

Lemma read_digits_app ds rest :
  FreeTrial.all_digits ds = true ->
  FreeTrial.breaks_number rest = true ->
  forall acc count,
    JsString.read_digits (String.append ds rest) acc count
    = (fst (fst (JsString.read_digits ds acc count)),
       snd (fst (JsString.read_digits ds acc count)), rest).
Proof.
  intros Hds Hrest. induction ds as [| c ds IH]; intros acc count.
  - change (String.append "" rest) with rest. cbn [JsString.read_digits fst snd].
    destruct rest as [| c rest]; [reflexivity |].
    cbn [JsString.read_digits]. cbn [FreeTrial.breaks_number] in Hrest.
    destruct (JsString.digit c); [discriminate | reflexivity].
  - change (String.append (String c ds) rest) with (String c (String.append ds rest)).
    cbn [JsString.read_digits]. cbn [FreeTrial.all_digits] in Hds.
    destruct (JsString.digit c) as [v |]; [| discriminate].
    apply IH. exact Hds.
Qed.

Lemma read_digits_count ds :
  FreeTrial.all_digits ds = true ->
  forall acc count,
    0 <= acc ->
    0 <= fst (fst (JsString.read_digits ds acc count)) /\
    snd (fst (JsString.read_digits ds acc count)) = count + Z.of_nat (String.length ds).
Proof.
  induction ds as [| c ds IH]; intros Hds acc count Hacc.
  - cbn. split; lia.
  - cbn [JsString.read_digits String.length]. cbn [FreeTrial.all_digits] in Hds.
    destruct (JsString.digit c) as [v |] eqn:Hv; [| discriminate].
    assert (Hv0 : 0 <= v).
    { unfold JsString.digit in Hv.
      destruct ((48 <=? JsString.code c) && (JsString.code c <=? 57)) eqn:Hr;
        [| discriminate].
      injection Hv as <-. apply andb_true_iff in Hr. destruct Hr as [Hlo _].
      apply Z.leb_le in Hlo. lia. }
    destruct (IH Hds (10 * acc + v) (count + 1) ltac:(lia)) as [Hval Hcount].
    split; [exact Hval | lia].
Qed.

(** A decimal digit is neither white space nor a sign. *)
Lemma digit_plain c v rest :
  JsString.digit c = Some v ->
  JsString.read_sign (JsString.skip_spaces (String c rest)) = (false, String c rest) /\
  (Ascii.eqb c "x" || Ascii.eqb c "X") = false.
Proof.
  intros Hv.
  destruct c as [[] [] [] [] [] [] [] []]; try discriminate Hv; split; reflexivity.
Qed.

(** X27. [parseInt] reads the decimal digits an answer starts with and
    ignores what follows them: for a non-empty string of digits followed by
    text that does not start with a digit (nor with the [x] that would
    make a leading [0] a hexadecimal prefix), the number of days is that
    of the digits alone, a non-negative integer, and [main] behaves as if
    only the digits had been typed. *)
Theorem X27_days_answer_prefix ds rest :
  ds <> ""%string ->
  FreeTrial.all_digits ds = true ->
  FreeTrial.breaks_number rest = true ->
  (exists days, 0 <= days /\ FreeTrial.parseInt ds = Some days) /\
  FreeTrial.parseInt (String.append ds rest) = FreeTrial.parseInt ds /\
  (forall username w,
      FreeTrial.main username (String.append ds rest) w = FreeTrial.main username ds w).
Proof.
  intros Hne Hds Hrest.
  assert (Hvalue : forall tail,
    FreeTrial.breaks_number tail = true ->
    FreeTrial.parseInt (String.append ds tail)
    = Some (fst (fst (JsString.read_digits ds 0 0)))).
  { intros tail Htail.
    destruct ds as [| c ds]; [contradiction Hne; reflexivity |].
    change (String.append (String c ds) tail) with (String c (String.append ds tail)).
    pose proof Hds as Hc. cbn [FreeTrial.all_digits] in Hc.
    destruct (JsString.digit c) as [v |] eqn:Hv; [| discriminate].
    unfold FreeTrial.parseInt.
    destruct (digit_plain c v (String.append ds tail) Hv) as [-> _].
    assert (Hdec : FreeTrial.read_decimal (String c (String.append ds tail))
                   = (fst (fst (JsString.read_digits (String c ds) 0 0)),
                      snd (fst (JsString.read_digits (String c ds) 0 0)))).
    { unfold FreeTrial.read_decimal.
      change (String c (String.append ds tail))
        with (String.append (String c ds) tail).
      rewrite (read_digits_app (String c ds) tail Hds Htail). reflexivity. }
    assert (Hbranch :
      match String.append ds tail with
      | String x rest0 =>
          if Ascii.eqb c "0" && (Ascii.eqb x "x" || Ascii.eqb x "X")
          then FreeTrial.read_hex rest0 0 0
          else FreeTrial.read_decimal (String c (String.append ds tail))
      | EmptyString => FreeTrial.read_decimal (String c (String.append ds tail))
      end = FreeTrial.read_decimal (String c (String.append ds tail))).
    { destruct ds as [| d ds].
      - change (String.append "" tail) with tail.
        destruct tail as [| x tail]; [reflexivity |].
        cbn [FreeTrial.breaks_number] in Htail.
        destruct (JsString.digit x).
        + discriminate.
        + apply negb_true_iff in Htail. rewrite Htail, andb_false_r. reflexivity.
      - change (String.append (String d ds) tail)
          with (String d (String.append ds tail)).
        cbn [FreeTrial.all_digits] in Hc.
        destruct (JsString.digit d) as [vd |] eqn:Hd; [| discriminate].
        destruct (digit_plain d vd EmptyString Hd) as [_ ->].
        rewrite andb_false_r. reflexivity. }
    change (match String c (String.append ds tail) with
            | String z (String x rest0) =>
                if Ascii.eqb z "0" && (Ascii.eqb x "x" || Ascii.eqb x "X")
                then FreeTrial.read_hex rest0 0 0
                else FreeTrial.read_decimal (String c (String.append ds tail))
            | _ => FreeTrial.read_decimal (String c (String.append ds tail))
            end)
      with (match String.append ds tail with
            | String x rest0 =>
                if Ascii.eqb c "0" && (Ascii.eqb x "x" || Ascii.eqb x "X")
                then FreeTrial.read_hex rest0 0 0
                else FreeTrial.read_decimal (String c (String.append ds tail))
            | EmptyString => FreeTrial.read_decimal (String c (String.append ds tail))
            end).
    rewrite Hbranch, Hdec.
    destruct (read_digits_count (String c ds) Hds 0 0 ltac:(lia)) as [_ Hcount].
    rewrite Hcount. cbn [String.length].
    replace (0 + Z.of_nat (S (String.length ds)) =? 0) with false
      by (symmetry; apply Z.eqb_neq; lia).
    reflexivity. }
  assert (Hplain : FreeTrial.parseInt ds = Some (fst (fst (JsString.read_digits ds 0 0)))).
  { rewrite <- (Hvalue EmptyString eq_refl). f_equal.
    clear. induction ds as [| c ds IH]; [reflexivity |].
    change (String.append (String c ds) "") with (String c (String.append ds "")).
    rewrite <- IH. reflexivity. }
  assert (Hsame : FreeTrial.parseInt (String.append ds rest) = FreeTrial.parseInt ds)
    by (rewrite Hplain; apply Hvalue; exact Hrest).
  split; [| split; [exact Hsame |]].
  - eexists. split; [| exact Hplain].
    apply (read_digits_count ds Hds 0 0). lia.
  - intros username w. unfold FreeTrial.main. rewrite Hsame. reflexivity.
Qed.

End FreeTrialExtra.

(** X24 at a seven-day trial for alice, whose window ended five days ago,
    and for bob, whose window still runs for thirty days. *)
Lemma X24_witness :
  let w := Db.world (store (SampleService.service Example.jan15 0)) in
  (Db.expiration_date
     <$> Db.subscriptions (snd (FreeTrial.addFreeTrial "alice" 7 w)) !! "alice")
    = Some (Example.jan15 + Example.days 7) /\
  Db.subscriptions (snd (FreeTrial.addFreeTrial "bob" 7 w)) !! "bob"
    = Some SampleService.running_row.
Proof.
  intros w. split.
  - destruct (X24_free_trial_extends_only "alice" 7 w) as (Hexp & _);
      [lia | reflexivity | vm_compute; lia |].
    rewrite Hexp. vm_compute. reflexivity.
  - destruct (X24_free_trial_extends_only "bob" 7 w) as (_ & Hkeep & _);
      [lia | reflexivity | vm_compute; lia |].
    apply Hkeep; [reflexivity | vm_compute; discriminate].
Defined.

(** X25 at bob, whose window still runs, and at a username without a row. *)
Lemma X25_witness :
  let w := Db.world (store (SampleService.service Example.jan15 0)) in
  (Db.active_subscription
     <$> Db.subscriptions (snd (FreeTrial.addFreeTrial "bob" 0 w)) !! "bob") = Some false /\
  (Db.expiration_date
     <$> Db.subscriptions (snd (FreeTrial.addFreeTrial "bob" 0 w)) !! "bob")
    = Some Example.jan15 /\
  (Db.active_subscription
     <$> Db.subscriptions (snd (FreeTrial.addFreeTrial "carol" 0 w)) !! "carol")
    = Some true.
Proof.
  intros w.
  destruct (X25_zero_days_revokes "bob" w) as (Hbob & _);
    [reflexivity | vm_compute; lia |].
  destruct (X25_zero_days_revokes "carol" w) as (Hcarol & _);
    [reflexivity | vm_compute; lia |].
  rewrite Hbob, Hcarol. repeat split.
Defined.

(** X27 at the answer ["7 days"]. *)
Lemma X27_witness :
  FreeTrial.parseInt "7 days" = FreeTrial.parseInt "7" /\
  FreeTrial.parseInt "7" = Some 7.
Proof.
  destruct (X27_days_answer_prefix "7" " days") as (_ & Hsame & _);
    [discriminate | reflexivity | reflexivity |].
  split; [exact Hsame | reflexivity].
Defined.


(* ===================================================================== *)
(** * The search of the last 31 days *)
(* ===================================================================== *)
Section BackfillExtra.
Import Db.
Variable env : Env.
Variable fromISO : string -> option Z.

(** X28. The search and the real-time classifier apply the same test.
    When the two payment accounts are different, an operation whose time
    stamp lies in the searched range is handed to
    [processSubscriptionTransfer] by the classifier exactly when the search
    would hand it over for one of its three parameter sets, and with the
    same transfer; otherwise the classifier does nothing. *)
Theorem X28_search_and_classifier_agree operation s startDate endDate t :
  SUBSCRIPTION_PAYMENT_ACCOUNT env <> AI_PAYMENT_ACCOUNT env ->
  fromISO (Monitor.op_timestamp operation) = Some t ->
  startDate <= t <= endDate ->
  snd (Monitor.classify env operation s) =
    match Backfill.matching env fromISO startDate endDate operation with
    | Some transfer => snd (Ledger.processSubscriptionTransfer env transfer s)
    | None => s
    end.
Proof.
  intros Hne Htime Hrange.
  unfold Monitor.classify, Backfill.matching, Backfill.checkParams.
  cbn [List.map]. unfold Backfill.valid.
  cbn [Backfill.account Backfill.amount Backfill.requireMemo Backfill.memoText].
  destruct (Monitor.op operation) as [[opType opData] |]; [| reflexivity].
  rewrite Htime. unfold Backfill.not_before, Backfill.not_after.
  replace (startDate <=? t) with true by (symmetry; apply Z.leb_le; lia).
  replace (t <=? endDate) with true by (symmetry; apply Z.leb_le; lia).
  rewrite !andb_true_r.
  rewrite toLowerCase_app.
  change (JsString.toLowerCase "subscribe:") with "subscribe:"%string.
  set (parts := JsString.split " " (Monitor.op_amount opData)).
  set (parsed := JsString.parseFloat (List.hd EmptyString parts)).
  set (is_HBD := match List.nth_error parts 1 with
                 | Some sym => String.eqb sym "HBD"
                 | None => false
                 end).
  destruct (String.eqb opType "transfer" || String.eqb opType "fill_recurrent_transfer");
    [| reflexivity].
  cbn [andb].
  destruct (String.eqb_spec (Monitor.op_to opData) (SUBSCRIPTION_PAYMENT_ACCOUNT env))
    as [Hsub | Hsub];
    destruct (String.eqb_spec (Monitor.op_to opData) (AI_PAYMENT_ACCOUNT env))
      as [Hai | Hai];
    try (exfalso; apply Hne; congruence); cbn [orb andb List.filter List.hd].
  - destruct (JsString.num_eq parsed (Some (SUBSCRIPTION_AMOUNT env))); cbn [andb];
      [| reflexivity].
    destruct is_HBD; cbn [andb]; [| reflexivity].
    destruct (String.eqb (JsString.toLowerCase (Monitor.op_memo opData)) _);
      reflexivity.
  - destruct is_HBD; cbn [andb]; rewrite ?andb_false_r; cbn [List.filter List.hd];
      [| reflexivity].
    destruct (JsString.num_eq parsed (Some (AI_SUBSCRIPTION_FULL_AMOUNT env)));
      cbn [orb List.filter List.hd]; [reflexivity |].
    destruct (JsString.num_eq parsed (Some (AI_SUBSCRIPTION_MINI_AMOUNT env)));
      reflexivity.
  - reflexivity.
Qed.

(** ** Replaying old payments *)

(** [processSubscriptionTransfer] does nothing or is one [addSubscription]
    for the sender with one of the three day counts. *)
Lemma processSubscriptionTransfer_cases transfer s :
  Ledger.processSubscriptionTransfer env transfer s = (Resolved false, s) \/
  exists days,
    (days = AI_SUBSCRIPTION_FULL_DAYS env \/ days = AI_SUBSCRIPTION_MINI_DAYS env
     \/ days = 31) /\
    Ledger.processSubscriptionTransfer env transfer s
    = Ledger.addSubscription (from transfer) days s.
Proof.
  unfold Ledger.processSubscriptionTransfer.
  assert (Hstandard :
    (if String.eqb (to transfer) (SUBSCRIPTION_PAYMENT_ACCOUNT env)
        && JsString.num_eq (amount_value (amount transfer))
             (Some (SUBSCRIPTION_AMOUNT env))
        && String.eqb (symbol (amount transfer)) "HBD"
     then
       match JsString.match_subscribe (memo transfer) with
       | None => (Resolved false, s)
       | Some subscribingAccount =>
           if negb (String.eqb (JsString.toLowerCase subscribingAccount)
                      (JsString.toLowerCase (SUBSCRIPTION_ACCOUNT env)))
           then (Resolved false, s)
           else Ledger.addSubscription (from transfer) 31 s
       end
     else (Resolved false, s)) = (Resolved false, s)
    \/ exists days,
         (days = AI_SUBSCRIPTION_FULL_DAYS env \/ days = AI_SUBSCRIPTION_MINI_DAYS env
          \/ days = 31) /\
         (if String.eqb (to transfer) (SUBSCRIPTION_PAYMENT_ACCOUNT env)
             && JsString.num_eq (amount_value (amount transfer))
                  (Some (SUBSCRIPTION_AMOUNT env))
             && String.eqb (symbol (amount transfer)) "HBD"
          then
            match JsString.match_subscribe (memo transfer) with
            | None => (Resolved false, s)
            | Some subscribingAccount =>
                if negb (String.eqb (JsString.toLowerCase subscribingAccount)
                           (JsString.toLowerCase (SUBSCRIPTION_ACCOUNT env)))
                then (Resolved false, s)
                else Ledger.addSubscription (from transfer) 31 s
            end
          else (Resolved false, s))
         = Ledger.addSubscription (from transfer) days s).
  { destruct (_ && _); [| left; reflexivity].
    destruct (JsString.match_subscribe (memo transfer)) as [account |];
      [| left; reflexivity].
    destruct (negb _); [left; reflexivity |].
    right. exists 31. split; [right; right; reflexivity | reflexivity]. }
  destruct (String.eqb (to transfer) (AI_PAYMENT_ACCOUNT env)
            && String.eqb (symbol (amount transfer)) "HBD"); [| exact Hstandard].
  destruct (JsString.num_eq (amount_value (amount transfer))
              (Some (AI_SUBSCRIPTION_FULL_AMOUNT env))).
  - right. eexists. split; [left; reflexivity | reflexivity].
  - destruct (JsString.num_eq (amount_value (amount transfer))
                (Some (AI_SUBSCRIPTION_MINI_AMOUNT env))); [| exact Hstandard].
    right. eexists. split; [right; left; reflexivity | reflexivity].
Qed.

(** A transfer of an AI amount to the AI payment account is granted. *)
Lemma processSubscriptionTransfer_ai transfer s :
  to transfer = AI_PAYMENT_ACCOUNT env ->
  symbol (amount transfer) = "HBD"%string ->
  JsString.num_eq (amount_value (amount transfer))
    (Some (AI_SUBSCRIPTION_FULL_AMOUNT env)) = true
  \/ JsString.num_eq (amount_value (amount transfer))
       (Some (AI_SUBSCRIPTION_MINI_AMOUNT env)) = true ->
  exists days,
    (days = AI_SUBSCRIPTION_FULL_DAYS env \/ days = AI_SUBSCRIPTION_MINI_DAYS env) /\
    Ledger.processSubscriptionTransfer env transfer s
    = Ledger.addSubscription (from transfer) days s.
Proof.
  intros Hto Hsym Hamount.
  destruct (JsString.num_eq (amount_value (amount transfer))
              (Some (AI_SUBSCRIPTION_FULL_AMOUNT env))) eqn:Hfull.
  - exists (AI_SUBSCRIPTION_FULL_DAYS env). split; [left; reflexivity |].
    unfold Ledger.processSubscriptionTransfer.
    rewrite Hto, Hsym, String.eqb_refl, Hfull. reflexivity.
  - destruct Hamount as [Habs | Hmini]; [discriminate |].
    exists (AI_SUBSCRIPTION_MINI_DAYS env). split; [right; reflexivity |].
    unfold Ledger.processSubscriptionTransfer.
    rewrite Hto, Hsym, String.eqb_refl, Hfull, Hmini. reflexivity.
Qed.

(** One grant on a database that answers: the payer's window is running
    afterwards, and so is every window that was running. *)
Lemma addSubscription_running username days s :
  healthy s ->
  (String.length username <= 16)%nat ->
  0 <= days ->
  let now := clock (world s) in
  let s1 := snd (Ledger.addSubscription username days s) in
  healthy s1 /\ clock (world s1) = now /\
  Backfill.running now username s1 /\
  (forall u, Backfill.running now u s -> Backfill.running now u s1).
Proof.
  intros Hs Hlen Hdays now s1.
  destruct (subscriptions (world s) !! username) as [row |] eqn:Hrow.
  - destruct (Z_le_gt_dec now (expiration_date row)) as [Hactive | Hlapsed].
    + destruct (addSubscription_active username days s row Hs Hrow Hactive)
        as (_ & Hs1 & Hc & Ht & _).
      fold s1 in Hs1, Hc, Ht.
      split; [exact Hs1 |]. split; [exact Hc |].
      unfold Backfill.running, Ledger.expiration_of. rewrite Ht. split.
      * exists (expiration_date row). rewrite Hrow. split; [reflexivity | exact Hactive].
      * intros u Hu. exact Hu.
    + destruct (addSubscription_writes username days s Hs Hlen) as (_ & Hs1 & Hc & Ht & _).
      { intros row' Hrow'. rewrite Hrow in Hrow'. injection Hrow' as <-. fold now. lia. }
      fold s1 now in Hs1, Hc, Ht.
      split; [exact Hs1 |]. split; [exact Hc |].
      unfold Backfill.running, Ledger.expiration_of. rewrite Ht.
      pose proof (written_expiration_ge (subscriptions (world s) !! username) now days Hdays)
        as Hge.
      assert (Hms : 0 <= days * JsDate.msPerDay) by (unfold JsDate.msPerDay; lia).
      split.
      * rewrite lookup_insert_eq. eexists. split; [reflexivity |].
        cbn [granted expiration_date]. rewrite Hrow in Hge |- *. lia.
      * intros u (e & He & Hle). destruct (decide (username = u)) as [<- | Hu].
        -- rewrite lookup_insert_eq. eexists. split; [reflexivity |].
           cbn [granted expiration_date]. rewrite Hrow in Hge |- *. lia.
        -- rewrite lookup_insert_ne by exact Hu. exists e. split; assumption.
  - destruct (addSubscription_writes username days s Hs Hlen) as (_ & Hs1 & Hc & Ht & _).
    { intros row' Hrow'. rewrite Hrow in Hrow'. discriminate. }
    fold s1 now in Hs1, Hc, Ht.
    split; [exact Hs1 |]. split; [exact Hc |].
    unfold Backfill.running, Ledger.expiration_of. rewrite Ht.
    pose proof (written_expiration_ge (subscriptions (world s) !! username) now days Hdays)
      as Hge.
    assert (Hms : 0 <= days * JsDate.msPerDay) by (unfold JsDate.msPerDay; lia).
    split.
    + rewrite lookup_insert_eq. eexists. split; [reflexivity |].
      cbn [granted expiration_date]. rewrite Hrow in Hge |- *. lia.
    + intros u (e & He & Hle). destruct (decide (username = u)) as [<- | Hu].
      * rewrite lookup_insert_eq. eexists. split; [reflexivity |].
        cbn [granted expiration_date]. rewrite Hrow in Hge |- *. lia.
      * rewrite lookup_insert_ne by exact Hu. exists e. split; assumption.
Qed.

Hypothesis full_days : 0 <= AI_SUBSCRIPTION_FULL_DAYS env.
Hypothesis mini_days : 0 <= AI_SUBSCRIPTION_MINI_DAYS env.

Lemma processSubscriptionTransfer_running transfer s :
  healthy s ->
  (String.length (from transfer) <= 16)%nat ->
  let now := clock (world s) in
  let s1 := snd (Ledger.processSubscriptionTransfer env transfer s) in
  healthy s1 /\ clock (world s1) = now /\
  (forall u, Backfill.running now u s -> Backfill.running now u s1) /\
  (to transfer = AI_PAYMENT_ACCOUNT env ->
   symbol (amount transfer) = "HBD"%string ->
   JsString.num_eq (amount_value (amount transfer))
     (Some (AI_SUBSCRIPTION_FULL_AMOUNT env)) = true
   \/ JsString.num_eq (amount_value (amount transfer))
        (Some (AI_SUBSCRIPTION_MINI_AMOUNT env)) = true ->
   Backfill.running now (from transfer) s1).
Proof.
  intros Hs Hlen now s1.
  assert (Hgrant : forall days,
    days = AI_SUBSCRIPTION_FULL_DAYS env \/ days = AI_SUBSCRIPTION_MINI_DAYS env
    \/ days = 31 ->
    Ledger.processSubscriptionTransfer env transfer s
    = Ledger.addSubscription (from transfer) days s ->
    healthy s1 /\ clock (world s1) = now /\
    Backfill.running now (from transfer) s1 /\
    (forall u, Backfill.running now u s -> Backfill.running now u s1)).
  { intros days Hdays Heq. subst s1. rewrite Heq.
    apply addSubscription_running; [exact Hs | exact Hlen |].
    destruct Hdays as [-> | [-> | ->]]; [exact full_days | exact mini_days | lia]. }
  destruct (processSubscriptionTransfer_cases transfer s) as [Hnone | (days & Hdays & Heq)].
  - split; [subst s1; rewrite Hnone; exact Hs |].
    split; [subst s1; rewrite Hnone; reflexivity |].
    split; [subst s1; rewrite Hnone; intros u Hu; exact Hu |].
    intros Hto Hsym Hamount.
    destruct (processSubscriptionTransfer_ai transfer s Hto Hsym Hamount)
      as (d & Hd & Heq).
    destruct (Hgrant d) as (_ & _ & Hrun & _); [tauto | exact Heq | exact Hrun].
  - destruct (Hgrant days Hdays Heq) as (H1 & H2 & H3 & H4).
    split; [exact H1 |]. split; [exact H2 |]. split; [exact H4 |].
    intros _ _ _. exact H3.
Qed.

(** A batch of transfers on a database that answers. *)
Lemma process_each_running transfers :
  forall s,
    healthy s ->
    Forall (fun transfer => (String.length (from transfer) <= 16)%nat) transfers ->
    let now := clock (world s) in
    let s1 := Backfill.process_each env transfers s in
    healthy s1 /\ clock (world s1) = now /\
    (forall u, Backfill.running now u s -> Backfill.running now u s1) /\
    (forall transfer,
        In transfer transfers ->
        to transfer = AI_PAYMENT_ACCOUNT env ->
        symbol (amount transfer) = "HBD"%string ->
        JsString.num_eq (amount_value (amount transfer))
          (Some (AI_SUBSCRIPTION_FULL_AMOUNT env)) = true
        \/ JsString.num_eq (amount_value (amount transfer))
             (Some (AI_SUBSCRIPTION_MINI_AMOUNT env)) = true ->
        Backfill.running now (from transfer) s1).
Proof.
  induction transfers as [| transfer rest IH]; intros s Hs Hfit now s1.
  - subst s1. cbn [Backfill.process_each].
    split; [exact Hs |]. split; [reflexivity |].
    split; [intros u Hu; exact Hu | intros transfer []].
  - inversion Hfit as [| ? ? Hlen Hrest]; subst.
    destruct (processSubscriptionTransfer_running transfer s Hs Hlen)
      as (Hs2 & Hc2 & Hkeep2 & Hgrant2).
    fold now in Hc2, Hkeep2, Hgrant2.
    destruct (IH _ Hs2 Hrest) as (Hs3 & Hc3 & Hkeep3 & Hgrant3).
    rewrite Hc2 in Hc3, Hkeep3, Hgrant3.
    subst s1. cbn [Backfill.process_each].
    split; [exact Hs3 |]. split; [exact Hc3 |].
    split; [intros u Hu; apply Hkeep3, Hkeep2, Hu |].
    intros tr [<- | Hin] Hto Hsym Hamount.
    + apply Hkeep3. apply Hgrant2; assumption.
    + apply Hgrant3; assumption.
Qed.

(** What the search finds comes from the result it was given. *)
Lemma validTransfers_from startDate endDate params result :
  (forall operation opType opData,
      In operation result ->
      Monitor.op operation = Some (opType, opData) ->
      (String.length (Monitor.op_from opData) <= 16)%nat) ->
  Forall (fun transfer => (String.length (from transfer) <= 16)%nat)
    (Backfill.validTransfers fromISO startDate endDate params result).
Proof.
  induction result as [| operation rest IH]; intros Hfit; [constructor |].
  cbn [Backfill.validTransfers].
  assert (Hrest : Forall (fun transfer => (String.length (from transfer) <= 16)%nat)
                    (Backfill.validTransfers fromISO startDate endDate params rest)).
  { apply IH. intros o opType opData Hin Hop. apply (Hfit o opType opData); [right |];
      assumption. }
  destruct (Backfill.valid fromISO startDate endDate params operation) as [transfer |]
    eqn:Hvalid; [| exact Hrest].
  constructor; [| exact Hrest].
  unfold Backfill.valid in Hvalid.
  destruct (Monitor.op operation) as [[opType opData] |] eqn:Hop; [| discriminate].
  destruct (_ && _); [| discriminate].
  destruct (_ && _); [| discriminate].
  injection Hvalid as <-. cbn [from].
  apply (Hfit operation opType opData); [left; reflexivity | exact Hop].
Qed.

Lemma validTransfers_In startDate endDate params result operation transfer :
  In operation result ->
  Backfill.valid fromISO startDate endDate params operation = Some transfer ->
  In transfer (Backfill.validTransfers fromISO startDate endDate params result).
Proof.
  induction result as [| o rest IH]; intros Hin Hvalid; [contradiction |].
  cbn [Backfill.validTransfers]. destruct Hin as [-> | Hin].
  - rewrite Hvalid. left. reflexivity.
  - destruct (Backfill.valid fromISO startDate endDate params o);
      [right |]; apply IH; assumption.
Qed.

Variable fetch : nat -> string -> Outcome (list Monitor.Operation).

Lemma search_running startDate endDate todo :
  forall n s,
    healthy s ->
    (forall k params,
        List.nth_error todo k = Some params ->
        exists result,
          fetch (n + k) (Backfill.account params) = Resolved result
          /\ Backfill.senders_fit result) ->
    let now := clock (world s) in
    let out := Backfill.search env fromISO fetch startDate endDate n todo s in
    fst out = Resolved tt /\
    healthy (snd out) /\
    clock (world (snd out)) = now /\
    (forall u, Backfill.running now u s -> Backfill.running now u (snd out)) /\
    (forall k params result operation transfer,
        List.nth_error todo k = Some params ->
        fetch (n + k) (Backfill.account params) = Resolved result ->
        In operation result ->
        Backfill.valid fromISO startDate endDate params operation = Some transfer ->
        to transfer = AI_PAYMENT_ACCOUNT env ->
        symbol (amount transfer) = "HBD"%string ->
        JsString.num_eq (amount_value (amount transfer))
          (Some (AI_SUBSCRIPTION_FULL_AMOUNT env)) = true
        \/ JsString.num_eq (amount_value (amount transfer))
             (Some (AI_SUBSCRIPTION_MINI_AMOUNT env)) = true ->
        Backfill.running now (from transfer) (snd out)).
Proof.
  induction todo as [| params rest IH]; intros n s Hs Hfetch now out.
  - subst out. cbn [Backfill.search fst snd].
    split; [reflexivity |]. split; [exact Hs |]. split; [reflexivity |].
    split; [intros u Hu; exact Hu |].
    intros k params result operation transfer Hk. destruct k; discriminate.
  - destruct (Hfetch O params eq_refl) as (result0 & Hres0 & Hfit0).
    rewrite Nat.add_0_r in Hres0.
    subst out. cbn [Backfill.search]. rewrite Hres0.
    destruct (process_each_running
                (Backfill.validTransfers fromISO startDate endDate params result0) s Hs
                (validTransfers_from startDate endDate params result0 Hfit0))
      as (Hs1 & Hc1 & Hkeep1 & Hgrant1).
    fold now in Hc1, Hkeep1, Hgrant1.
    set (s1 := Backfill.process_each env _ s) in *.
    destruct (IH (S n) s1 Hs1) as (Hok & Hs2 & Hc2 & Hkeep2 & Hgrant2).
    { intros k p Hk. destruct (Hfetch (S k) p Hk) as (r & Hr & Hf).
      exists r. split; [| exact Hf].
      replace (S n + k)%nat with (n + S k)%nat by lia. exact Hr. }
    rewrite Hc1 in Hc2, Hkeep2, Hgrant2.
    split; [exact Hok |]. split; [exact Hs2 |]. split; [exact Hc2 |].
    split; [intros u Hu; apply Hkeep2, Hkeep1, Hu |].
    intros k p result operation transfer Hk Hres Hin Hvalid Hto Hsym Hamount.
    destruct k as [| k].
    + cbn [List.nth_error] in Hk. injection Hk as <-.
      rewrite Nat.add_0_r, Hres0 in Hres. injection Hres as <-.
      apply Hkeep2. apply Hgrant1; try assumption.
      apply (validTransfers_In startDate endDate params result0 operation); assumption.
    + cbn [List.nth_error] in Hk.
      apply (Hgrant2 k p result operation transfer); try assumption.
      replace (S n + k)%nat with (n + S k)%nat by lia. exact Hres.
Qed.

(** X29. The search grants again for payments it has seen before.  Let the
    history of the AI payment account contain a transfer of the full or
    the mini amount in HBD whose time stamp lies in the last 31 days, and
    let the sender's window have ended (a window shorter than 31 days
    that has run out, or one revoked by hand).  Then a run of
    [findTransactions], which [main] starts at every start of the
    process, on a database that answers, ends with the sender's window
    running again: the stored expiration has moved from before now to now
    or later, without any new payment.  (The requests are assumed to
    succeed and to name only senders of at most 16 characters; the day
    counts are not negative.) *)
Theorem X29_restart_renews_lapsed_window s operation opType opData t e0 :
  healthy s ->
  (forall n acct, exists result, fetch n acct = Resolved result /\ Backfill.senders_fit result) ->
  (forall n result, fetch n (AI_PAYMENT_ACCOUNT env) = Resolved result ->
                    In operation result) ->
  Monitor.op operation = Some (opType, opData) ->
  opType = "transfer"%string \/ opType = "fill_recurrent_transfer"%string ->
  Monitor.op_to opData = AI_PAYMENT_ACCOUNT env ->
  List.nth_error (JsString.split " " (Monitor.op_amount opData)) 1 = Some "HBD"%string ->
  (let parsed :=
     JsString.parseFloat
       (List.hd EmptyString (JsString.split " " (Monitor.op_amount opData))) in
   JsString.num_eq parsed (Some (AI_SUBSCRIPTION_FULL_AMOUNT env)) = true
   \/ JsString.num_eq parsed (Some (AI_SUBSCRIPTION_MINI_AMOUNT env)) = true) ->
  fromISO (Monitor.op_timestamp operation) = Some t ->
  clock (world s) - 31 * JsDate.msPerDay <= t <= clock (world s) ->
  Ledger.expiration_of (Monitor.op_from opData) s = Some e0 ->
  e0 < clock (world s) ->
  let out := Backfill.findTransactions env fromISO fetch s in
  fst out = Resolved tt /\
  exists e1,
    Ledger.expiration_of (Monitor.op_from opData) (snd out) = Some e1 /\
    e0 < clock (world s) <= e1.
Proof.
  intros Hs Hfetch Hhist Hop Htype Hto Hsym Hamount Htime Hrange Hstored Hlapsed out.
  cbv zeta in Hamount.
  subst out. unfold Backfill.findTransactions.
  change (Date_now s) with (clock (world s)).
  set (now := clock (world s)) in *.
  destruct (search_running (now - 31 * JsDate.msPerDay) now (Backfill.checkParams env)
              O s Hs) as (Hok & _ & _ & _ & Hgrant).
  { intros k params _. apply Hfetch. }
  fold now in Hgrant.
  split; [exact Hok |].
  set (transfer :=
         Build_Transfer (Monitor.op_from opData) (AI_PAYMENT_ACCOUNT env)
           {| amount_value :=
                JsString.parseFloat
                  (List.hd EmptyString (JsString.split " " (Monitor.op_amount opData)));
              symbol := "HBD" |}
           (Monitor.op_memo opData) (Monitor.op_timestamp operation)).
  assert (Hvalid : forall params,
    Backfill.account params = AI_PAYMENT_ACCOUNT env ->
    Backfill.requireMemo params = false ->
    JsString.num_eq
      (JsString.parseFloat
         (List.hd EmptyString (JsString.split " " (Monitor.op_amount opData))))
      (Some (Backfill.amount params)) = true ->
    Backfill.valid fromISO (now - 31 * JsDate.msPerDay) now params operation
    = Some transfer).
  { intros params Hacct Hmemo Hamt. unfold Backfill.valid.
    rewrite Hop, Hacct, Hto, String.eqb_refl, Hsym, Htime, Hmemo, Hamt.
    replace (String.eqb opType "transfer" || String.eqb opType "fill_recurrent_transfer")
      with true by (destruct Htype as [-> | ->]; reflexivity).
    unfold Backfill.not_before, Backfill.not_after.
    replace (now - 31 * JsDate.msPerDay <=? t) with true
      by (symmetry; apply Z.leb_le; lia).
    replace (t <=? now) with true by (symmetry; apply Z.leb_le; lia).
    reflexivity. }
  assert (Hrunning : Backfill.running now (Monitor.op_from opData)
                       (snd (Backfill.search env fromISO fetch
                               (now - 31 * JsDate.msPerDay) now O
                               (Backfill.checkParams env) s))).
  { destruct Hamount as [Hfull | Hmini].
    - destruct (Hfetch 1%nat (AI_PAYMENT_ACCOUNT env)) as (result & Hres & _).
      apply (Hgrant 1%nat
               {| Backfill.account := AI_PAYMENT_ACCOUNT env;
                  Backfill.amount := AI_SUBSCRIPTION_FULL_AMOUNT env;
                  Backfill.requireMemo := false;
                  Backfill.memoText := EmptyString |}
               result operation transfer);
        [reflexivity | exact Hres | exact (Hhist _ _ Hres)
         | apply Hvalid; [reflexivity | reflexivity | exact Hfull]
         | reflexivity | reflexivity | left; exact Hfull].
    - destruct (Hfetch 2%nat (AI_PAYMENT_ACCOUNT env)) as (result & Hres & _).
      apply (Hgrant 2%nat
               {| Backfill.account := AI_PAYMENT_ACCOUNT env;
                  Backfill.amount := AI_SUBSCRIPTION_MINI_AMOUNT env;
                  Backfill.requireMemo := false;
                  Backfill.memoText := EmptyString |}
               result operation transfer);
        [reflexivity | exact Hres | exact (Hhist _ _ Hres)
         | apply Hvalid; [reflexivity | reflexivity | exact Hmini]
         | reflexivity | reflexivity | right; exact Hmini]. }
  destruct Hrunning as (e1 & He1 & Hle).
  exists e1. split; [exact He1 | lia].
Qed.

End BackfillExtra.

(** X28 at a standard payment. *)
Lemma X28_witness :
  Backfill.matching Example.env (fun _ => Some (Example.jan15 - Example.days 2))
    (Example.jan15 - Example.days 31) Example.jan15
    (Example.transfer_with_memo "subscribe:myaccount") <> None /\
  Ledger.expiration_of "alice"
    (snd (Monitor.classify Example.env (Example.transfer_with_memo "subscribe:myaccount")
            (Example.fresh Example.jan15)))
  = Some (Example.jan15 + Example.days 31).
Proof.
  pose proof (X28_search_and_classifier_agree Example.env
                (fun _ => Some (Example.jan15 - Example.days 2))
                (Example.transfer_with_memo "subscribe:myaccount")
                (Example.fresh Example.jan15)
                (Example.jan15 - Example.days 31) Example.jan15
                (Example.jan15 - Example.days 2)) as Hagree.
  split; [vm_compute; discriminate |].
  rewrite Hagree; [vm_compute; reflexivity | discriminate | reflexivity | vm_compute].
  split; discriminate.
Defined.

(** X29: alice paid the mini amount twelve days ago and her seven days
    ended five days ago; the search at a restart finds the payment in the
    history and her window runs again. *)
Lemma X29_witness :
  let out :=
    Backfill.findTransactions Example.env
      (fun _ => Some (Example.jan15 - Example.days 12))
      (fun _ acct =>
         Resolved (if String.eqb acct "leoai"
                   then [Sample.ai_transfer "3.000 HBD" "thanks!"]
                   else []))
      (store (SampleService.service Example.jan15 0)) in
  exists e1,
    Ledger.expiration_of "alice" (snd out) = Some e1 /\
    Example.jan15 - Example.days 5 < Example.jan15 <= e1.
Proof.
  intros out.
  destruct (X29_restart_renews_lapsed_window Example.env
              (fun _ => Some (Example.jan15 - Example.days 12))
              ltac:(vm_compute; discriminate) ltac:(vm_compute; discriminate)
              (fun _ acct =>
                 Resolved (if String.eqb acct "leoai"
                           then [Sample.ai_transfer "3.000 HBD" "thanks!"]
                           else []))
              (store (SampleService.service Example.jan15 0))
              (Sample.ai_transfer "3.000 HBD" "thanks!") "transfer"
              {| Monitor.op_from := "alice"; Monitor.op_to := "leoai";
                 Monitor.op_amount := "3.000 HBD"; Monitor.op_memo := "thanks!" |}
              (Example.jan15 - Example.days 12) (Example.jan15 - Example.days 5))
    as (_ & e1 & He1 & Hle).
  - repeat split. vm_compute. discriminate.
  - intros n acct. eexists. split; [reflexivity |].
    intros operation opType opData Hin Hop.
    destruct (String.eqb acct "leoai"); [| contradiction].
    destruct Hin as [<- | []]. injection Hop as _ <-. vm_compute. lia.
  - intros n result Hres. injection Hres as <-. left. reflexivity.
  - reflexivity.
  - left. reflexivity.
  - reflexivity.
  - reflexivity.
  - right. vm_compute. reflexivity.
  - reflexivity.
  - vm_compute. split; discriminate.
  - reflexivity.
  - vm_compute. reflexivity.
  - exists e1. split; [exact He1 | exact Hle].
Defined.


(* ===================================================================== *)
(** * Status route *)
(* ===================================================================== *)
Section StatusExtra.
Import Db DbOps.




End StatusExtra.
